(** * ZMK split-keyboard battery monitor: a shallow embedding

    The development follows [zmk_battery/battery_monitor.py] (the
    [BatteryMonitor] class) and the reconnect timer of
    [zmk_battery/system_tray.py] ([BatteryTrayApp._start_reconnect_timer]).

    The BLE stack (bleak) is the environment.  It is modelled by a record
    of answers, [Transport]: every awaited call either returns a value or
    raises an exception carrying a message.  The monitor object and the
    client objects it refers to live in an explicit store that every
    operation threads through, in a state-and-exception monad [M]: as in
    Python, the mutations made before an exception is raised stay.

    What the model takes for granted:
    - a Python [str] is held as its UTF-8 encoding, and an exception is
      an [Exception] with a message: a cancellation of the running task
      (not an [Exception]) is not an answer of the model;
    - the callbacks registered by the caller return or raise, and what
      they do may depend on the calls made before; they do not call back
      into the monitor;
    - [asyncio.create_task] succeeds where an event loop is running (as
      inside [connect]) and raises [RuntimeError] elsewhere; a task that
      was created is pending until the event loop runs it, which is an
      event of its own ([RunTask]): the monitor has dropped its reference
      to the client by then, so nothing it does depends on when that is;
    - the radio link of a client can drop between two operations
      ([LinkLost]), not in the middle of one;
    - the timer is a state machine on counters: how long a tick takes is
      not modelled, and neither are the widgets and the tray icon the
      timer writes to. *)

From Stdlib Require Import ZArith NArith List String Ascii HexString.
From Stdlib Require Import Strings.Byte.
From stdpp Require Import base option list gmap strings.

Local Open Scope string_scope.
Local Open Scope list_scope.
Local Open Scope Z_scope.

#[local] Set Warnings "-clear-no-such-hyp".

(** ** Data model *)

(** Standard Bluetooth GATT Battery Service and Characteristic UUIDs. *)
Definition BATTERY_SERVICE_UUID : string := "0000180f-0000-1000-8000-00805f9b34fb".
Definition BATTERY_LEVEL_CHAR_UUID : string := "00002a19-0000-1000-8000-00805f9b34fb".
Definition BATTERY_DEFAULT_NAME : string := "Main".

Inductive ConnectStatus : Type :=
  | CONNECTED
  | DEVICE_NOT_FOUND
  | BATTERY_SERVICE_NOT_FOUND
  | BATTERY_LEVEL_CHARACTERISTIC_NOT_FOUND
  | SUBSCRIPTION_FAILURE.

Inductive ReadStatus : Type :=
  | SUCCESS
  | NOT_CONNECTED
  | FAILURE.

Record BatteryStatus : Type := mkBatteryStatus {
  name : string;
  level : Z
}.

Record ConnectResult : Type := mkConnectResult {
  connect_status : ConnectStatus;
  connect_error_message : string
}.

Record ReadBatteryLevelResult : Type := mkReadResult {
  read_status : ReadStatus;
  read_batteries : gmap N BatteryStatus;
  read_error_message : string
}.

(** What bleak hands out: devices, services and characteristics.  A
    missing name or description is Python's [None]. *)
Record BLEDevice : Type := mkDevice {
  device_name : option string;
  device_address : string
}.

Record GATTCharacteristic : Type := mkChar {
  char_uuid : string;
  char_handle : N;
  char_description : option string
}.

Record GATTService : Type := mkService {
  service_uuid : string;
  service_characteristics : list GATTCharacteristic
}.

(** A Python call returns or raises [Exception(msg)]; [str(e)] is [msg]. *)
Inductive outcome (A : Type) : Type :=
  | Returned (a : A)
  | Raised (msg : string).
Arguments Returned {A} a.
Arguments Raised {A} msg.

(** The answers of the BLE stack during one operation. *)
Record Transport : Type := mkTransport {
  ble_discover : outcome (list BLEDevice);
  ble_find_device_by_address : string → outcome (option BLEDevice);
  (* [client.connect()]: returns, leaving [client.is_connected] at the
     given value, or raises *)
  ble_connect : BLEDevice → outcome bool;
  ble_get_services : outcome (list GATTService);
  ble_start_notify : string → outcome unit;
  ble_read_gatt_char : string → outcome (list byte);
  ble_disconnect : outcome unit
}.

(** The monitor object: its four attributes.  [_client] is a reference
    into the store of client objects. *)
Record BatteryMonitor : Type := mkMonitor {
  _batteries : gmap N BatteryStatus;
  _client : option nat;
  _device : option BLEDevice;
  _battery_characteristics : list (N * string)
}.

(** The rest of the process: the [BleakClient] objects created so far
    (their [is_connected] flag, by object identity), the disconnect tasks
    handed to the event loop by [asyncio.create_task] that are pending,
    the lines written to the logger, and the calls made so far to the
    callbacks the caller registered, in order. *)
Inductive Call : Type :=
  | BatteryChanged
  | DeviceFound (device_name device_id : string)
  | Completed.

Record World : Type := mkWorld {
  clients : list bool;
  tasks : list nat;
  log : list string;
  calls : list Call
}.

Record Sys : Type := mkSys {
  monitor : BatteryMonitor;
  world : World
}.

(** What the callbacks of the caller do: given the calls made before,
    a call returns or raises. *)
Definition Callbacks : Type := list Call → Call → outcome unit.

(** ** The state-and-exception monad *)

Definition M (A : Type) : Type := Sys → outcome A * Sys.

#[global] Instance M_ret : MRet M := λ A a s, (Returned a, s).
#[global] Instance M_bind : MBind M := λ A B f m s,
  match m s with
  | (Returned a, s') => f a s'
  | (Raised e, s') => (Raised e, s')
  end.

Definition ret {A} (a : A) : M A := mret a.
Definition bind {A B} (m : M A) (f : A → M B) : M B := m ≫= f.

Notation "x <- m ;; k" := (bind m (λ x, k))
  (at level 100, m at level 99, k at level 200, right associativity, only parsing).

(** [try: m except Exception as e: h e] *)
Definition try_except {A} (m : M A) (h : string → M A) : M A := λ s,
  match m s with
  | (Returned a, s') => (Returned a, s')
  | (Raised e, s') => h e s'
  end.

(** An awaited call of the BLE stack. *)
Definition await {A} (r : outcome A) : M A := λ s, (r, s).

(** [raise Exception(msg)] *)
Definition raise {A} (msg : string) : M A := λ s, (Raised msg, s).

Definition gets {A} (f : Sys → A) : M A := λ s, (Returned (f s), s).
Definition modify_monitor (f : BatteryMonitor → BatteryMonitor) : M unit :=
  λ s, (Returned tt, mkSys (f (monitor s)) (world s)).
Definition modify_world (f : World → World) : M unit :=
  λ s, (Returned tt, mkSys (monitor s) (f (world s))).

Definition set_batteries (b : gmap N BatteryStatus) : M unit :=
  modify_monitor (λ m, mkMonitor b (_client m) (_device m) (_battery_characteristics m)).
Definition set_client (c : option nat) : M unit :=
  modify_monitor (λ m, mkMonitor (_batteries m) c (_device m) (_battery_characteristics m)).
Definition set_device (d : option BLEDevice) : M unit :=
  modify_monitor (λ m, mkMonitor (_batteries m) (_client m) d (_battery_characteristics m)).
Definition set_battery_characteristics (l : list (N * string)) : M unit :=
  modify_monitor (λ m, mkMonitor (_batteries m) (_client m) (_device m) l).

(** [self._batteries[handle] = status] *)
Definition setitem_batteries (handle : N) (status : BatteryStatus) : M unit :=
  modify_monitor (λ m, mkMonitor (<[handle := status]> (_batteries m))
                                 (_client m) (_device m) (_battery_characteristics m)).

Definition logger (line : string) : M unit :=
  modify_world (λ w, mkWorld (clients w) (tasks w) (log w ++ [line]) (calls w)).

(** A callback of the caller is invoked: the call is recorded, and the
    callback returns or raises. *)
Definition call (callbacks : Callbacks) (c : Call) : M unit :=
  before <- gets (λ s, calls (world s));;
  modify_world (λ w, mkWorld (clients w) (tasks w) (log w) (calls w ++ [c]));;
  await (callbacks before c).

(** ** Client objects *)

(** [BleakClient(device)]: a fresh object, not connected. *)
Definition BleakClient : M nat := λ s,
  let w := world s in
  (Returned (length (clients w)),
   mkSys (monitor s) (mkWorld (clients w ++ [false]) (tasks w) (log w) (calls w))).

Definition set_flag (c : nat) (b : bool) : M unit :=
  modify_world (λ w, mkWorld (<[c := b]> (clients w)) (tasks w) (log w) (calls w)).

(** [client.is_connected] *)
Definition client_is_connected (w : World) (c : nat) : bool :=
  default false (clients w !! c).

Section Monitor.

Variable ble : Transport.
Variable callbacks : Callbacks.

(** [self._battery_changed_callback()] *)
Definition _battery_changed_callback : M unit := call callbacks BatteryChanged.

(** [await client.connect()] *)
Definition client_connect (c : nat) (device : BLEDevice) : M unit :=
  b <- await (ble_connect ble device);; set_flag c b.

(** [await client.disconnect()] *)
Definition client_disconnect (c : nat) : M unit :=
  await (ble_disconnect ble);; set_flag c false.

(** [asyncio.create_task(client.disconnect())].  Where an event loop
    is running, the coroutine is handed to it and not awaited; elsewhere
    [create_task] raises [RuntimeError] and the coroutine never runs. *)
Definition create_task_disconnect (running_loop : bool) (c : nat) : M unit :=
  if running_loop then
    modify_world (λ w, mkWorld (clients w) (tasks w ++ [c]) (log w) (calls w))
  else raise "no running event loop".

(** ** [BatteryMonitor] *)

(** The [batteries] property: a copy of the map. *)
Definition batteries (s : Sys) : gmap N BatteryStatus := _batteries (monitor s).

(** [is_connected]: [self._client is not None and self._client.is_connected] *)
Definition is_connected (s : Sys) : bool :=
  match _client (monitor s) with
  | Some c => client_is_connected (world s) c
  | None => false
  end.

(** [disconnect]; [running_loop] tells whether the caller runs inside
    the event loop (a coroutine does, the thread of the window does
    not). *)
Definition disconnect (running_loop : bool) : M unit :=
  set_batteries ∅;;
  cl <- gets (λ s, _client (monitor s));;
  live <- gets is_connected;;
  match cl with
  | Some c => if live then create_task_disconnect running_loop c else ret tt
  | None => ret tt
  end;;
  set_client None;;
  set_device None;;
  set_battery_characteristics [].

(** ["0000{handle:x}-0000-1000-8000-00805f9b34fb"] *)
Definition hex (n : N) : string :=
  match n with
  | N0 => "0"
  | Npos p => HexString.Raw.of_pos p ""
  end.

Definition handle_uuid (handle : N) : string :=
  "0000" +:+ hex handle +:+ "-0000-1000-8000-00805f9b34fb".

(** The first byte is the percentage; 255 stands for unknown. *)
Definition level_of_byte (b : byte) : Z :=
  let level := Z.of_N (Byte.to_N b) in
  if Z.eqb level 255 then -1 else level.

(** The loop of [read_battery_levels], on the map of the result being
    built; an exception of [read_gatt_char] leaves it. *)
Fixpoint read_loop (chars : list (N * string)) (acc : gmap N BatteryStatus)
  : M (gmap N BatteryStatus) :=
  match chars with
  | [] => ret acc
  | (handle, description) :: rest =>
      let char_uuid := handle_uuid handle in
      value <- await (ble_read_gatt_char ble char_uuid);;
      match value with
      | b :: _ =>
          read_loop rest (<[handle := mkBatteryStatus description (level_of_byte b)]> acc)
      | [] =>
          logger ("No value read for characteristic " +:+ char_uuid);;
          read_loop rest acc
      end
  end.

Definition read_battery_levels : M ReadBatteryLevelResult :=
  live <- gets is_connected;;
  cl <- gets (λ s, _client (monitor s));;
  if negb live || negb (bool_decide (is_Some cl)) then
    ret (mkReadResult NOT_CONNECTED ∅ "")
  else
    try_except
      (chars <- gets (λ s, _battery_characteristics (monitor s));;
       b <- read_loop chars ∅;;
       ret (mkReadResult SUCCESS b ""))
      (λ e,
       logger ("Error reading battery levels: " +:+ e);;
       ret (mkReadResult FAILURE ∅ e)).

(** The loop of [_battery_level_changed_handler]: the first
    characteristic with the sender's handle, then [break]. *)
Fixpoint handler_loop (chars : list (N * string)) (sender : N) (level : Z) : M unit :=
  match chars with
  | [] => ret tt
  | (handle, description) :: rest =>
      if N.eqb handle sender then
        setitem_batteries handle (mkBatteryStatus description level)
      else handler_loop rest sender level
  end.

Definition _battery_level_changed_handler (sender : N) (data : list byte) : M unit :=
  match data with
  | [] => ret tt
  | b :: _ =>
      let level := level_of_byte b in
      chars <- gets (λ s, _battery_characteristics (monitor s));;
      handler_loop chars sender level;;
      _battery_changed_callback
  end.

(** [s.lower()], on the ASCII letters a UUID is written with. *)
Definition lower_ascii (c : ascii) : ascii :=
  let n := N_of_ascii c in
  if N.leb 65 n && N.leb n 90 then ascii_of_N (n + 32) else c.

Fixpoint lower (s : string) : string :=
  match s with
  | EmptyString => EmptyString
  | String c rest => String (lower_ascii c) (lower rest)
  end.

(** [x or default] on an optional string: [None] and the empty string
    are both false. *)
Definition or_else (x : option string) (default : string) : string :=
  match x with
  | Some (String c rest) => String c rest
  | _ => default
  end.

(** The battery level characteristics of the service, as
    [(handle, description)] pairs. *)
Fixpoint battery_level_characteristics (cs : list GATTCharacteristic) : list (N * string) :=
  match cs with
  | [] => []
  | char :: rest =>
      if String.eqb (lower (char_uuid char)) BATTERY_LEVEL_CHAR_UUID then
        (char_handle char, or_else (char_description char) BATTERY_DEFAULT_NAME)
          :: battery_level_characteristics rest
      else battery_level_characteristics rest
  end.

(** The first service with the battery service UUID ([break]). *)
Fixpoint find_battery_service (services : list GATTService) : option GATTService :=
  match services with
  | [] => None
  | service :: rest =>
      if String.eqb (lower (service_uuid service)) BATTERY_SERVICE_UUID then Some service
      else find_battery_service rest
  end.

(** The subscription loop of [connect].  [Some r]: the loop left
    [connect] with [return r]; [None]: it ran to its end. *)
Fixpoint subscribe_loop (client : nat) (characteristics : list (N * string))
  : M (option ConnectResult) :=
  match characteristics with
  | [] => ret None
  | (handle, description) :: rest =>
      let char_uuid := handle_uuid handle in
      early <-
        try_except
          (await (ble_start_notify ble char_uuid);;
           setitem_batteries handle (mkBatteryStatus description (-1));;
           ret None)
          (λ e,
           logger ("Failed to subscribe to notifications: " +:+ e);;
           client_disconnect client;;
           ret (Some (mkConnectResult SUBSCRIPTION_FAILURE e)));;
      match early with
      | Some r => ret (Some r)
      | None => subscribe_loop client rest
      end
  end.

Definition connect (device_name device_id : string) : M ConnectResult :=
  try_except
    (disconnect true;;
     (* Find the device *)
     device <- await (ble_find_device_by_address ble device_id);;
     match device with
     | None => ret (mkConnectResult DEVICE_NOT_FOUND "")
     | Some device =>
     (* Connect to the device *)
     client <- BleakClient;;
     client_connect client device;;
     live <- gets (λ s, client_is_connected (world s) client);;
     if negb live then ret (mkConnectResult DEVICE_NOT_FOUND "") else
     (* Check for battery service *)
     services <- await (ble_get_services ble);;
     match find_battery_service services with
     | None =>
         client_disconnect client;;
         ret (mkConnectResult BATTERY_SERVICE_NOT_FOUND "")
     | Some battery_service =>
     (* Get battery level characteristics *)
     let characteristics :=
       battery_level_characteristics (service_characteristics battery_service) in
     match characteristics with
     | [] =>
         client_disconnect client;;
         ret (mkConnectResult BATTERY_LEVEL_CHARACTERISTIC_NOT_FOUND "")
     | _ :: _ =>
     (* Set up notification handlers for each battery characteristic *)
     early <- subscribe_loop client characteristics;;
     match early with
     | Some r => ret r
     | None =>
     (* Store the connection *)
     set_client (Some client);;
     set_device (Some device);;
     set_battery_characteristics characteristics;;
     (* Initial read of battery levels *)
     read_result <- read_battery_levels;;
     match read_status read_result with
     | SUCCESS => set_batteries (read_batteries read_result)
     | _ => ret tt
     end;;
     ret (mkConnectResult CONNECTED "")
     end end end end)
    (λ e,
     logger ("Connection error: " +:+ e);;
     cl <- gets (λ s, _client (monitor s));;
     live <- gets is_connected;;
     match cl with
     | Some c => if live then client_disconnect c else ret tt
     | None => ret tt
     end;;
     set_client None;;
     set_device None;;
     set_battery_characteristics [];;
     ret (mkConnectResult DEVICE_NOT_FOUND e)).

(** The loop of [list_paired_devices]: only devices with a name are
    reported. *)
Fixpoint report_devices (devices : list BLEDevice) : M unit :=
  match devices with
  | [] => ret tt
  | device :: rest =>
      match device_name device with
      | Some (String c n) =>
          call callbacks (DeviceFound (String c n) (device_address device));;
          report_devices rest
      | _ => report_devices rest
      end
  end.

Definition list_paired_devices : M unit :=
  try_except
    (devices <- await (ble_discover ble);;
     report_devices devices;;
     call callbacks Completed)
    (λ e,
     logger ("Error discovering devices: " +:+ e);;
     call callbacks Completed).

(** The event loop runs the oldest pending disconnect task: the client
    is disconnected; an exception of the task stays in the task. *)
Definition run_task : M unit :=
  pending <- gets (λ s, tasks (world s));;
  match pending with
  | [] => ret tt
  | c :: rest =>
      modify_world (λ w, mkWorld (clients w) rest (log w) (calls w));;
      try_except (client_disconnect c) (λ _, ret tt)
  end.

End Monitor.

(** The radio link of client [c] drops. *)
Definition link_lost (c : nat) : M unit := set_flag c false.

(** [BatteryMonitor.__init__], in a fresh process. *)
Definition initial : Sys :=
  mkSys (mkMonitor ∅ None None []) (mkWorld [] [] [] []).

(** ** The reconnect timer of the tray application *)

Definition RECONNECT_INTERVAL : Z := 300.

(** The attributes of [BatteryTrayApp] the timer reads and writes, and
    what it has handed to the event loops: [timers] counts the
    [timer_tick] calls scheduled and not yet run ([root.after], or a
    thread started on it), [attempts] the connect attempts whose future
    has not completed.  [_root] tells whether the Tk window exists
    ([self._root] is not [None]). *)
Record BatteryTrayApp : Type := mkApp {
  _root : bool;
  _reconnect_counter : Z;
  _reconnect_timer_running : bool;
  timers : nat;
  attempts : nat
}.

(** [__init__]; [root] tells whether the window has been shown by the
    time the timer is started. *)
Definition app_init (root : bool) : BatteryTrayApp :=
  mkApp root RECONNECT_INTERVAL false 0 0.

Definition schedule_tick (a : BatteryTrayApp) : BatteryTrayApp :=
  mkApp (_root a) (_reconnect_counter a) (_reconnect_timer_running a)
        (S (timers a)) (attempts a).

Definition _start_reconnect_timer (a : BatteryTrayApp) : BatteryTrayApp :=
  if _reconnect_timer_running a then a
  else
    (* with a window: root.after(1000, timer_tick); without: a thread
       running timer_tick *)
    schedule_tick (mkApp (_root a) RECONNECT_INTERVAL true (timers a) (attempts a)).

(** The body of [timer_tick]. *)
Definition timer_tick (a : BatteryTrayApp) : BatteryTrayApp :=
  if negb (_reconnect_timer_running a) then a
  else
    let counter := _reconnect_counter a - 1 in
    let a := mkApp (_root a) counter (_reconnect_timer_running a) (timers a) (attempts a) in
    if Z.leb counter 0 then
      (* Attempt connection; [on_connect_done] runs when it completes *)
      mkApp (_root a) counter (_reconnect_timer_running a) (timers a) (S (attempts a))
    else
      (* with a window: root.after(1000, timer_tick); without: a thread
         that calls timer_tick *)
      schedule_tick a.

(** One scheduled [timer_tick] runs. *)
Definition fire_timer (a : BatteryTrayApp) : BatteryTrayApp :=
  match timers a with
  | O => a
  | S n =>
      timer_tick (mkApp (_root a) (_reconnect_counter a) (_reconnect_timer_running a)
                        n (attempts a))
  end.

(** The body of [on_connect_done], on what [fut.result()] gives. *)
Definition on_connect_done (fut : outcome ConnectResult) (a : BatteryTrayApp)
  : BatteryTrayApp :=
  let a := mkApp (_root a) (_reconnect_counter a) (_reconnect_timer_running a)
                 (timers a) (Nat.pred (attempts a)) in
  match fut with
  | Returned result =>
      match connect_status result with
      | CONNECTED =>
          mkApp (_root a) (_reconnect_counter a) false (timers a) (attempts a)
      | _ =>
          (* Failed to connect, retry *)
          let a := mkApp (_root a) RECONNECT_INTERVAL (_reconnect_timer_running a)
                         (timers a) (attempts a) in
          if _root a then schedule_tick a else a
      end
  | Raised e =>
      let a := mkApp (_root a) RECONNECT_INTERVAL (_reconnect_timer_running a)
                     (timers a) (attempts a) in
      if _root a then schedule_tick a else a
  end.

(** The scheduler is live when something will still run: a tick is
    scheduled or a connect attempt is in flight. *)
Definition scheduler_live (a : BatteryTrayApp) : bool :=
  negb (Nat.eqb (timers a) 0) || negb (Nat.eqb (attempts a) 0).

(** * Specification vocabulary *)

(** ** Operations and reachable stores *)

(** What can happen to a monitor: a call of one of its public
    operations (for [disconnect], from inside the event loop or from
    another thread), the transport delivering a notification, the event
    loop running a pending task, the loss of a link.  The answers of the
    BLE stack and what the callbacks do may differ from one operation to
    the next. *)
Inductive Operation : Type :=
  | Connect (device_name device_id : string)
  | Disconnect (running_loop : bool)
  | ReadBatteryLevels
  | Notification (sender : N) (data : list byte)
  | RunTask
  | LinkLost (c : nat).

Definition run (ble : Transport) (callbacks : Callbacks) (op : Operation) (s : Sys) : Sys :=
  match op with
  | Connect device_name device_id => (connect ble device_name device_id s).2
  | Disconnect running_loop => (disconnect running_loop s).2
  | ReadBatteryLevels => (read_battery_levels ble s).2
  | Notification sender data =>
      (_battery_level_changed_handler callbacks sender data s).2
  | RunTask => (run_task ble s).2
  | LinkLost c => (link_lost c s).2
  end.

Inductive reachable : Sys → Prop :=
  | reachable_initial : reachable initial
  | reachable_run ble callbacks op s :
      reachable s → reachable (run ble callbacks op s).

(** [preserves P m]: if [P] holds of the store before [m], it holds
    after, whether [m] returns or raises. *)
Definition preserves {A} (P : Sys → Prop) (m : M A) : Prop :=
  ∀ s, P s → P (m s).2.

(** Every channel of the map has level [-1] or a level in [0, hi]. *)
Definition levels_within (hi : Z) (m : gmap N BatteryStatus) : Prop :=
  map_Forall (λ _ status, level status = -1 ∨ 0 ≤ level status ≤ hi) m.

Definition levels_ok (s : Sys) : Prop := levels_within 254 (batteries s).

(** The invariant of the session: a monitor without a client has no
    channel and no characteristic. *)
Definition session_inv (s : Sys) : Prop :=
  _client (monitor s) = None →
  batteries s = ∅ ∧ _battery_characteristics (monitor s) = [].

(** The map the subscription loop builds on [b]: every characteristic
    entered at level [-1]. *)
Definition subscribed (characteristics : list (N * string)) (b : gmap N BatteryStatus)
  : gmap N BatteryStatus :=
  foldl (λ acc c, <[c.1 := mkBatteryStatus c.2 (-1)]> acc) b characteristics.

(** Of the calls [l], made in this order after the calls [before], the
    ones that are made when a call that raises ends the series, and the
    message of the call that raises, if one does. *)
Fixpoint made_until_raise (callbacks : Callbacks) (before l : list Call) : list Call :=
  match l with
  | [] => []
  | c :: rest =>
      match callbacks before c with
      | Returned _ => c :: made_until_raise callbacks (before ++ [c]) rest
      | Raised _ => [c]
      end
  end.

Fixpoint first_raise (callbacks : Callbacks) (before l : list Call) : option string :=
  match l with
  | [] => None
  | c :: rest =>
      match callbacks before c with
      | Returned _ => first_raise callbacks (before ++ [c]) rest
      | Raised e => Some e
      end
  end.

(** The callbacks a scan result asks for: one per device with a
    non-empty name, in discovery order. *)
Definition reported (devices : list BLEDevice) : list Call :=
  omap (λ device,
          match device_name device with
          | Some n => if decide (n = "") then None
                      else Some (DeviceFound n (device_address device))
          | None => None
          end) devices.

(** ** Scenarios *)


Definition keyboard : BLEDevice := mkDevice (Some "Corne") "C0:FF:EE:00:00:01".

(** A split keyboard: one battery service with a battery level
    characteristic per half (handles 16 and 18). *)
Definition two_halves : list GATTService :=
  [ mkService "00001800-0000-1000-8000-00805f9b34fb" [];
    mkService "0000180F-0000-1000-8000-00805F9B34FB"
      [ mkChar "00002A19-0000-1000-8000-00805F9B34FB" 16 (Some "Left");
        mkChar "00002a19-0000-1000-8000-00805f9b34fb" 18 (Some "Right") ] ].

(** A keyboard with one battery level characteristic without a
    description (handle 16). *)
Definition one_battery : list GATTService :=
  [ mkService "0000180f-0000-1000-8000-00805f9b34fb"
      [ mkChar "00002a19-0000-1000-8000-00805f9b34fb" 16 None ] ].

Definition find_keyboard (device_id : string) : outcome (option BLEDevice) :=
  if String.eqb device_id (device_address keyboard) then Returned (Some keyboard)
  else Returned None.

(** Both halves answer: left at 80 %, right at 70 %. *)
Definition healthy : Transport :=
  mkTransport (Returned [keyboard]) find_keyboard (λ _, Returned true)
    (Returned two_halves)
    (λ _, Returned tt)
    (λ uuid, if String.eqb uuid (handle_uuid 16) then Returned [Byte.x50]
             else Returned [Byte.x46])
    (Returned tt).

(** The subscription to the second characteristic is refused. *)
Definition second_subscription_fails : Transport :=
  mkTransport (Returned [keyboard]) find_keyboard (λ _, Returned true)
    (Returned two_halves)
    (λ uuid, if String.eqb uuid (handle_uuid 18) then Raised "Notify not permitted"
             else Returned tt)
    (λ _, Returned [Byte.x50])
    (Returned tt).

(** The right half answers the read with no data. *)
Definition right_half_silent : Transport :=
  mkTransport (Returned [keyboard]) find_keyboard (λ _, Returned true)
    (Returned two_halves)
    (λ _, Returned tt)
    (λ uuid, if String.eqb uuid (handle_uuid 16) then Returned [Byte.x50]
             else Returned [])
    (Returned tt).

(** The only characteristic answers the read with no data. *)
Definition silent_battery : Transport :=
  mkTransport (Returned [keyboard]) find_keyboard (λ _, Returned true)
    (Returned one_battery)
    (λ _, Returned tt)
    (λ _, Returned [])
    (Returned tt).

(** Every read raises. *)
Definition reads_fail : Transport :=
  mkTransport (Returned [keyboard]) find_keyboard (λ _, Returned true)
    (Returned two_halves)
    (λ _, Returned tt)
    (λ _, Raised "Not connected")
    (Returned tt).

(** The scan raises. *)
Definition scan_fails : Transport :=
  mkTransport (Raised "Bluetooth adapter is off") (λ _, Raised "Bluetooth adapter is off")
    (λ _, Returned false) (Returned []) (λ _, Returned tt) (λ _, Returned [])
    (Returned tt).

(** A scan that finds the keyboard, a device without a name and one
    whose name is empty. *)
Definition scan_mixed : Transport :=
  mkTransport
    (Returned [ mkDevice None "11:11"; keyboard; mkDevice (Some "") "22:22" ])
    find_keyboard (λ _, Returned true) (Returned two_halves)
    (λ _, Returned tt) (λ _, Returned [Byte.x50]) (Returned tt).

(** Callbacks that return. *)
Definition returning : Callbacks := λ _ _, Returned tt.

(** The device callback raises (as [root.after] does when it is called
    from another thread while the main loop is not running); the other
    callbacks return. *)
Definition device_callback_raises : Callbacks :=
  λ _ c, match c with
         | DeviceFound _ _ => Raised "main thread is not in main loop"
         | _ => Returned tt
         end.

(** The completion callback raises; the other callbacks return. *)
Definition completion_callback_raises : Callbacks :=
  λ _ c, match c with
         | Completed => Raised "main thread is not in main loop"
         | _ => Returned tt
         end.

(** A scan that finds a device whose name has a letter outside ASCII
    (four characters, five bytes) and a device without a name. *)
Definition scan_accent : Transport :=
  mkTransport
    (Returned [ mkDevice (Some "Café") "C0:FF:EE:00:00:03"; mkDevice None "11:11" ])
    find_keyboard (λ _, Returned true) (Returned two_halves)
    (λ _, Returned tt) (λ _, Returned [Byte.x50]) (Returned tt).

(** A scan that finds two keyboards. *)
Definition scan_two : Transport :=
  mkTransport
    (Returned [ keyboard; mkDevice (Some "Lily58") "C0:FF:EE:00:00:02" ])
    find_keyboard (λ _, Returned true) (Returned two_halves)
    (λ _, Returned tt) (λ _, Returned [Byte.x50]) (Returned tt).

Definition connect_keyboard : Operation := Connect "Corne" (device_address keyboard).

(** The store after a successful connect to the healthy keyboard. *)
Definition connected_store : Sys := run healthy returning connect_keyboard initial.


(** ** More scenarios *)

(** The address is unknown to the scanner. *)
Definition nobody_home : Transport :=
  mkTransport (Returned []) (λ _, Returned None) (λ _, Returned true)
    (Returned two_halves) (λ _, Returned tt) (λ _, Returned [Byte.x50]) (Returned tt).

(** The device is found but the link does not come up. *)
Definition link_stays_down : Transport :=
  mkTransport (Returned [keyboard]) find_keyboard (λ _, Returned false)
    (Returned two_halves) (λ _, Returned tt) (λ _, Returned [Byte.x50]) (Returned tt).

(** A device without a battery service. *)
Definition no_battery_service : Transport :=
  mkTransport (Returned [keyboard]) find_keyboard (λ _, Returned true)
    (Returned [ mkService "00001800-0000-1000-8000-00805f9b34fb" [];
                mkService "0000180a-0000-1000-8000-00805f9b34fb" [] ])
    (λ _, Returned tt) (λ _, Returned [Byte.x50]) (Returned tt).

(** A battery service without a battery level characteristic. *)
Definition no_level_characteristic : Transport :=
  mkTransport (Returned [keyboard]) find_keyboard (λ _, Returned true)
    (Returned [ mkService "0000180f-0000-1000-8000-00805f9b34fb"
                  [ mkChar "00002a1a-0000-1000-8000-00805f9b34fb" 20 None ] ])
    (λ _, Returned tt) (λ _, Returned [Byte.x50]) (Returned tt).



(** Every known characteristic and every channel has a name. *)
Definition names_ok (s : Sys) : Prop :=
  Forall (λ c, c.2 ≠ "") (_battery_characteristics (monitor s))
  ∧ map_Forall (λ _ status, name status ≠ "") (batteries s).

(** ** The tray application around the timer *)

(** [_show_main_window], as far as the timer can tell: afterwards the
    window exists ([self._root] is set); an existing window is only
    raised. *)
Definition _show_main_window (a : BatteryTrayApp) : BatteryTrayApp :=
  mkApp true (_reconnect_counter a) (_reconnect_timer_running a) (timers a) (attempts a).

(** The states of the timer: the application is created without a
    window; the timer is started, a scheduled tick runs, a connect attempt
    that is in flight completes, the window is shown. *)
Inductive timer_reachable : BatteryTrayApp → Prop :=
  | timer_created : timer_reachable (app_init false)
  | timer_started a : timer_reachable a → timer_reachable (_start_reconnect_timer a)
  | timer_fired a : timer_reachable a → timer_reachable (fire_timer a)
  | timer_completed fut a :
      timer_reachable a → (0 < attempts a)%nat → timer_reachable (on_connect_done fut a)
  | timer_shown a : timer_reachable a → timer_reachable (_show_main_window a).

(** ** Command line, launch and tray icon *)

Definition STARTUP_ARG_DEVICE_NAME : string := "--device-name".
Definition STARTUP_ARG_DEVICE_ID : string := "--device-id".
Definition BATTERY_LOW_LEVEL_THRESHOLD : Z := 20.
Definition BATTERY_LOW_TIP_TITLE : string := "Low battery".

(** The double quote character (code 34). *)
Definition double_quote : ascii := Ascii false true false false false true false false.

(** [s.lstrip(QUOTE)], [s.rstrip(QUOTE)] and [s.strip(QUOTE)]. *)
Fixpoint lstrip_quotes (s : string) : string :=
  match s with
  | EmptyString => EmptyString
  | String c rest => if Ascii.eqb c double_quote then lstrip_quotes rest else s
  end.

Fixpoint rstrip_quotes (s : string) : string :=
  match s with
  | EmptyString => EmptyString
  | String c rest =>
      match rstrip_quotes rest with
      | EmptyString => if Ascii.eqb c double_quote then EmptyString else String c EmptyString
      | stripped => String c stripped
      end
  end.

Definition strip_quotes (s : string) : string := rstrip_quotes (lstrip_quotes s).

(** The loop of [_process_command_line] from index [i]: [args] is
    [sys.argv[i:]].  A flag counts only when an argument follows it. *)
Fixpoint process_arguments (args : list string) (device_name device_id : string)
  : string * string :=
  match args with
  | [] => (device_name, device_id)
  | arg :: rest =>
      match rest with
      | next :: _ =>
          if String.eqb arg STARTUP_ARG_DEVICE_ID then
            process_arguments rest device_name (strip_quotes next)
          else if String.eqb arg STARTUP_ARG_DEVICE_NAME then
            process_arguments rest (strip_quotes next) device_id
          else process_arguments rest device_name device_id
      | [] => (device_name, device_id)
      end
  end.

(** The tray application: the timer and the attributes the launch and
    the icon update use. *)
Record TrayApp : Type := mkTray {
  timer_state : BatteryTrayApp;
  _device_name : string;
  _device_id : string;
  _last_min_level : Z
}.

(** [_process_command_line], on [sys.argv]: the loop starts at index 1. *)
Definition _process_command_line (argv : list string) (t : TrayApp) : TrayApp :=
  let '(device_name, device_id) :=
    process_arguments (tail argv) (_device_name t) (_device_id t) in
  mkTray (timer_state t) device_name device_id (_last_min_level t).

(** [BatteryTrayApp.__init__] *)
Definition tray_init (argv : list string) : TrayApp :=
  _process_command_line argv (mkTray (app_init false) "" "" (-1)).

(** A Python string is true when it is not empty. *)
Definition truthy (s : string) : bool :=
  match s with EmptyString => false | String _ _ => true end.

(** [BatteryTrayApp.run] *)
Definition tray_run (t : TrayApp) : TrayApp :=
  if truthy (_device_name t) && truthy (_device_id t) then
    (* Start with pre-defined device *)
    mkTray (_start_reconnect_timer (timer_state t)) (_device_name t) (_device_id t) 100
  else
    (* Show UI to select device *)
    mkTray (_show_main_window (timer_state t)) (_device_name t) (_device_id t)
           (_last_min_level t).

(** The level [_update_tray_icon] shows.  The loop over the channels
    keeps a minimum, which does not depend on the order of the loop. *)
Definition min_level_of (connected : bool) (batteries : gmap N BatteryStatus) : Z :=
  if negb connected || bool_decide (batteries = ∅) then -1
  else
    match map_to_list batteries with
    | [(_, status)] => level status
    | items =>
        foldl (λ min_level item,
                 if bool_decide (level item.2 ≠ -1) then Z.min min_level (level item.2)
                 else min_level)
              100 items
    end.

(** [_update_tray_icon], without the image and the tooltip: the level
    handed to the icon manager, the notifications shown (title and
    message), and the new [_last_min_level]. *)
Definition _update_tray_icon (s : Sys) (t : TrayApp)
  : TrayApp * Z * list (string * string) :=
  let min_level := min_level_of (is_connected s) (batteries s) in
  let notifications :=
    if Z.ltb BATTERY_LOW_LEVEL_THRESHOLD (_last_min_level t)
       && negb (Z.eqb min_level (-1))
       && Z.leb min_level BATTERY_LOW_LEVEL_THRESHOLD
    then [(BATTERY_LOW_TIP_TITLE, _device_name t +:+ " battery level is below 20%")]
    else [] in
  (mkTray (timer_state t) (_device_name t) (_device_id t) min_level, min_level, notifications).

(** The first and the last character of a string. *)
Definition first_char (s : string) : option ascii :=
  match s with EmptyString => None | String c _ => Some c end.

Fixpoint last_char (s : string) : option ascii :=
  match s with
  | EmptyString => None
  | String c EmptyString => Some c
  | String _ rest => last_char rest
  end.

(** [s] between two double quotes. *)
Definition quoted (s : string) : string :=
  String double_quote (s +:+ String double_quote EmptyString).

(** The words of a command line, separated by single spaces. *)
Fixpoint unwords (l : list string) : string :=
  match l with
  | [] => EmptyString
  | [word] => word
  | word :: rest => word +:+ " " +:+ unwords rest
  end.

(** The minimum the loop of [_update_tray_icon] keeps, from [start]. *)
Definition fold_min_level (start : Z) (items : list (N * BatteryStatus)) : Z :=
  foldl (λ min_level item,
           if bool_decide (level item.2 ≠ -1) then Z.min min_level (level item.2)
           else min_level)
        start items.

(** ** The registry helper

    The Windows registry is the environment of [RegistryHelper]: every
    call of the [winreg] functions either returns or raises.  The calls
    made and the lines logged are recorded. *)

Definition AUTORUN_REG_KEY : string := "SOFTWARE\Microsoft\Windows\CurrentVersion\Run".
Definition APP_NAME : string := "ZMK Battery Monitor".
Definition THEME_REG_KEY : string :=
  "Software\Microsoft\Windows\CurrentVersion\Themes\Personalize".

Inductive RegAccess : Type := KEY_READ | KEY_ALL_ACCESS.

(** The data of a registry value, as [RegQueryValueEx] returns it: an
    integer (REG_DWORD) or a string (REG_SZ). *)
Inductive RegValue : Type :=
  | RegInt (n : Z)
  | RegStr (s : string).

(** [bool(value)] *)
Definition reg_truthy (value : RegValue) : bool :=
  match value with
  | RegInt n => negb (Z.eqb n 0)
  | RegStr s => truthy s
  end.

Inductive RegCall : Type :=
  | RegOpenKeyEx (sub_key : string) (access : RegAccess)
  | RegQueryValueEx (value_name : string)
  | RegSetValueEx (value_name value : string)
  | RegDeleteValue (value_name : string)
  | RegCloseKey.

Record Registry : Type := mkRegistry {
  reg_open : string → RegAccess → outcome unit;
  reg_query : string → outcome RegValue;
  reg_set : string → string → outcome unit;
  reg_delete : string → outcome unit;
  reg_close : outcome unit
}.

Record RegState : Type := mkRegState {
  reg_calls : list RegCall;
  reg_log : list string
}.

Definition R (A : Type) : Type := RegState → outcome A * RegState.

Definition r_ret {A} (a : A) : R A := λ st, (Returned a, st).

Definition r_bind {A B} (m : R A) (f : A → R B) : R B :=
  λ st, match m st with
        | (Returned a, st') => f a st'
        | (Raised e, st') => (Raised e, st')
        end.

(** [try: body except Exception as e: handler(e)] *)
Definition r_try_except {A} (body : R A) (handler : string → R A) : R A :=
  λ st, match body st with
        | (Returned a, st') => (Returned a, st')
        | (Raised e, st') => handler e st'
        end.

(** [try: body finally: final]: [final] runs however [body] ends, also
    when it ends in a [return]; an exception of [final] replaces the
    pending result. *)
Definition r_try_finally {A} (body : R A) (final : R unit) : R A :=
  λ st, match body st with
        | (result, st') =>
            match final st' with
            | (Returned _, st'') => (result, st'')
            | (Raised e, st'') => (Raised e, st'')
            end
        end.

(** A call of the registry API: recorded, then answered. *)
Definition winreg {A} (c : RegCall) (answer : outcome A) : R A :=
  λ st, (answer, mkRegState (reg_calls st ++ [c]) (reg_log st)).

Definition reg_logger (line : string) : R unit :=
  λ st, (Returned tt, mkRegState (reg_calls st) (reg_log st ++ [line])).

Section RegistryHelper.

Variable reg : Registry.

Definition is_auto_run_enabled : R bool :=
  r_try_except
    (r_bind (winreg (RegOpenKeyEx AUTORUN_REG_KEY KEY_READ)
                    (reg_open reg AUTORUN_REG_KEY KEY_READ)) (λ key,
     r_try_finally
       (r_try_except
          (r_bind (winreg (RegQueryValueEx APP_NAME) (reg_query reg APP_NAME)) (λ _,
           r_ret true))
          (λ _, r_ret false))
       (winreg RegCloseKey (reg_close reg))))
    (λ e,
     r_bind (reg_logger ("Failed to check auto run: " +:+ e)) (λ _,
     r_ret false)).

(** The command line registered for the start-up; [exe_path] is
    [sys.executable]. *)
Definition auto_run_value (exe_path device_name device_id : string) : string :=
  if truthy device_name && truthy device_id then
    quoted exe_path +:+ " " +:+ STARTUP_ARG_DEVICE_NAME +:+ " " +:+ quoted device_name
      +:+ " " +:+ STARTUP_ARG_DEVICE_ID +:+ " " +:+ quoted device_id
  else quoted exe_path.

Definition set_auto_run_enabled (exe_path : string) (enabled : bool)
    (device_name device_id : string) : R bool :=
  r_try_except
    (r_bind (winreg (RegOpenKeyEx AUTORUN_REG_KEY KEY_ALL_ACCESS)
                    (reg_open reg AUTORUN_REG_KEY KEY_ALL_ACCESS)) (λ key,
     r_try_finally
       (r_bind
          (if enabled then
             let value := auto_run_value exe_path device_name device_id in
             winreg (RegSetValueEx APP_NAME value) (reg_set reg APP_NAME value)
           else
             winreg (RegDeleteValue APP_NAME) (reg_delete reg APP_NAME)) (λ _,
        r_ret true))
       (winreg RegCloseKey (reg_close reg))))
    (λ e,
     r_bind (reg_logger ("Failed to set auto run: " +:+ e)) (λ _,
     r_ret false)).

Definition is_system_using_light_theme : R bool :=
  r_try_except
    (r_bind (winreg (RegOpenKeyEx THEME_REG_KEY KEY_READ)
                    (reg_open reg THEME_REG_KEY KEY_READ)) (λ key,
     r_try_finally
       (r_try_except
          (r_bind (winreg (RegQueryValueEx "SystemUsesLightTheme")
                          (reg_query reg "SystemUsesLightTheme")) (λ value,
           r_ret (reg_truthy value)))
          (λ _,
           (* Default to light theme *)
           r_ret true))
       (winreg RegCloseKey (reg_close reg))))
    (λ e,
     r_bind (reg_logger ("Failed to get system theme: " +:+ e)) (λ _,
     r_ret true)).

(** [BatteryTrayApp._on_auto_run_changed], on the state of the check
    box. *)
Definition _on_auto_run_changed (exe_path : string) (enabled : bool) (t : TrayApp) : R bool :=
  if enabled && truthy (_device_name t) && truthy (_device_id t) then
    set_auto_run_enabled exe_path true (_device_name t) (_device_id t)
  else set_auto_run_enabled exe_path enabled "" "".

(** The write of [set_auto_run_enabled]: the call and its answer. *)
Definition auto_run_write (exe_path : string) (enabled : bool)
    (device_name device_id : string) : RegCall * outcome unit :=
  if enabled then
    (RegSetValueEx APP_NAME (auto_run_value exe_path device_name device_id),
     reg_set reg APP_NAME (auto_run_value exe_path device_name device_id))
  else (RegDeleteValue APP_NAME, reg_delete reg APP_NAME).

End RegistryHelper.

(** How an operation of the helper ends: it returns [result], having
    made the calls [made] and logged [lines] more lines. *)
Definition ends {A} (m : R A) (st : RegState) (result : A) (made : list RegCall)
    (lines : nat) : Prop :=
  ∃ logged,
    m st = (Returned result, mkRegState (reg_calls st ++ made) (reg_log st ++ logged))
    ∧ length logged = lines.

(** ** The command-line scanner ([ble_scanner.py]) *)

Fixpoint repeat_char (c : ascii) (n : nat) : string :=
  match n with
  | O => EmptyString
  | S n => String c (repeat_char c n)
  end.

(** [len(s)]: the number of characters of a string held in UTF-8, that
    is of its bytes that are not continuation bytes (binary 10xxxxxx). *)
Definition is_continuation (c : ascii) : bool :=
  let n := N_of_ascii c in N.leb 128 n && N.ltb n 192.

Fixpoint char_length (s : string) : nat :=
  match s with
  | EmptyString => O
  | String c rest => if is_continuation c then char_length rest else S (char_length rest)
  end.

(** The format [{s:<width}]: [s], padded with spaces on the right to
    [width] characters. *)
Definition ljust (width : nat) (s : string) : string :=
  s +:+ repeat_char " " (width - char_length s).

Definition newline : string := String (ascii_of_nat 10) EmptyString.

Definition device_row (device : BLEDevice) : string :=
  let name := or_else (device_name device) "Unknown" in
  ljust 20 (device_address device) +:+ " | " +:+ ljust 30 name.

(** [scan_ble_devices]: the lines printed, one per call of [print], and
    how the coroutine ends. *)
Definition scan_ble_devices (ble : Transport) : outcome unit * list string :=
  let printed := ["Scanning for BLE devices..."] in
  match ble_discover ble with
  | Raised e => (Raised e, printed)
  | Returned [] => (Returned tt, printed ++ ["No BLE devices found."])
  | Returned devices =>
      (Returned tt,
       printed
       ++ [newline +:+ "Found BLE devices:";
           repeat_char "-" 50;
           ljust 20 "Address" +:+ " | " +:+ ljust 30 "Name";
           repeat_char "-" 50]
       ++ map device_row devices)
  end.

(** [main] of the scanner. *)
Definition scanner_main (ble : Transport) : list string :=
  match scan_ble_devices ble with
  | (Returned _, printed) => printed
  | (Raised e, printed) => printed ++ [newline +:+ "Error: " +:+ e]
  end.

(** * Properties *)

(** Unfolding of the monad's operations, for symbolic execution. *)
Ltac unfold_monad :=
  unfold _battery_changed_callback, call, create_task_disconnect in *;
  unfold bind, mbind, M_bind, ret, mret, M_ret, try_except, await, raise, gets,
    set_batteries, set_client, set_device, set_battery_characteristics,
    setitem_batteries, logger, set_flag, modify_monitor, modify_world in *.

(** ** The bulk read *)

Section ReadProperties.

Variable ble : Transport.

(** The loop of the bulk read touches neither the monitor object nor the
    client objects: it only builds the map of its result (and logs). *)
Lemma read_loop_frame chars acc s :
  monitor (read_loop ble chars acc s).2 = monitor s
  ∧ clients (world (read_loop ble chars acc s).2) = clients (world s)
  ∧ calls (world (read_loop ble chars acc s).2) = calls (world s).
Proof.
  revert acc s. induction chars as [|[handle description] rest IH]; intros acc s.
  - done.
  - cbn [read_loop]. unfold_monad.
    destruct (ble_read_gatt_char ble (handle_uuid handle)) as [[|b value]|e]; cbn.
    + destruct (IH acc (mkSys (monitor s)
        (mkWorld (clients (world s)) (tasks (world s))
           (log (world s) ++ ["No value read for characteristic " +:+ handle_uuid handle])
           (calls (world s))))) as (-> & -> & ->). done.
    + apply IH.
    + done.
Qed.

(** If the read of some known channel raises, the loop raises, with the
    message of a read that raised. *)
Lemma read_loop_raises chars acc s handle description msg :
  (handle, description) ∈ chars →
  ble_read_gatt_char ble (handle_uuid handle) = Raised msg →
  ∃ e h d, (read_loop ble chars acc s).1 = Raised e
           ∧ (h, d) ∈ chars ∧ ble_read_gatt_char ble (handle_uuid h) = Raised e.
Proof.
  revert acc s. induction chars as [|[h d] rest IH]; intros acc s Hin Hraise.
  - by apply elem_of_nil in Hin.
  - cbn [read_loop]. unfold_monad.
    destruct (ble_read_gatt_char ble (handle_uuid h)) as [value|e] eqn:Hread.
    + assert (Hrest : (handle, description) ∈ rest).
      { apply elem_of_cons in Hin as [Heq|Hin]; [|done].
        inversion Heq; subst. congruence. }
      destruct value as [|b value]; cbn.
      * edestruct IH as (e & h' & d' & He & Hin' & Hr'); [done..|].
        exists e, h', d'. rewrite He. split_and!; [done| |done].
        apply elem_of_cons; by right.
      * edestruct IH as (e & h' & d' & He & Hin' & Hr'); [done..|].
        exists e, h', d'. rewrite He. split_and!; [done| |done].
        apply elem_of_cons; by right.
    + exists e, h, d. cbn. split_and!; [done| |done]. apply elem_of_cons; by left.
Qed.


End ReadProperties.

(** ** Preservation of a property of the store *)

Section Preservation.

Context (P : Sys → Prop).

Lemma preserves_ret {A} (a : A) : preserves P (ret a).
Proof. by intros s. Qed.

Lemma preserves_await {A} (r : outcome A) : preserves P (await r).
Proof. by intros s. Qed.

Lemma preserves_raise {A} (msg : string) : preserves P (raise (A := A) msg).
Proof. by intros s. Qed.

Lemma preserves_gets {A} (f : Sys → A) : preserves P (gets f).
Proof. by intros s. Qed.

Lemma preserves_bind {A B} (m : M A) (f : A → M B) :
  preserves P m → (∀ a, preserves P (f a)) → preserves P (bind m f).
Proof.
  intros Hm Hf s Hs. specialize (Hm s Hs). unfold bind, mbind, M_bind.
  destruct (m s) as [[a|e] s']; cbn in *; [by apply Hf|done].
Qed.

Lemma preserves_seq {A B} (m : M A) (k : M B) :
  preserves P m → preserves P k → preserves P (m;; k).
Proof. intros Hm Hk. apply (preserves_bind m (λ _, k)); auto. Qed.

Lemma preserves_try_except {A} (m : M A) (h : string → M A) :
  preserves P m → (∀ e, preserves P (h e)) → preserves P (try_except m h).
Proof.
  intros Hm Hh s Hs. specialize (Hm s Hs). unfold try_except.
  destruct (m s) as [[a|e] s']; cbn in *; [done|by apply Hh].
Qed.

End Preservation.

(** ** Battery levels *)

Lemma level_of_byte_spec (b : byte) :
  level_of_byte b =
    if decide (Z.of_N (Byte.to_N b) = 255) then -1 else Z.of_N (Byte.to_N b).
Proof.
  unfold level_of_byte. cbn zeta.
  destruct (Z.eqb_spec (Z.of_N (Byte.to_N b)) 255); by case_decide.
Qed.

Lemma level_of_byte_range (b : byte) :
  level_of_byte b = -1 ∨ 0 ≤ level_of_byte b ≤ 254.
Proof.
  rewrite level_of_byte_spec. pose proof (Byte.to_N_bounded b).
  case_decide; lia.
Qed.

Lemma levels_within_insert hi handle status (m : gmap N BatteryStatus) :
  level status = -1 ∨ 0 ≤ level status ≤ hi →
  levels_within hi m → levels_within hi (<[handle := status]> m).
Proof. intros. by apply map_Forall_insert_2. Qed.

Lemma levels_within_empty hi : levels_within hi ∅.
Proof. apply map_Forall_empty. Qed.

Section LevelProperties.

Variable ble : Transport.

Lemma read_loop_within chars acc s m :
  levels_within 254 acc →
  (read_loop ble chars acc s).1 = Returned m → levels_within 254 m.
Proof.
  revert acc s. induction chars as [|[handle description] rest IH]; intros acc s Hacc Hret.
  - cbn in Hret. by inversion Hret; subst.
  - cbn [read_loop] in Hret. unfold_monad.
    destruct (ble_read_gatt_char ble (handle_uuid handle)) as [[|b value]|e];
      cbn in Hret; [by eapply IH| |done].
    eapply IH; [|done]. apply levels_within_insert; [|done]. apply level_of_byte_range.
Qed.

(** The map a bulk read returns holds normalized levels only. *)
Lemma read_battery_levels_within s r :
  (read_battery_levels ble s).1 = Returned r → levels_within 254 (read_batteries r).
Proof.
  unfold read_battery_levels. unfold_monad. cbn.
  destruct (negb (is_connected s) || _); cbn.
  - intros [= <-]. apply levels_within_empty.
  - destruct (read_loop ble _ ∅ s) as [[m|e] s'] eqn:Hloop; cbn.
    + intros [= <-]. cbn. eapply read_loop_within; [apply levels_within_empty|].
      by rewrite Hloop.
    + intros [= <-]. apply levels_within_empty.
Qed.

(** The bulk read leaves the monitor object and the clients as they
    were. *)
Lemma read_battery_levels_frame s :
  monitor (read_battery_levels ble s).2 = monitor s
  ∧ clients (world (read_battery_levels ble s).2) = clients (world s)
  ∧ calls (world (read_battery_levels ble s).2) = calls (world s).
Proof.
  unfold read_battery_levels. unfold_monad. cbn.
  destruct (negb (is_connected s) || _); cbn; [done|].
  pose proof (read_loop_frame ble (_battery_characteristics (monitor s)) ∅ s) as Hf.
  destruct (read_loop ble _ ∅ s) as [[m|e] s']; cbn in *; done.
Qed.

End LevelProperties.

Lemma preserves_bind_post {A B} (P : Sys → Prop) (Q : A → Prop) (m : M A) (f : A → M B) :
  preserves P m → (∀ s a, (m s).1 = Returned a → Q a) →
  (∀ a, Q a → preserves P (f a)) → preserves P (bind m f).
Proof.
  intros Hm HQ Hf s Hs. specialize (Hm s Hs). specialize (HQ s).
  unfold bind, mbind, M_bind.
  destruct (m s) as [[a|e] s']; cbn in *; [|done]. apply Hf; auto.
Qed.

Section LevelInvariant.

Variable ble : Transport.
Variable callbacks : Callbacks.

Lemma levels_ok_modify_world f : preserves levels_ok (modify_world f).
Proof. by intros s. Qed.

Lemma levels_ok_modify_monitor f :
  (∀ mo, levels_within 254 (_batteries mo) → levels_within 254 (_batteries (f mo))) →
  preserves levels_ok (modify_monitor f).
Proof. intros Hf s Hs. by apply Hf. Qed.

Lemma levels_ok_BleakClient : preserves levels_ok BleakClient.
Proof. by intros s. Qed.

Lemma levels_ok_set_batteries b :
  levels_within 254 b → preserves levels_ok (set_batteries b).
Proof. intros Hb. by apply levels_ok_modify_monitor. Qed.

Lemma levels_ok_setitem handle status :
  level status = -1 ∨ 0 ≤ level status ≤ 254 →
  preserves levels_ok (setitem_batteries handle status).
Proof.
  intros Hst. apply levels_ok_modify_monitor. intros mo Hmo. cbn.
  by apply levels_within_insert.
Qed.

(** Syntax-directed decomposition of a preservation goal. *)
Ltac levels_auto :=
  repeat match goal with
    | |- ∀ _, _ => intro
    | |- preserves _ (bind _ _) => apply preserves_bind
    | |- preserves _ (mbind _ _) => apply preserves_seq
    | |- preserves _ (try_except _ _) => apply preserves_try_except
    | |- preserves _ (ret _) => apply preserves_ret
    | |- preserves _ (await _) => apply preserves_await
    | |- preserves _ (raise _) => apply preserves_raise
    | |- preserves _ (gets _) => apply preserves_gets
    | |- preserves _ BleakClient => apply levels_ok_BleakClient
    | |- preserves _ (logger _) => apply levels_ok_modify_world
    | |- preserves _ (modify_world _) => apply levels_ok_modify_world
    | |- preserves _ (call _ _) => unfold call
    | |- preserves _ (set_flag _ _) => apply levels_ok_modify_world
    | |- preserves _ (create_task_disconnect _ _) => unfold create_task_disconnect
    | |- preserves _ (if ?b then _ else _) => destruct b
    | |- preserves _ (set_client _) => by apply levels_ok_modify_monitor
    | |- preserves _ (set_device _) => by apply levels_ok_modify_monitor
    | |- preserves _ (set_battery_characteristics _) => by apply levels_ok_modify_monitor
    | |- preserves _ (set_batteries ∅) =>
        apply levels_ok_set_batteries, levels_within_empty
    | |- preserves _ (match ?x with _ => _ end) => destruct x
    end.

Lemma levels_ok_client_disconnect c : preserves levels_ok (client_disconnect ble c).
Proof. unfold client_disconnect. levels_auto. Qed.

Lemma levels_ok_client_connect c d : preserves levels_ok (client_connect ble c d).
Proof. unfold client_connect. levels_auto. Qed.

Lemma levels_ok_disconnect running_loop : preserves levels_ok (disconnect running_loop).
Proof. unfold disconnect. levels_auto. Qed.

Lemma levels_ok_run_task : preserves levels_ok (run_task ble).
Proof. unfold run_task. levels_auto. apply levels_ok_client_disconnect. Qed.

Lemma levels_ok_link_lost c : preserves levels_ok (link_lost c).
Proof. unfold link_lost. levels_auto. Qed.

Lemma levels_ok_read : preserves levels_ok (read_battery_levels ble).
Proof.
  intros s Hs. unfold levels_ok, batteries.
  by destruct (read_battery_levels_frame ble s) as (-> & _).
Qed.

Lemma levels_ok_subscribe_loop client chars :
  preserves levels_ok (subscribe_loop ble client chars).
Proof.
  induction chars as [|[handle description] rest IH]; cbn [subscribe_loop].
  - apply preserves_ret.
  - levels_auto; first [apply levels_ok_client_disconnect|by apply levels_ok_setitem; left|done].
Qed.

Lemma levels_ok_handler_loop chars sender b :
  preserves levels_ok (handler_loop chars sender (level_of_byte b)).
Proof.
  induction chars as [|[handle description] rest IH]; cbn [handler_loop].
  - apply preserves_ret.
  - destruct (N.eqb handle sender); [|done].
    apply levels_ok_setitem. apply level_of_byte_range.
Qed.

Lemma levels_ok_handler sender data :
  preserves levels_ok (_battery_level_changed_handler callbacks sender data).
Proof.
  unfold _battery_level_changed_handler, _battery_changed_callback.
  destruct data as [|b value]; [apply preserves_ret|].
  apply preserves_bind; [apply preserves_gets|]. intros chars.
  apply preserves_seq; [apply levels_ok_handler_loop|levels_auto].
Qed.

Lemma levels_ok_connect device_name device_id :
  preserves levels_ok (connect ble device_name device_id).
Proof.
  unfold connect. apply preserves_try_except.
  - apply preserves_seq; [apply levels_ok_disconnect|].
    apply preserves_bind; [apply preserves_await|]. intros [device|]; [|apply preserves_ret].
    apply preserves_bind; [apply levels_ok_BleakClient|]. intros client.
    apply preserves_seq; [apply levels_ok_client_connect|].
    apply preserves_bind; [apply preserves_gets|]. intros [|]; cbn [negb]; [|apply preserves_ret].
    apply preserves_bind; [apply preserves_await|]. intros services.
    destruct (find_battery_service services) as [battery_service|].
    2:{ apply preserves_seq; [apply levels_ok_client_disconnect|apply preserves_ret]. }
    cbn zeta.
    destruct (battery_level_characteristics _) as [|c characteristics].
    { apply preserves_seq; [apply levels_ok_client_disconnect|apply preserves_ret]. }
    apply preserves_bind; [apply levels_ok_subscribe_loop|]. intros [r|]; [apply preserves_ret|].
    do 3 (apply preserves_seq; [by apply levels_ok_modify_monitor|]).
    apply (preserves_bind_post _ (λ r, levels_within 254 (read_batteries r)));
      [apply levels_ok_read|intros s r; apply read_battery_levels_within|].
    intros r Hr. apply preserves_seq; [|apply preserves_ret].
    destruct (read_status r); [by apply levels_ok_set_batteries|apply preserves_ret..].
  - levels_auto; apply levels_ok_client_disconnect.
Qed.

Lemma levels_ok_run op : preserves levels_ok (λ s, (Returned tt, run ble callbacks op s)).
Proof.
  intros s Hs. destruct op; cbn.
  - by apply levels_ok_connect.
  - by apply levels_ok_disconnect.
  - by apply levels_ok_read.
  - by apply levels_ok_handler.
  - by apply levels_ok_run_task.
  - by apply levels_ok_link_lost.
Qed.

End LevelInvariant.

Lemma reachable_levels_ok s : reachable s → levels_ok s.
Proof.
  induction 1 as [|ble callbacks op s _ IH].
  - apply levels_within_empty.
  - by apply (levels_ok_run ble callbacks op s).
Qed.

(** ** Bulk read: outcomes on error *)

(** C4. [read_battery_levels] returns [NOT_CONNECTED] (with an empty map,
    the store untouched) when no session is active.  When connected, if
    the read of some known channel raises, the whole read returns
    [FAILURE] with the text of an exception a read raised, the returned
    map is empty (nothing accumulated before the exception is kept), and
    the monitor object and the client objects are as before. *)
Theorem read_battery_levels_errors (ble : Transport) (s : Sys) :
  (is_connected s = false →
     read_battery_levels ble s = (Returned (mkReadResult NOT_CONNECTED ∅ ""), s))
  ∧ (is_connected s = true →
     ∀ handle description msg,
       (handle, description) ∈ _battery_characteristics (monitor s) →
       ble_read_gatt_char ble (handle_uuid handle) = Raised msg →
       ∃ e,
         (read_battery_levels ble s).1 = Returned (mkReadResult FAILURE ∅ e)
         ∧ (∃ h d, (h, d) ∈ _battery_characteristics (monitor s)
                   ∧ ble_read_gatt_char ble (handle_uuid h) = Raised e)
         ∧ monitor (read_battery_levels ble s).2 = monitor s
         ∧ clients (world (read_battery_levels ble s).2) = clients (world s)).
Proof.
  split.
  - intros Hoff. unfold read_battery_levels. unfold_monad. by rewrite Hoff.
  - intros Hon handle description msg Hin Hraise.
    destruct (read_battery_levels_frame ble s) as (Hmon & Hcl & _).
    destruct (read_loop_raises ble _ ∅ s _ _ _ Hin Hraise) as (e & h & d & He & Hhd & Hr).
    exists e. split_and!; [|by exists h, d|done..].
    unfold read_battery_levels. unfold_monad. rewrite Hon.
    unfold is_connected in Hon.
    destruct (_client (monitor s)) as [c|]; [|done]. cbn.
    destruct (read_loop ble _ ∅ s) as [[m|e'] s']; cbn in *; congruence.
Qed.

Lemma read_battery_levels_errors_witness :
  read_battery_levels reads_fail initial
    = (Returned (mkReadResult NOT_CONNECTED ∅ ""), initial)
  ∧ ∃ e,
      (read_battery_levels reads_fail connected_store).1
        = Returned (mkReadResult FAILURE ∅ e)
      ∧ (∃ h d, (h, d) ∈ _battery_characteristics (monitor connected_store)
                ∧ ble_read_gatt_char reads_fail (handle_uuid h) = Raised e)
      ∧ monitor (read_battery_levels reads_fail connected_store).2
          = monitor connected_store
      ∧ clients (world (read_battery_levels reads_fail connected_store).2)
          = clients (world connected_store).
Proof.
  split.
  - apply (read_battery_levels_errors reads_fail initial). reflexivity.
  - apply (read_battery_levels_errors reads_fail connected_store)
      with (handle := 18%N) (description := "Right") (msg := "Not connected").
    + vm_compute. reflexivity.
    + vm_compute. apply elem_of_cons. right. apply elem_of_cons. by left.
    + reflexivity.
Defined.

(** ** The notification handler *)

(** The loop of the handler: it returns, leaves the world alone, and
    either writes the sender's channel (the sender is a known handle) or
    nothing at all. *)
Lemma handler_loop_spec chars sender lvl s :
  ∃ s', handler_loop chars sender lvl s = (Returned tt, s')
    ∧ world s' = world s
    ∧ (sender ∉ chars.*1 → s' = s)
    ∧ (sender ∈ chars.*1 →
       ∃ d, (sender, d) ∈ chars
            ∧ monitor s' =
                mkMonitor (<[sender := mkBatteryStatus d lvl]> (_batteries (monitor s)))
                          (_client (monitor s)) (_device (monitor s))
                          (_battery_characteristics (monitor s))).
Proof.
  induction chars as [|[handle description] rest IH]; cbn [handler_loop].
  - exists s. split_and!; [done..|]. intros Hin. by apply elem_of_nil in Hin.
  - destruct (N.eqb_spec handle sender) as [->|Hne].
    + eexists. split_and!; [done..| |].
      * intros Hnin. cbn in Hnin. by apply not_elem_of_cons in Hnin as [? _].
      * intros _. exists description. split; [|done]. apply elem_of_cons. by left.
    + destruct IH as (s' & Hrun & Hw & Hout & Hin). exists s'. split_and!; [done..| |].
      * intros Hnin. cbn in Hnin. apply not_elem_of_cons in Hnin as [_ ?]. auto.
      * intros Hs. cbn in Hs. apply elem_of_cons in Hs as [->|Hs]; [done|].
        destruct (Hin Hs) as (d & Hd & Hm). exists d. split; [|done].
        apply elem_of_cons. by right.
Qed.

(** What one notification does to the store: the loop runs on the
    normalized first byte, then the change callback is invoked, whether
    or not a channel was written; an empty payload does nothing. *)
Lemma handler_run (callbacks : Callbacks) (sender : N) (data : list byte) (s : Sys) :
  match data with
  | [] => _battery_level_changed_handler callbacks sender data s = (Returned tt, s)
  | b :: _ =>
      ∃ s1,
        handler_loop (_battery_characteristics (monitor s)) sender (level_of_byte b) s
          = (Returned tt, s1)
        ∧ _battery_level_changed_handler callbacks sender data s
          = (callbacks (calls (world s)) BatteryChanged,
             mkSys (monitor s1)
               (mkWorld (clients (world s)) (tasks (world s)) (log (world s))
                        (calls (world s) ++ [BatteryChanged])))
  end.
Proof.
  destruct data as [|b value]; [done|].
  unfold _battery_level_changed_handler. unfold_monad. cbn.
  destruct (handler_loop_spec (_battery_characteristics (monitor s)) sender
              (level_of_byte b) s) as (s1 & Hrun & Hw & _).
  exists s1. rewrite Hrun. cbn. by rewrite Hw.
Qed.

(** The level a notification leaves in the channel of its sender. *)
Lemma handler_sender_level (callbacks : Callbacks) (sender : N) (b : byte)
    (value : list byte) (s : Sys) :
  sender ∈ (_battery_characteristics (monitor s)).*1 →
  level <$> batteries (_battery_level_changed_handler callbacks sender (b :: value) s).2
              !! sender
    = Some (level_of_byte b).
Proof.
  intros Hs. destruct (handler_run callbacks sender (b :: value) s) as (s1 & Hloop & ->).
  destruct (handler_loop_spec (_battery_characteristics (monitor s)) sender
              (level_of_byte b) s) as (s1' & Hrun & _ & _ & Hin).
  rewrite Hloop in Hrun. injection Hrun as <-.
  destruct (Hin Hs) as (d & _ & Hm). unfold batteries. cbn. rewrite Hm. cbn.
  by rewrite lookup_insert_eq.
Qed.





(** ** Normalization of the level byte *)



(** ** Range of the levels *)

(** C3, as the code has it.  In every store the monitor can reach by
    connects, disconnects, bulk reads and notifications (with any
    payload), whatever the callbacks do, whenever pending tasks run and
    links drop, every channel's level is [-1] or within [0, 254]; so is
    every level in the map a bulk read returns. *)
Theorem levels_are_normalized_bytes (s : Sys) :
  reachable s →
  levels_within 254 (batteries s)
  ∧ ∀ ble r, (read_battery_levels ble s).1 = Returned r →
             levels_within 254 (read_batteries r).
Proof.
  intros Hs. split.
  - by apply reachable_levels_ok.
  - intros ble r. apply read_battery_levels_within.
Qed.

Lemma connected_store_reachable : reachable connected_store.
Proof. apply reachable_run, reachable_initial. Qed.

Lemma levels_are_normalized_bytes_witness :
  levels_within 254 (batteries connected_store)
  ∧ ∀ ble r, (read_battery_levels ble connected_store).1 = Returned r →
             levels_within 254 (read_batteries r).
Proof.
  apply (levels_are_normalized_bytes connected_store).
  apply reachable_run, reachable_initial.
Defined.

(** C3 as stated fails: a notification whose first byte is 200 leaves a
    channel at level 200, outside [-1] and [0, 100]. *)
Lemma level_above_100_reachable :
  let s := run healthy returning (Notification 18 [Byte.xc8]) connected_store in
  reachable s
  ∧ batteries s !! 18%N = Some (mkBatteryStatus "Right" 200)
  ∧ ¬ levels_within 100 (batteries s).
Proof.
  cbn zeta. split_and!.
  - apply reachable_run, connected_store_reachable.
  - vm_compute. reflexivity.
  - intros Hall.
    assert (Hr : batteries (run healthy returning (Notification 18 [Byte.xc8])
                              connected_store) !! 18%N
                 = Some (mkBatteryStatus "Right" 200)) by (vm_compute; reflexivity).
    specialize (Hall _ _ Hr). cbn in Hall. lia.
Qed.

(** ** Device enumeration *)

Section Enumeration.

Variable ble : Transport.
Variable callbacks : Callbacks.

(** The loop reports the named devices in order until a device callback
    raises, and raises what that callback raised. *)
Lemma report_devices_spec devices s :
  report_devices callbacks devices s
  = (match first_raise callbacks (calls (world s)) (reported devices) with
     | None => Returned tt
     | Some e => Raised e
     end,
     mkSys (monitor s)
       (mkWorld (clients (world s)) (tasks (world s)) (log (world s))
                (calls (world s)
                 ++ made_until_raise callbacks (calls (world s)) (reported devices)))).
Proof.
  revert s. induction devices as [|device rest IH]; intros s.
  - cbn. rewrite app_nil_r. by destruct s as [? []].
  - cbn [report_devices reported omap list_omap].
    destruct (device_name device) as [[|c n]|].
    + apply IH.
    + destruct (decide (String c n = "")) as [Hempty|_]; [discriminate Hempty|].
      cbn [made_until_raise first_raise]. unfold_monad. cbn [world calls].
      destruct (callbacks (calls (world s)) (DeviceFound (String c n) (device_address device)))
        as [[]|e]; cbn.
      * rewrite IH. cbn. by rewrite <- app_assoc.
      * done.
    + apply IH.
Qed.

Lemma reported_no_completion devices : Completed ∉ reported devices.
Proof.
  unfold reported. intros Hin. apply list_elem_of_omap in Hin as (device & _ & Hd).
  destruct (device_name device) as [n|]; [|done]. by case_decide.
Qed.

Lemma made_until_raise_sublist before l c :
  c ∈ made_until_raise callbacks before l → c ∈ l.
Proof.
  revert before. induction l as [|c' rest IH]; intros before; cbn; [done|].
  destruct (callbacks before c').
  - intros Hin. apply elem_of_cons in Hin as [->|Hin]; apply elem_of_cons;
      [by left|right; by eapply IH].
  - intros Hin. apply elem_of_cons in Hin as [->|Hin]; [|by apply elem_of_nil in Hin].
    apply elem_of_cons. by left.
Qed.

Lemma made_until_raise_all before l :
  (∀ history c, c ∈ l → callbacks history c = Returned tt) →
  made_until_raise callbacks before l = l ∧ first_raise callbacks before l = None.
Proof.
  revert before. induction l as [|c rest IH]; intros before Hall; cbn; [done|].
  rewrite Hall by (apply elem_of_cons; by left).
  destruct (IH (before ++ [c])) as [-> ->]; [|done].
  intros history c' Hin. apply Hall. apply elem_of_cons. by right.
Qed.

End Enumeration.

(** C10, as the code has it.  As long as the completion callback
    returns, [list_paired_devices] does not raise and invokes the
    completion callback exactly once, as its last call.  When the scan
    returns, the device callback is invoked before that for the devices
    with a non-empty name, in discovery order, until one of these calls
    raises: for all of them when none raises, and then nothing is
    logged; the exception of a device callback is logged and ends the
    enumeration.  When the scan raises, the error is logged and the
    completion callback is the only call. *)
Theorem list_paired_devices_calls (ble : Transport) (callbacks : Callbacks) (s : Sys) :
  (∀ history, callbacks history Completed = Returned tt) →
  ∃ made s',
    list_paired_devices ble callbacks s = (Returned tt, s')
    ∧ calls (world s') = (calls (world s) ++ made ++ [Completed])%list
    ∧ (Completed ∉ made)
    ∧ monitor s' = monitor s
    ∧ (∀ devices, ble_discover ble = Returned devices →
         made = made_until_raise callbacks (calls (world s)) (reported devices)
         ∧ log (world s')
           = (log (world s)
              ++ match first_raise callbacks (calls (world s)) (reported devices) with
                 | None => []
                 | Some e => ["Error discovering devices: " +:+ e]
                 end)%list
         ∧ ((∀ history c, c ∈ reported devices → callbacks history c = Returned tt) →
            made = reported devices ∧ log (world s') = log (world s)))
    ∧ (∀ e, ble_discover ble = Raised e →
         made = []
         ∧ log (world s') = (log (world s) ++ ["Error discovering devices: " +:+ e])%list).
Proof.
  intros Hcompletion.
  unfold list_paired_devices. unfold_monad.
  destruct (ble_discover ble) as [devices|e] eqn:Hscan.
  - rewrite report_devices_spec.
    pose proof (made_until_raise_all callbacks (calls (world s)) (reported devices))
      as Hall.
    assert (Hno : Completed ∉ made_until_raise callbacks (calls (world s))
                                (reported devices)).
    { intros Hin. apply made_until_raise_sublist in Hin.
      by apply reported_no_completion in Hin. }
    exists (made_until_raise callbacks (calls (world s)) (reported devices)).
    destruct (first_raise callbacks (calls (world s)) (reported devices)) as [e|] eqn:Hraise;
      cbn; rewrite Hcompletion; (eexists; split; [reflexivity|]); cbn.
    + split; [by rewrite <- app_assoc|]. split; [done|]. split; [done|].
      split; [|by intros e' [=]]. intros devices' [= <-]. rewrite Hraise.
      split; [done|]. split; [done|].
      intros Hret. by destruct (Hall Hret).
    + split; [by rewrite <- app_assoc|]. split; [done|]. split; [done|].
      split; [|by intros e' [=]]. intros devices' [= <-]. rewrite Hraise.
      split; [done|]. split; [by rewrite app_nil_r|].
      intros Hret. by destruct (Hall Hret) as [-> _].
  - cbn. rewrite Hcompletion.
    eexists [], _. split; [reflexivity|]. cbn.
    split; [done|]. split; [apply not_elem_of_nil|]. split; [done|].
    split; [by intros devices [=]|]. by intros e' [= <-].
Qed.

Lemma list_paired_devices_calls_witness :
  ∃ made s',
    list_paired_devices scan_mixed returning initial = (Returned tt, s')
    ∧ calls (world s') = ([] ++ made ++ [Completed])%list
    ∧ (Completed ∉ made)
    ∧ monitor s' = monitor initial
    ∧ (∀ devices, ble_discover scan_mixed = Returned devices →
         made = made_until_raise returning [] (reported devices)
         ∧ log (world s')
           = ([] ++ match first_raise returning [] (reported devices) with
                    | None => []
                    | Some e => ["Error discovering devices: " +:+ e]
                    end)%list
         ∧ ((∀ history c, c ∈ reported devices → returning history c = Returned tt) →
            made = reported devices ∧ log (world s') = []))
    ∧ (∀ e, ble_discover scan_mixed = Raised e →
         made = []
         ∧ log (world s') = ([] ++ ["Error discovering devices: " +:+ e])%list).
Proof.
  apply (list_paired_devices_calls scan_mixed returning initial). reflexivity.
Defined.

(** C10 as stated fails when a callback raises.  A device callback that
    raises ends the enumeration: of two named devices only the first is
    reported.  A completion callback that raises is invoked a second
    time by the handler of the exception, and the second exception leaves
    [list_paired_devices]. *)
Lemma raising_callback_breaks_enumeration :
  (list_paired_devices scan_two device_callback_raises initial).1 = Returned tt
  ∧ calls (world (list_paired_devices scan_two device_callback_raises initial).2)
    = [DeviceFound "Corne" "C0:FF:EE:00:00:01"; Completed]
  ∧ reported [ keyboard; mkDevice (Some "Lily58") "C0:FF:EE:00:00:02" ]
    = [DeviceFound "Corne" "C0:FF:EE:00:00:01"; DeviceFound "Lily58" "C0:FF:EE:00:00:02"]
  ∧ (list_paired_devices scan_two completion_callback_raises initial).1
    = Raised "main thread is not in main loop"
  ∧ calls (world (list_paired_devices scan_two completion_callback_raises initial).2)
    = [DeviceFound "Corne" "C0:FF:EE:00:00:01"; DeviceFound "Lily58" "C0:FF:EE:00:00:02";
       Completed; Completed].
Proof. vm_compute. done. Qed.

(** ** Disconnect *)

(** What [disconnect] leaves: no channel, no client, no characteristic;
    the client objects are untouched (the transport is asked to
    disconnect in a task of its own). *)
Lemma disconnect_spec (s : Sys) :
  ∃ w, disconnect true s = (Returned tt, mkSys (mkMonitor ∅ None None []) w)
       ∧ clients w = clients (world s)
       ∧ log w = log (world s)
       ∧ calls w = calls (world s).
Proof.
  unfold disconnect. unfold_monad. cbn.
  destruct (_client (monitor s)) as [c|]; cbn; [|by eexists].
  destruct (client_is_connected (world s) c); cbn; by eexists.
Qed.

(** After [disconnect], whatever the store was, [batteries] is empty and
    [is_connected] is false. *)
Lemma disconnect_clears (s : Sys) :
  (disconnect true s).1 = Returned tt
  ∧ batteries (disconnect true s).2 = ∅
  ∧ is_connected (disconnect true s).2 = false.
Proof. destruct (disconnect_spec s) as (w & -> & _). done. Qed.

(** ** Connect: the channels of a successful attempt *)

Section ConnectChannels.

Variable ble : Transport.




(** When no subscription is refused the loop runs to its end and enters
    every characteristic at level [-1]; nothing else changes. *)
Lemma subscribe_loop_all_ok client chars s :
  (∀ uuid, ble_start_notify ble uuid = Returned tt) →
  subscribe_loop ble client chars s
  = (Returned None,
     mkSys (mkMonitor (subscribed chars (_batteries (monitor s)))
                      (_client (monitor s)) (_device (monitor s))
                      (_battery_characteristics (monitor s)))
           (world s)).
Proof.
  intros Hok. revert s. induction chars as [|[handle description] rest IH]; intros s.
  - by destruct s as [[] ?].
  - cbn [subscribe_loop]. unfold_monad. rewrite Hok. cbn. by rewrite IH.
Qed.

(** When every channel answers with data, the loop of the bulk read
    returns a map with exactly the handles of the channels (and those it
    started with). *)
Lemma read_loop_all_data chars acc s :
  (∀ h, h ∈ chars.*1 → ∃ b value, ble_read_gatt_char ble (handle_uuid h) = Returned (b :: value)) →
  ∃ m, (read_loop ble chars acc s).1 = Returned m
       ∧ dom m = dom acc ∪ list_to_set chars.*1.
Proof.
  revert acc s. induction chars as [|[handle description] rest IH]; intros acc s Hdata.
  - exists acc. split; [done|]. cbn. set_solver.
  - cbn [read_loop]. unfold_monad.
    destruct (Hdata handle) as (b & value & ->); [cbn; apply elem_of_cons; by left|].
    cbn. edestruct IH as (m & -> & Hdom).
    { intros h Hh. apply Hdata. cbn. apply elem_of_cons. by right. }
    exists m. split; [done|]. rewrite Hdom, dom_insert_L. cbn. set_solver.
Qed.


(** The bulk read of a connected monitor whose channels all answer with
    data succeeds, with one entry per handle. *)
Lemma read_battery_levels_all_data s :
  is_connected s = true →
  (∀ h, h ∈ (_battery_characteristics (monitor s)).*1 →
        ∃ b value, ble_read_gatt_char ble (handle_uuid h) = Returned (b :: value)) →
  ∃ m, (read_battery_levels ble s).1 = Returned (mkReadResult SUCCESS m "")
       ∧ dom m = list_to_set (_battery_characteristics (monitor s)).*1.
Proof.
  intros Hon Hdata.
  destruct (read_loop_all_data _ ∅ s Hdata) as (m & Hm & Hdom).
  exists m. split; [|rewrite Hdom, dom_empty_L; set_solver].
  unfold read_battery_levels. unfold_monad. rewrite Hon.
  unfold is_connected in Hon.
  destruct (_client (monitor s)) as [c|]; [|done]. cbn.
  destruct (read_loop ble _ ∅ s) as [[m'|e'] s']; cbn in *; congruence.
Qed.

End ConnectChannels.

(** ** The session invariant *)

Section SessionInvariant.

Variable ble : Transport.
Variable callbacks : Callbacks.

Lemma new_client_flag (cl : list bool) (b : bool) :
  default false (<[length cl := b]> (cl ++ [false]) !! length cl) = b.
Proof.
  rewrite list_lookup_insert_eq; [done|]. rewrite length_app. cbn. lia.
Qed.

(** The bulk read catches what its loop raises: it always returns. *)
Lemma read_battery_levels_returns s :
  ∃ r, (read_battery_levels ble s).1 = Returned r.
Proof.
  unfold read_battery_levels. unfold_monad. cbn.
  destruct (negb (is_connected s) || _); cbn; [by eexists|].
  destruct (read_loop ble _ ∅ s) as [[m|e] s']; cbn; by eexists.
Qed.

(** [disconnect] called where no event loop is running: with a live
    session, [create_task] raises after the map has been emptied, and
    the client, the device and the characteristics stay; without one,
    the monitor is emptied. *)
Lemma disconnect_outside_loop (s : Sys) :
  disconnect false s
  = if is_connected s
    then (Raised "no running event loop",
          mkSys (mkMonitor ∅ (_client (monitor s)) (_device (monitor s))
                           (_battery_characteristics (monitor s)))
                (world s))
    else (Returned tt, mkSys (mkMonitor ∅ None None []) (world s)).
Proof.
  unfold disconnect. unfold_monad. unfold is_connected. cbn.
  destruct (_client (monitor s)) as [c|]; cbn; [|done].
  destruct (client_is_connected (world s) c); done.
Qed.

Lemma session_inv_disconnect running_loop s :
  session_inv (disconnect running_loop s).2.
Proof.
  destruct running_loop.
  - destruct (disconnect_spec s) as (w & -> & _). done.
  - rewrite disconnect_outside_loop. unfold session_inv, is_connected.
    destruct (_client (monitor s)) as [c|]; [|done].
    destruct (client_is_connected (world s) c); done.
Qed.

Lemma session_inv_read s : session_inv s → session_inv (read_battery_levels ble s).2.
Proof.
  destruct (read_battery_levels_frame ble s) as (Hm & Hc & _).
  unfold session_inv, batteries. by rewrite Hm.
Qed.

Lemma session_inv_handler sender data s :
  session_inv s → session_inv (_battery_level_changed_handler callbacks sender data s).2.
Proof.
  intros Hs. pose proof (handler_run callbacks sender data s) as Hrun.
  destruct data as [|b value]; [by rewrite Hrun|].
  destruct Hrun as (s1 & Hloop & ->).
  destruct (handler_loop_spec (_battery_characteristics (monitor s)) sender
              (level_of_byte b) s) as (s1' & Hrun & _ & Hout & Hin).
  rewrite Hloop in Hrun. injection Hrun as <-.
  destruct (decide (sender ∈ (_battery_characteristics (monitor s)).*1)) as [Hk|Hk].
  - destruct (Hin Hk) as (d & _ & Hm). unfold session_inv, batteries in *. cbn.
    rewrite Hm. cbn. intros Hnone. destruct (Hs Hnone) as [_ Hnil].
    rewrite Hnil in Hk. by apply elem_of_nil in Hk.
  - by rewrite (Hout Hk).
Qed.

Lemma run_task_frame s : monitor (run_task ble s).2 = monitor s.
Proof.
  unfold run_task, client_disconnect. unfold_monad.
  destruct (tasks (world s)) as [|c rest]; [done|]. cbn.
  by destruct (ble_disconnect ble).
Qed.

Lemma session_inv_run_task s : session_inv s → session_inv (run_task ble s).2.
Proof. unfold session_inv, batteries. by rewrite run_task_frame. Qed.

(** A connect attempt in which no subscription is refused ends in a
    store that satisfies the invariant, whatever else goes wrong. *)
Lemma session_inv_connect device_name device_id s :
  (∀ uuid, ble_start_notify ble uuid = Returned tt) →
  session_inv (connect ble device_name device_id s).2.
Proof.
  intros Hok. unfold connect, try_except.
  unfold mbind at 1, M_bind at 1.
  destruct (disconnect_spec s) as (w & -> & _).
  unfold bind at 1, mbind at 1, M_bind at 1, await at 1.
  destruct (ble_find_device_by_address ble device_id) as [[device|]|e]; [|done..].
  unfold bind at 1, mbind at 1, M_bind at 1, BleakClient at 1. cbn [monitor world clients].
  unfold mbind at 1, M_bind at 1, client_connect, bind at 1, mbind at 1, M_bind at 1, await at 1.
  destruct (ble_connect ble device) as [live|e]; [|done].
  unfold set_flag at 1, modify_world at 1. cbn [monitor world clients tasks log calls].
  unfold bind at 1, mbind at 1, M_bind at 1, gets at 1, client_is_connected at 1.
  cbn [world clients]. rewrite new_client_flag.
  destruct live; cbn [negb]; [|done].
  unfold bind at 1, mbind at 1, M_bind at 1, await at 1.
  destruct (ble_get_services ble) as [services|e]; [|done].
  assert (Hdisc : ∀ (r : ConnectResult) s0,
    _client (monitor s0) = None → batteries s0 = ∅ →
    _battery_characteristics (monitor s0) = [] →
    session_inv
      (match (client_disconnect ble (length (clients w));; ret r) s0 with
       | (Returned a, s') => (Returned a, s')
       | (Raised e, s') =>
           (logger ("Connection error: " +:+ e);;
            cl <- gets (λ s, _client (monitor s));;
            live <- gets is_connected;;
            match cl with
            | Some c => if live then client_disconnect ble c else ret tt
            | None => ret tt
            end;;
            set_client None;; set_device None;; set_battery_characteristics [];;
            ret (mkConnectResult DEVICE_NOT_FOUND e)) s'
       end).2).
  { intros r s0 Hc Hb Hch. unfold client_disconnect. unfold_monad.
    destruct (ble_disconnect ble) as [[]|e]; cbn.
    - done.
    - rewrite Hc. cbn. unfold session_inv. cbn. done. }
  destruct (find_battery_service services) as [battery_service|]; [|by apply Hdisc].
  cbn zeta.
  destruct (battery_level_characteristics _) as [|c0 characteristics] eqn:Hchars;
    [by apply Hdisc|].
  unfold bind at 1, mbind at 1, M_bind at 1.
  rewrite subscribe_loop_all_ok by done.
  cbn [monitor world _client _device _battery_characteristics].
  unfold_monad. cbn.
  match goal with
  | |- context [read_battery_levels ble ?s1] =>
      pose proof (read_battery_levels_frame ble s1) as (Hm & Hc & _);
      destruct (read_battery_levels_returns s1) as (r & Hr);
      destruct (read_battery_levels ble s1) as [[r'|e] s2]
  end; cbn in *; [|done].
  destruct (read_status r'); unfold session_inv; cbn; rewrite ?Hm; cbn; done.
Qed.

(** Every operation keeps the invariant, as long as the transport
    refuses no subscription. *)
Lemma session_inv_run op s :
  (∀ uuid, ble_start_notify ble uuid = Returned tt) →
  session_inv s → session_inv (run ble callbacks op s).
Proof.
  intros Hok Hs. destruct op; cbn.
  - by apply session_inv_connect.
  - apply session_inv_disconnect.
  - by apply session_inv_read.
  - by apply session_inv_handler.
  - by apply session_inv_run_task.
  - done.
Qed.

End SessionInvariant.

(** ** Connect: reaching the initial read *)

Section ConnectSuccess.

Variable ble : Transport.

(** A connect attempt that gets as far as the initial read: the device
    is found and connects, it has a battery service with battery level
    characteristics, and no subscription is refused.  [connect] returns
    [CONNECTED]; at the initial read every characteristic has a channel at
    level [-1]; afterwards the monitor holds the map of the read if it
    succeeded and the channels at level [-1] if it did not. *)
Lemma connect_reaches_initial_read device_name device_id s device services battery_service :
  ble_find_device_by_address ble device_id = Returned (Some device) →
  ble_connect ble device = Returned true →
  ble_get_services ble = Returned services →
  find_battery_service services = Some battery_service →
  let characteristics :=
    battery_level_characteristics (service_characteristics battery_service) in
  characteristics ≠ [] →
  (∀ uuid, ble_start_notify ble uuid = Returned tt) →
  ∃ s1,
    batteries s1 = subscribed characteristics ∅
    ∧ _battery_characteristics (monitor s1) = characteristics
    ∧ is_connected s1 = true
    ∧ (connect ble device_name device_id s).1 = Returned (mkConnectResult CONNECTED "")
    ∧ is_connected (connect ble device_name device_id s).2 = true
    ∧ _battery_characteristics (monitor (connect ble device_name device_id s).2)
      = characteristics
    ∧ batteries (connect ble device_name device_id s).2
      = match (read_battery_levels ble s1).1 with
        | Returned (mkReadResult SUCCESS m _) => m
        | _ => subscribed characteristics ∅
        end.
Proof.
  intros Hfind Hconn Hserv Hbs characteristics Hne Hok.
  remember (connect ble device_name device_id s) as result eqn:Hrun.
  unfold connect, try_except in Hrun.
  unfold mbind at 1, M_bind at 1 in Hrun.
  destruct (disconnect_spec s) as (w & Hdisc & _). rewrite Hdisc in Hrun.
  unfold bind at 1, mbind at 1, M_bind at 1, await at 1 in Hrun. rewrite Hfind in Hrun.
  unfold bind at 1, mbind at 1, M_bind at 1, BleakClient at 1 in Hrun.
  cbn [monitor world clients] in Hrun.
  unfold mbind at 1, M_bind at 1, client_connect, bind at 1, mbind at 1, M_bind at 1,
    await at 1 in Hrun.
  rewrite Hconn in Hrun.
  unfold set_flag at 1, modify_world at 1 in Hrun.
  cbn [monitor world clients tasks log calls] in Hrun.
  unfold bind at 1, mbind at 1, M_bind at 1, gets at 1, client_is_connected at 1 in Hrun.
  cbn [world clients] in Hrun. rewrite new_client_flag in Hrun. cbn [negb] in Hrun.
  unfold bind at 1, mbind at 1, M_bind at 1, await at 1 in Hrun.
  rewrite Hserv, Hbs in Hrun. cbn zeta in Hrun. fold characteristics in Hrun.
  destruct characteristics as [|c0 rest] eqn:Hchars; [done|].
  unfold bind at 1, mbind at 1, M_bind at 1 in Hrun.
  rewrite subscribe_loop_all_ok in Hrun by done.
  cbn [monitor world _client _device _battery_characteristics _batteries] in Hrun.
  unfold_monad. cbn in Hrun.
  match type of Hrun with
  | context [read_battery_levels ble ?s1] =>
      exists s1;
      pose proof (read_battery_levels_frame ble s1) as (Hm & Hc & _);
      destruct (read_battery_levels_returns ble s1) as (r & Hr);
      destruct (read_battery_levels ble s1) as [[r'|e] s2]
  end; cbn in *; [|done].
  assert (Hlive : client_is_connected
            (mkWorld (<[length (clients w):=true]> (clients w ++ [false]))
                     (tasks w) (log w) (calls w)) (length (clients w)) = true)
    by apply new_client_flag.
  assert (Hlive' : client_is_connected (world s2) (length (clients w)) = true).
  { unfold client_is_connected. rewrite Hc. apply new_client_flag. }
  split_and!; [done|done|done|..];
    destruct r' as [[] m msg]; subst result; unfold is_connected, batteries; cbn;
    rewrite ?Hm; done.
Qed.


(** If every channel answers the initial read with data, there is one
    channel per characteristic (for distinct handles), each at the
    normalized level of its first byte. *)
Lemma connect_initial_read_all_data device_name device_id s device services battery_service :
  ble_find_device_by_address ble device_id = Returned (Some device) →
  ble_connect ble device = Returned true →
  ble_get_services ble = Returned services →
  find_battery_service services = Some battery_service →
  let characteristics :=
    battery_level_characteristics (service_characteristics battery_service) in
  characteristics ≠ [] →
  (∀ uuid, ble_start_notify ble uuid = Returned tt) →
  (∀ h, h ∈ characteristics.*1 →
        ∃ b value, ble_read_gatt_char ble (handle_uuid h) = Returned (b :: value)) →
  (connect ble device_name device_id s).1 = Returned (mkConnectResult CONNECTED "")
  ∧ dom (batteries (connect ble device_name device_id s).2) = list_to_set characteristics.*1
  ∧ (NoDup characteristics.*1 →
     size (batteries (connect ble device_name device_id s).2) = length characteristics).
Proof.
  intros Hfind Hconn Hserv Hbs characteristics Hne Hok Hdata.
  destruct (connect_reaches_initial_read device_name device_id s device services
              battery_service Hfind Hconn Hserv Hbs Hne Hok)
    as (s1 & Hb1 & Hc1 & Hlive & Hres & _ & _ & Hb).
  fold characteristics in Hb1, Hc1, Hb.
  destruct (read_battery_levels_all_data ble s1) as (m & Hm & Hdom);
    [done|by rewrite Hc1|].
  rewrite Hm in Hb. rewrite Hb, Hdom, Hc1. split_and!; [done..|].
  intros Hnd. rewrite <- size_dom, Hdom, Hc1, size_list_to_set by done.
  apply length_fmap.
Qed.

(** The subscription to the second characteristic is refused after the
    first was accepted: [connect] returns [SUBSCRIPTION_FAILURE] with the
    text of the exception and no session is active, but the channel of
    the first characteristic stays in the map. *)
Lemma connect_second_subscription_refused device_name device_id s device services
    battery_service h1 d1 h2 d2 rest e :
  ble_find_device_by_address ble device_id = Returned (Some device) →
  ble_connect ble device = Returned true →
  ble_get_services ble = Returned services →
  find_battery_service services = Some battery_service →
  battery_level_characteristics (service_characteristics battery_service)
    = (h1, d1) :: (h2, d2) :: rest →
  ble_start_notify ble (handle_uuid h1) = Returned tt →
  ble_start_notify ble (handle_uuid h2) = Raised e →
  ble_disconnect ble = Returned tt →
  (connect ble device_name device_id s).1
    = Returned (mkConnectResult SUBSCRIPTION_FAILURE e)
  ∧ is_connected (connect ble device_name device_id s).2 = false
  ∧ batteries (connect ble device_name device_id s).2
    = {[ h1 := mkBatteryStatus d1 (-1) ]}.
Proof.
  intros Hfind Hconn Hserv Hbs Hchars Hn1 Hn2 Hdisc.
  remember (connect ble device_name device_id s) as result eqn:Hrun.
  unfold connect, try_except in Hrun.
  unfold mbind at 1, M_bind at 1 in Hrun.
  destruct (disconnect_spec s) as (w & Hd & _). rewrite Hd in Hrun.
  unfold bind at 1, mbind at 1, M_bind at 1, await at 1 in Hrun. rewrite Hfind in Hrun.
  unfold bind at 1, mbind at 1, M_bind at 1, BleakClient at 1 in Hrun.
  cbn [monitor world clients] in Hrun.
  unfold mbind at 1, M_bind at 1, client_connect, bind at 1, mbind at 1, M_bind at 1,
    await at 1 in Hrun.
  rewrite Hconn in Hrun.
  unfold set_flag at 1, modify_world at 1 in Hrun.
  cbn [monitor world clients tasks log calls] in Hrun.
  unfold bind at 1, mbind at 1, M_bind at 1, gets at 1, client_is_connected at 1 in Hrun.
  cbn [world clients] in Hrun. rewrite new_client_flag in Hrun. cbn [negb] in Hrun.
  unfold bind at 1, mbind at 1, M_bind at 1, await at 1 in Hrun.
  rewrite Hserv, Hbs in Hrun. cbn zeta in Hrun. rewrite Hchars in Hrun.
  cbn [subscribe_loop] in Hrun. unfold client_disconnect in Hrun. unfold_monad.
  rewrite Hn1 in Hrun. cbn in Hrun. rewrite Hn2, Hdisc in Hrun. cbn in Hrun.
  subst result. cbn. split_and!; [done..|].
  unfold batteries. cbn. by rewrite insert_empty.
Qed.

End ConnectSuccess.

(** ** Connect: a refused subscription, evaluated *)

(** C1, on the code: the subscription to the second of two
    characteristics is refused.  [connect] returns [SUBSCRIPTION_FAILURE]
    with the text of the exception and the client is disconnected, but
    the channel of the first characteristic, entered when its
    subscription succeeded, is still in the map of the monitor: one
    Battery Channel persists. *)
Theorem refused_subscription_leaves_a_channel :
  let r := connect second_subscription_fails "Corne" (device_address keyboard) initial in
  r.1 = Returned (mkConnectResult SUBSCRIPTION_FAILURE "Notify not permitted")
  ∧ clients (world r.2) = [false]
  ∧ is_connected r.2 = false
  ∧ batteries r.2 = {[ 16%N := mkBatteryStatus "Left" (-1) ]}
  ∧ size (batteries r.2) = 1%nat.
Proof. vm_compute. done. Qed.

(** C2, on the code: the same connect attempt, from the initial store
    (no session, no channel), ends in a store where no session is active
    and yet the map of channels is not empty.  A [disconnect] empties
    it. *)
Theorem channels_without_session :
  let s := run second_subscription_fails returning connect_keyboard initial in
  reachable s
  ∧ (is_connected initial = false ∧ batteries initial = ∅)
  ∧ is_connected s = false
  ∧ batteries s ≠ ∅
  ∧ batteries (run second_subscription_fails returning (Disconnect true) s) = ∅.
Proof.
  cbn zeta. split; [|split; [|split; [|split]]].
  - apply reachable_run, reachable_initial.
  - done.
  - vm_compute. done.
  - intros Hempty.
    assert (Hl : batteries (run second_subscription_fails returning connect_keyboard initial) !! 16%N
                 = Some (mkBatteryStatus "Left" (-1))) by (vm_compute; reflexivity).
    rewrite Hempty in Hl. by rewrite lookup_empty in Hl.
  - apply disconnect_clears.
Qed.

(** ** Connect: a read without data, evaluated *)

(** C5, on the code: the right half answers the initial read with no
    data.  The bulk read succeeds, but its map has no entry for the right
    half; when [connect] commits it, the channel of the right half, which
    was there at level [-1], is gone from the monitor.  The same happens
    to a channel at level 70 when the result of a later read is
    committed. *)
Theorem silent_channel_is_dropped :
  let r := connect right_half_silent "Corne" (device_address keyboard) initial in
  let later := (read_battery_levels right_half_silent connected_store).1 in
  r.1 = Returned (mkConnectResult CONNECTED "")
  ∧ _battery_characteristics (monitor r.2) = [(16%N, "Left"); (18%N, "Right")]
  ∧ batteries r.2 !! 16%N = Some (mkBatteryStatus "Left" 80)
  ∧ batteries r.2 !! 18%N = None
  ∧ batteries connected_store !! 18%N = Some (mkBatteryStatus "Right" 70)
  ∧ later = Returned (mkReadResult SUCCESS {[ 16%N := mkBatteryStatus "Left" 80 ]} "").
Proof. vm_compute. done. Qed.

(** The subscription loop alone enters every characteristic at level
    [-1]: it is the commit of the read that drops the silent one. *)
Example subscribed_before_read :
  batteries (subscribe_loop right_half_silent 0 [(16%N, "Left"); (18%N, "Right")] initial).2
  = {[ 16%N := mkBatteryStatus "Left" (-1); 18%N := mkBatteryStatus "Right" (-1) ]}.
Proof. vm_compute. done. Qed.

(** C7, on the code: a keyboard with one battery level characteristic
    whose initial read gives no data.  [connect] returns [CONNECTED], the
    transport reported one characteristic, and the monitor has no
    channel. *)
Theorem fewer_channels_than_characteristics :
  let r := connect silent_battery "Corne" (device_address keyboard) initial in
  r.1 = Returned (mkConnectResult CONNECTED "")
  ∧ is_connected r.2 = true
  ∧ length (_battery_characteristics (monitor r.2)) = 1%nat
  ∧ size (batteries r.2) = 0%nat.
Proof. vm_compute. done. Qed.

(** When the initial read fails, [connect] still returns [CONNECTED] and
    every channel is at level [-1]. *)
Example failed_initial_read_is_not_fatal :
  let r := connect reads_fail "Corne" (device_address keyboard) initial in
  r.1 = Returned (mkConnectResult CONNECTED "")
  ∧ batteries r.2
    = {[ 16%N := mkBatteryStatus "Left" (-1); 18%N := mkBatteryStatus "Right" (-1) ]}.
Proof. vm_compute. done. Qed.

(** ** The reconnect timer *)

(** Starting a running timer changes nothing: one countdown. *)
Lemma start_is_idempotent (a : BatteryTrayApp) :
  _start_reconnect_timer (_start_reconnect_timer a) = _start_reconnect_timer a.
Proof.
  unfold _start_reconnect_timer. by destruct (_reconnect_timer_running a) eqn:Hr; cbn; rewrite ?Hr.
Qed.

Lemma start_schedules_one_tick (root : bool) :
  timers (_start_reconnect_timer (_start_reconnect_timer (app_init root))) = 1%nat
  ∧ _reconnect_counter (_start_reconnect_timer (app_init root)) = 300.
Proof. done. Qed.

(** A [CONNECTED] outcome stops the timer and schedules nothing; ticks
    still scheduled return at once. *)
Lemma connected_halts (a : BatteryTrayApp) (r : ConnectResult) :
  connect_status r = CONNECTED →
  _reconnect_timer_running (on_connect_done (Returned r) a) = false
  ∧ timers (on_connect_done (Returned r) a) = timers a
  ∧ timer_tick (on_connect_done (Returned r) a) = on_connect_done (Returned r) a.
Proof. intros Hr. unfold on_connect_done, timer_tick. by rewrite Hr. Qed.

(** With a window, any other outcome resets the counter to the full
    interval and schedules the next tick. *)
Lemma failure_with_window_resumes (a : BatteryTrayApp) (fut : outcome ConnectResult) :
  _root a = true →
  (∀ r, fut = Returned r → connect_status r ≠ CONNECTED) →
  _reconnect_counter (on_connect_done fut a) = RECONNECT_INTERVAL
  ∧ timers (on_connect_done fut a) = S (timers a)
  ∧ _reconnect_timer_running (on_connect_done fut a) = _reconnect_timer_running a.
Proof.
  intros Hroot Hfail. unfold on_connect_done. cbn. rewrite Hroot.
  destruct fut as [r|e]; [|done].
  specialize (Hfail r eq_refl). by destruct (connect_status r).
Qed.

(** C9, on the code: the application is started for a remembered device,
    so no window exists.  The timer counts 300 ticks down and issues a
    connect attempt; the attempt returns [DEVICE_NOT_FOUND].  The counter
    is reset to 300, but no tick is scheduled: nothing will run any more,
    the timer still counts as running, so that starting it again does
    nothing.  There is no second attempt. *)
Theorem no_retry_without_window :
  let counting := _start_reconnect_timer (app_init false) in
  let connecting := Nat.iter 300 fire_timer counting in
  let failed := on_connect_done (Returned (mkConnectResult DEVICE_NOT_FOUND "")) connecting in
  (timers counting = 1%nat ∧ _reconnect_counter counting = 300)
  ∧ (attempts connecting = 1%nat ∧ timers connecting = 0%nat)
  ∧ _reconnect_counter failed = 300
  ∧ _reconnect_timer_running failed = true
  ∧ scheduler_live failed = false
  ∧ fire_timer failed = failed
  ∧ _start_reconnect_timer failed = failed.
Proof. vm_compute. done. Qed.

(** With a window the same failure resumes the countdown. *)
Example retry_with_window :
  let connecting := Nat.iter 300 fire_timer (_start_reconnect_timer (app_init true)) in
  let failed := on_connect_done (Returned (mkConnectResult DEVICE_NOT_FOUND "")) connecting in
  attempts connecting = 1%nat
  ∧ _reconnect_counter failed = 300
  ∧ timers failed = 1%nat
  ∧ attempts (Nat.iter 300 fire_timer failed) = 1%nat.
Proof. vm_compute. done. Qed.

(** * Further properties of the monitor *)

(** ** Connect: every way out *)

Section ConnectOutcomes.

Variable ble : Transport.

(** The three ways out of the subscription loop.  In each of them the
    loop has only written the map of channels and, when a subscription
    was refused, the flag of the client it disconnects. *)
Lemma subscribe_loop_cases client chars s :
  ∃ b w,
    (subscribe_loop ble client chars s).2
      = mkSys (mkMonitor b (_client (monitor s)) (_device (monitor s))
                         (_battery_characteristics (monitor s))) w
    ∧ tasks w = tasks (world s)
    ∧ calls w = calls (world s)
    ∧ dom b ⊆ dom (_batteries (monitor s)) ∪ list_to_set chars.*1
    ∧ match (subscribe_loop ble client chars s).1 with
      | Returned None => w = world s
      | Returned (Some r) =>
          ∃ e, r = mkConnectResult SUBSCRIPTION_FAILURE e
               ∧ ble_disconnect ble = Returned tt
               ∧ clients w = <[client := false]> (clients (world s))
      | Raised e => ble_disconnect ble = Raised e ∧ clients w = clients (world s)
      end.
Proof.
  revert s. induction chars as [|[handle description] rest IH]; intros s.
  - exists (_batteries (monitor s)), (world s). cbn.
    repeat split; [by destruct s as [[] ?]|set_solver].
  - cbn [subscribe_loop]. unfold client_disconnect. unfold_monad.
    destruct (ble_start_notify ble (handle_uuid handle)) as [[]|e]; cbn.
    + match goal with
      | |- context [subscribe_loop ble client rest ?s1] =>
          destruct (IH s1) as (b & w & Hs & Ht & Hc & Hd & Hcase)
      end.
      exists b, w. cbn in *. split_and!; [exact Hs|exact Ht|exact Hc| |exact Hcase].
      rewrite dom_insert_L in Hd. set_solver.
    + destruct (ble_disconnect ble) as [[]|e']; cbn.
      * destruct s as [[b0 c0 d0 ch0] w0]. cbn. eexists _, _. split; [reflexivity|]. cbn.
        split; [done|]. split; [done|]. split; [set_solver|]. by exists e.
      * destruct s as [[b0 c0 d0 ch0] w0]. cbn. eexists _, _. split; [reflexivity|]. cbn.
        split; [done|]. split; [done|]. split; [set_solver|]. done.
Qed.

(** Every entry of the map the loop of the bulk read returns was there
    at the start or comes from a channel that answered with data. *)
Lemma read_loop_entries chars acc s m :
  (read_loop ble chars acc s).1 = Returned m →
  ∀ h status, m !! h = Some status →
    acc !! h = Some status
    ∨ ∃ d b value, (h, d) ∈ chars
        ∧ status = mkBatteryStatus d (level_of_byte b)
        ∧ ble_read_gatt_char ble (handle_uuid h) = Returned (b :: value).
Proof.
  revert acc s. induction chars as [|[handle description] rest IH]; intros acc s Hret h st Hst.
  - cbn in Hret. injection Hret as <-. by left.
  - cbn [read_loop] in Hret. unfold_monad.
    destruct (ble_read_gatt_char ble (handle_uuid handle)) as [[|b0 value0]|e] eqn:Hread;
      cbn in Hret; [| |done].
    + destruct (IH _ _ Hret h st Hst) as [?|(d & b & v & Hin & ? & ?)]; [by left|].
      right. exists d, b, v. split_and!; [|done..]. apply elem_of_cons. by right.
    + destruct (IH _ _ Hret h st Hst) as [Hacc|(d & b & v & Hin & ? & ?)].
      * destruct (decide (handle = h)) as [->|Hne].
        -- rewrite lookup_insert_eq in Hacc. injection Hacc as <-.
           right. exists description, b0, value0. split_and!; [|done..].
           apply elem_of_cons. by left.
        -- rewrite lookup_insert_ne in Hacc by done. by left.
      * right. exists d, b, v. split_and!; [|done..]. apply elem_of_cons. by right.
Qed.

(** Every entry of the map a bulk read returns belongs to a successful
    read and comes from a channel of the session that answered with
    data: its name is the channel's description and its level the
    normalized first byte. *)
Lemma read_battery_levels_entries s r h status :
  (read_battery_levels ble s).1 = Returned r →
  read_batteries r !! h = Some status →
  read_status r = SUCCESS
  ∧ is_connected s = true
  ∧ ∃ d b value, (h, d) ∈ _battery_characteristics (monitor s)
      ∧ status = mkBatteryStatus d (level_of_byte b)
      ∧ ble_read_gatt_char ble (handle_uuid h) = Returned (b :: value).
Proof.
  unfold read_battery_levels. unfold_monad. cbn.
  destruct (is_connected s) eqn:Hlive; cbn.
  2:{ intros [= <-]. cbn. by rewrite lookup_empty. }
  destruct (bool_decide _); cbn.
  2:{ intros [= <-]. cbn. by rewrite lookup_empty. }
  destruct (read_loop ble _ ∅ s) as [[m|e] s'] eqn:Hloop; cbn.
  - intros [= <-] Hst. cbn in *. split_and!; [done..|].
    destruct (read_loop_entries (_battery_characteristics (monitor s)) ∅ s m
                ltac:(by rewrite Hloop) h status Hst) as [Hempty|?]; [|done].
    by rewrite lookup_empty in Hempty.
  - intros [= <-]. cbn. by rewrite lookup_empty.
Qed.

Lemma read_loop_tasks chars acc s :
  tasks (world (read_loop ble chars acc s).2) = tasks (world s).
Proof.
  revert acc s. induction chars as [|[h d] rest IH]; intros acc s; [done|].
  cbn [read_loop]. unfold_monad.
  destruct (ble_read_gatt_char ble (handle_uuid h)) as [[|? ?]|?]; cbn; [|apply IH|done].
  by rewrite IH.
Qed.

(** The bulk read creates no task. *)
Lemma read_battery_levels_tasks s :
  tasks (world (read_battery_levels ble s).2) = tasks (world s).
Proof.
  unfold read_battery_levels. unfold_monad. cbn.
  destruct (negb (is_connected s) || _); cbn; [done|].
  pose proof (read_loop_tasks (_battery_characteristics (monitor s)) ∅ s) as Hl.
  destruct (read_loop ble _ ∅ s) as [[m|e] s']; cbn in *; done.
Qed.

Lemma torn_down_client_flag (cl : list bool) (b : bool) :
  default false (<[length cl := false]> (<[length cl := b]> (cl ++ [false])) !! length cl)
  = false.
Proof.
  rewrite list_lookup_insert_eq; [done|]. rewrite length_insert, length_app. cbn. lia.
Qed.

Ltac connect_failed result :=
  subst result; cbn; eexists; split_and!;
  first [ done | set_solver
        | intros _ _; split; [done|]; unfold client_is_connected; cbn;
          apply torn_down_client_flag ].

(** What [connect] leaves, for every answer of the transport (a value
    or an [Exception]): it returns a result.  As no link drops in the
    middle of an operation, the result is [CONNECTED] exactly when a
    session is active afterwards, on a client object created by this
    attempt; with any other result the monitor holds no client, no device
    and no characteristic.  Every channel left in the map has the handle
    of a battery level characteristic of the service this attempt
    enumerated.  The only task created is the one of the [disconnect] at
    the start. *)
Lemma connect_result device_name device_id s :
  ∃ r,
    (connect ble device_name device_id s).1 = Returned r
    ∧ tasks (world (connect ble device_name device_id s).2) = tasks (world (disconnect true s).2)
    ∧ calls (world (connect ble device_name device_id s).2) = calls (world s)
    ∧ (connect_status r = CONNECTED →
       is_connected (connect ble device_name device_id s).2 = true
       ∧ _client (monitor (connect ble device_name device_id s).2)
         = Some (length (clients (world s)))
       ∧ is_Some (_device (monitor (connect ble device_name device_id s).2))
       ∧ _battery_characteristics (monitor (connect ble device_name device_id s).2) ≠ [])
    ∧ (connect_status r ≠ CONNECTED →
       monitor (connect ble device_name device_id s).2
       = mkMonitor (batteries (connect ble device_name device_id s).2) None None [])
    ∧ (connect_status r ≠ CONNECTED → connect_status r ≠ DEVICE_NOT_FOUND →
       ble_disconnect ble = Returned tt
       ∧ client_is_connected (world (connect ble device_name device_id s).2)
                             (length (clients (world s))) = false)
    ∧ (∀ h, h ∈ dom (batteries (connect ble device_name device_id s).2) →
       ∃ services battery_service,
         ble_get_services ble = Returned services
         ∧ find_battery_service services = Some battery_service
         ∧ h ∈ (battery_level_characteristics
                  (service_characteristics battery_service)).*1).
Proof.
  remember (connect ble device_name device_id s) as result eqn:Hrun.
  unfold connect, try_except in Hrun.
  unfold mbind at 1, M_bind at 1 in Hrun.
  destruct (disconnect_spec s) as (w & Hd & Hcl & _ & Hcalls). rewrite Hd in *.
  cbn [snd world]. rewrite <- Hcl, <- Hcalls.
  unfold bind at 1, mbind at 1, M_bind at 1, await at 1 in Hrun.
  destruct (ble_find_device_by_address ble device_id) as [[device|]|e];
    [|(connect_failed result) ..].
  unfold bind at 1, mbind at 1, M_bind at 1, BleakClient at 1 in Hrun.
  cbn [monitor world clients] in Hrun.
  unfold mbind at 1, M_bind at 1, client_connect, bind at 1, mbind at 1, M_bind at 1,
    await at 1 in Hrun.
  destruct (ble_connect ble device) as [live|e];
    [|connect_failed result].
  unfold set_flag at 1, modify_world at 1 in Hrun.
  cbn [monitor world clients tasks log calls] in Hrun.
  unfold bind at 1, mbind at 1, M_bind at 1, gets at 1, client_is_connected at 1 in Hrun.
  cbn [world clients] in Hrun. rewrite new_client_flag in Hrun.
  destruct live; cbn [negb] in Hrun;
    [|connect_failed result].
  unfold bind at 1, mbind at 1, M_bind at 1, await at 1 in Hrun.
  destruct (ble_get_services ble) as [services|e];
    [|connect_failed result].
  destruct (find_battery_service services) as [battery_service|] eqn:Hbs.
  2:{ unfold client_disconnect in Hrun. unfold_monad.
      destruct (ble_disconnect ble) as [[]|e]; connect_failed result. }
  cbn zeta in Hrun.
  destruct (battery_level_characteristics _) as [|c0 characteristics] eqn:Hchars.
  { unfold client_disconnect in Hrun. unfold_monad.
    destruct (ble_disconnect ble) as [[]|e]; connect_failed result. }
  unfold bind at 1, mbind at 1, M_bind at 1 in Hrun.
  match type of Hrun with
  | context [subscribe_loop ble ?c ?l ?s0] =>
      destruct (subscribe_loop_cases c l s0) as (b & w' & Hs' & Ht & Hc & Hdom & Hcase);
      destruct (subscribe_loop ble c l s0) as [[[r|]|e] s1]
  end; cbn in Hs', Ht, Hc, Hdom, Hcase; subst s1.
  - (* a subscription was refused *)
    destruct Hcase as (e & -> & Hdisc & Hflag). subst result. cbn. eexists.
    split_and!; [done..| | |].
    + unfold batteries. done.
    + intros _ _. split; [done|]. unfold client_is_connected. rewrite Hflag. cbn.
      apply torn_down_client_flag.
    + intros h Hh. exists services, battery_service. split_and!; [done..|].
      rewrite Hchars. unfold batteries in Hh. cbn in Hh.
      rewrite dom_empty_L in Hdom. set_solver.
  - (* every subscription was accepted *)
    subst w'. unfold_monad. cbn in Hrun.
    match type of Hrun with
    | context [read_battery_levels ble ?s1] =>
        pose proof (read_battery_levels_frame ble s1) as (Hm & Hcl' & Hcalls');
        pose proof (read_battery_levels_entries s1) as Hentries;
        destruct (read_battery_levels_returns ble s1) as (r0 & Hr0);
        pose proof (read_battery_levels_tasks s1) as Htasks;
        destruct (read_battery_levels ble s1) as [[r'|e] s2]
    end.
    2:{ cbn in Hr0. done. }
    cbn in Hm, Hcl', Hcalls', Htasks, Hentries.
    assert (Hflag : client_is_connected (world s2) (length (clients w)) = true).
    { unfold client_is_connected. rewrite Hcl'. apply new_client_flag. }
    assert (Hread : ∀ h, h ∈ dom (read_batteries r') → h ∈ (c0 :: characteristics).*1).
    { intros h Hh. apply elem_of_dom in Hh as [st Hst'].
      destruct (Hentries r' h st eq_refl Hst') as (_ & _ & d & ? & ? & Hin & _).
      apply list_elem_of_fmap. by exists (h, d). }
    assert (Hsub : ∀ h, h ∈ dom b → h ∈ (c0 :: characteristics).*1).
    { intros h Hh. rewrite dom_empty_L in Hdom. set_solver. }
    subst result. eexists.
    destruct (read_status r') eqn:Hst; cbn; rewrite ?Hm; cbn.
    all: split; [done|]; split; [done|]; split; [done|].
    all: split;
      [intros _; unfold is_connected; cbn; rewrite ?Hm; cbn; split_and!; [done..|eauto|done]|].
    all: split; [done|].
    all: split; [done|].
    all: intros h Hh; exists services, battery_service; split_and!; [done..|];
      rewrite Hchars; unfold batteries in Hh; cbn in Hh; rewrite ?Hm in Hh; auto.
  - (* the disconnect after a refused subscription raised *)
    subst result. cbn. eexists. split_and!; [done..| |done|].
    + unfold batteries. done.
    + intros h Hh. exists services, battery_service. split_and!; [done..|].
      rewrite Hchars. unfold batteries in Hh. cbn in Hh.
      rewrite dom_empty_L in Hdom. set_solver.
Qed.

End ConnectOutcomes.

(** X1. What a result of [connect] tells about the session.  When
    [connect] returns a result other than [CONNECTED], the monitor holds
    no client, no device and no characteristic, and [is_connected] is
    false.  When it returns [CONNECTED], the monitor holds the client
    object this attempt created, a device and at least one
    characteristic. *)
Theorem connect_result_tells_session (ble : Transport) (device_name device_id : string)
    (s : Sys) (r : ConnectResult) :
  (connect ble device_name device_id s).1 = Returned r →
  (connect_status r ≠ CONNECTED →
   _client (monitor (connect ble device_name device_id s).2) = None
   ∧ _device (monitor (connect ble device_name device_id s).2) = None
   ∧ _battery_characteristics (monitor (connect ble device_name device_id s).2) = []
   ∧ is_connected (connect ble device_name device_id s).2 = false)
  ∧ (connect_status r = CONNECTED →
     _client (monitor (connect ble device_name device_id s).2)
       = Some (length (clients (world s)))
     ∧ is_Some (_device (monitor (connect ble device_name device_id s).2))
     ∧ _battery_characteristics (monitor (connect ble device_name device_id s).2) ≠ []).
Proof.
  intros Hreturned.
  destruct (connect_result ble device_name device_id s)
    as (r' & Hr & _ & _ & Hyes & Hno & _).
  rewrite Hreturned in Hr. injection Hr as <-. split.
  - intros Hne. unfold is_connected. rewrite (Hno Hne). done.
  - intros Hc. by destruct (Hyes Hc) as (_ & ? & ? & ?).
Qed.

Lemma connect_result_tells_session_witness :
  (CONNECTED ≠ CONNECTED →
   _client (monitor (connect healthy "Corne" "C0:FF:EE:00:00:01" initial).2) = None
   ∧ _device (monitor (connect healthy "Corne" "C0:FF:EE:00:00:01" initial).2) = None
   ∧ _battery_characteristics
       (monitor (connect healthy "Corne" "C0:FF:EE:00:00:01" initial).2) = []
   ∧ is_connected (connect healthy "Corne" "C0:FF:EE:00:00:01" initial).2 = false)
  ∧ (CONNECTED = CONNECTED →
     _client (monitor (connect healthy "Corne" "C0:FF:EE:00:00:01" initial).2)
       = Some (length (clients (world initial)))
     ∧ is_Some (_device (monitor (connect healthy "Corne" "C0:FF:EE:00:00:01" initial).2))
     ∧ _battery_characteristics
         (monitor (connect healthy "Corne" "C0:FF:EE:00:00:01" initial).2) ≠ []).
Proof.
  apply (connect_result_tells_session healthy "Corne" "C0:FF:EE:00:00:01" initial
           (mkConnectResult CONNECTED "")).
  vm_compute. reflexivity.
Defined.

(** X2. When the scanner does not know the address, or the link does not
    come up although [client.connect()] returned, [connect] returns
    [DEVICE_NOT_FOUND] without a message and leaves the monitor empty:
    no channel, no client, no device, no characteristic; nothing is
    logged. *)
Theorem connect_device_not_found (ble : Transport) (device_name device_id : string)
    (s : Sys) :
  ble_find_device_by_address ble device_id = Returned None
  ∨ (∃ device, ble_find_device_by_address ble device_id = Returned (Some device)
               ∧ ble_connect ble device = Returned false) →
  (connect ble device_name device_id s).1 = Returned (mkConnectResult DEVICE_NOT_FOUND "")
  ∧ monitor (connect ble device_name device_id s).2 = mkMonitor ∅ None None []
  ∧ log (world (connect ble device_name device_id s).2) = log (world s).
Proof.
  intros Hcase.
  remember (connect ble device_name device_id s) as result eqn:Hrun.
  unfold connect, try_except in Hrun.
  unfold mbind at 1, M_bind at 1 in Hrun.
  destruct (disconnect_spec s) as (w & Hd & _ & Hlog & _). rewrite Hd in Hrun.
  unfold bind at 1, mbind at 1, M_bind at 1, await at 1 in Hrun.
  destruct Hcase as [Hfind|(device & Hfind & Hconn)]; rewrite Hfind in Hrun.
  - subst result. cbn. by rewrite Hlog.
  - unfold bind at 1, mbind at 1, M_bind at 1, BleakClient at 1 in Hrun.
    cbn [monitor world clients] in Hrun.
    unfold mbind at 1, M_bind at 1, client_connect, bind at 1, mbind at 1, M_bind at 1,
      await at 1 in Hrun.
    rewrite Hconn in Hrun.
    unfold set_flag at 1, modify_world at 1 in Hrun.
    cbn [monitor world clients tasks log calls] in Hrun.
    unfold bind at 1, mbind at 1, M_bind at 1, gets at 1, client_is_connected at 1 in Hrun.
    cbn [world clients] in Hrun. rewrite new_client_flag in Hrun. cbn [negb] in Hrun.
    subst result. cbn. by rewrite Hlog.
Qed.

Lemma connect_device_not_found_witness :
  ((connect nobody_home "Corne" "C0:FF:EE:00:00:01" connected_store).1
     = Returned (mkConnectResult DEVICE_NOT_FOUND "")
   ∧ monitor (connect nobody_home "Corne" "C0:FF:EE:00:00:01" connected_store).2
     = mkMonitor ∅ None None []
   ∧ log (world (connect nobody_home "Corne" "C0:FF:EE:00:00:01" connected_store).2)
     = log (world connected_store))
  ∧ ((connect link_stays_down "Corne" "C0:FF:EE:00:00:01" initial).1
       = Returned (mkConnectResult DEVICE_NOT_FOUND "")
     ∧ monitor (connect link_stays_down "Corne" "C0:FF:EE:00:00:01" initial).2
       = mkMonitor ∅ None None []
     ∧ log (world (connect link_stays_down "Corne" "C0:FF:EE:00:00:01" initial).2)
       = log (world initial)).
Proof.
  split.
  - apply (connect_device_not_found nobody_home). left. reflexivity.
  - apply (connect_device_not_found link_stays_down). right.
    exists keyboard. split; reflexivity.
Defined.

(** Symbolic execution of [connect], one stage at a time, in the
    equation [Hrun : result = connect ...]. *)
Ltac connect_enter Hrun :=
  unfold connect, try_except in Hrun;
  unfold mbind at 1, M_bind at 1 in Hrun.

Ltac connect_scan Hrun Hfind :=
  unfold bind at 1, mbind at 1, M_bind at 1, await at 1 in Hrun;
  rewrite Hfind in Hrun.

Ltac connect_link Hrun Hconn :=
  unfold bind at 1, mbind at 1, M_bind at 1, BleakClient at 1 in Hrun;
  cbn [monitor world clients] in Hrun;
  unfold mbind at 1, M_bind at 1, client_connect, bind at 1, mbind at 1, M_bind at 1,
    await at 1 in Hrun;
  rewrite Hconn in Hrun;
  try (unfold set_flag at 1, modify_world at 1 in Hrun;
       cbn [monitor world clients tasks log calls] in Hrun;
       unfold bind at 1, mbind at 1, M_bind at 1, gets at 1, client_is_connected at 1 in Hrun;
       cbn [world clients] in Hrun; rewrite new_client_flag in Hrun; cbn [negb] in Hrun).

Ltac connect_enumerate Hrun Hserv :=
  unfold bind at 1, mbind at 1, M_bind at 1, await at 1 in Hrun;
  rewrite Hserv in Hrun.

Lemma find_battery_service_none services :
  (∀ service, service ∈ services → lower (service_uuid service) ≠ BATTERY_SERVICE_UUID) →
  find_battery_service services = None.
Proof.
  induction services as [|service rest IH]; intros Hnone; [done|]. cbn.
  destruct (String.eqb_spec (lower (service_uuid service)) BATTERY_SERVICE_UUID) as [Heq|_].
  - destruct (Hnone service); [apply elem_of_cons; by left|done].
  - apply IH. intros sv Hsv. apply Hnone. apply elem_of_cons. by right.
Qed.

Lemma battery_level_characteristics_none cs :
  (∀ c, c ∈ cs → lower (char_uuid c) ≠ BATTERY_LEVEL_CHAR_UUID) →
  battery_level_characteristics cs = [].
Proof.
  induction cs as [|c rest IH]; intros Hnone; [done|]. cbn.
  destruct (String.eqb_spec (lower (char_uuid c)) BATTERY_LEVEL_CHAR_UUID) as [Heq|_].
  - destruct (Hnone c); [apply elem_of_cons; by left|done].
  - apply IH. intros c' Hc'. apply Hnone. apply elem_of_cons. by right.
Qed.

(** X3. The device is found and linked, and the transport can be
    disconnected.  If none of its services has the battery service UUID
    (compared in lower case), [connect] returns
    [BATTERY_SERVICE_NOT_FOUND]; if the first service that has it has no
    characteristic with the battery level UUID, [connect] returns
    [BATTERY_LEVEL_CHARACTERISTIC_NOT_FOUND].  Either way there is no
    message, the monitor is left empty and the client of the attempt has
    been disconnected. *)
Theorem connect_protocol_shape_failures (ble : Transport) (device_name device_id : string)
    (s : Sys) (device : BLEDevice) (services : list GATTService) :
  ble_find_device_by_address ble device_id = Returned (Some device) →
  ble_connect ble device = Returned true →
  ble_get_services ble = Returned services →
  ble_disconnect ble = Returned tt →
  ((∀ service, service ∈ services →
      lower (service_uuid service) ≠ BATTERY_SERVICE_UUID) →
   (connect ble device_name device_id s).1
     = Returned (mkConnectResult BATTERY_SERVICE_NOT_FOUND "")
   ∧ monitor (connect ble device_name device_id s).2 = mkMonitor ∅ None None []
   ∧ client_is_connected (world (connect ble device_name device_id s).2)
                         (length (clients (world s))) = false)
  ∧ (∀ battery_service,
       find_battery_service services = Some battery_service →
       (∀ c, c ∈ service_characteristics battery_service →
             lower (char_uuid c) ≠ BATTERY_LEVEL_CHAR_UUID) →
       (connect ble device_name device_id s).1
         = Returned (mkConnectResult BATTERY_LEVEL_CHARACTERISTIC_NOT_FOUND "")
       ∧ monitor (connect ble device_name device_id s).2 = mkMonitor ∅ None None []
       ∧ client_is_connected (world (connect ble device_name device_id s).2)
                             (length (clients (world s))) = false).
Proof.
  intros Hfind Hconn Hserv Hdisc.
  remember (connect ble device_name device_id s) as result eqn:Hrun.
  connect_enter Hrun.
  destruct (disconnect_spec s) as (w & Hd & Hcl & _). rewrite Hd in Hrun. rewrite <- Hcl.
  connect_scan Hrun Hfind. connect_link Hrun Hconn. connect_enumerate Hrun Hserv.
  split.
  - intros Hnone. rewrite (find_battery_service_none services Hnone) in Hrun.
    unfold client_disconnect in Hrun. unfold_monad. rewrite Hdisc in Hrun.
    subst result. cbn. split_and!; [done..|].
    unfold client_is_connected. cbn. apply torn_down_client_flag.
  - intros battery_service Hbs Hnone. rewrite Hbs in Hrun. cbn zeta in Hrun.
    rewrite (battery_level_characteristics_none _ Hnone) in Hrun.
    unfold client_disconnect in Hrun. unfold_monad. rewrite Hdisc in Hrun.
    subst result. cbn. split_and!; [done..|].
    unfold client_is_connected. cbn. apply torn_down_client_flag.
Qed.

Lemma connect_protocol_shape_failures_witness :
  ((connect no_battery_service "Corne" "C0:FF:EE:00:00:01" initial).1
     = Returned (mkConnectResult BATTERY_SERVICE_NOT_FOUND "")
   ∧ monitor (connect no_battery_service "Corne" "C0:FF:EE:00:00:01" initial).2
     = mkMonitor ∅ None None []
   ∧ client_is_connected (world (connect no_battery_service "Corne" "C0:FF:EE:00:00:01"
                                   initial).2) 0 = false)
  ∧ ((connect no_level_characteristic "Corne" "C0:FF:EE:00:00:01" initial).1
       = Returned (mkConnectResult BATTERY_LEVEL_CHARACTERISTIC_NOT_FOUND "")
     ∧ monitor (connect no_level_characteristic "Corne" "C0:FF:EE:00:00:01" initial).2
       = mkMonitor ∅ None None []
     ∧ client_is_connected (world (connect no_level_characteristic "Corne"
                                     "C0:FF:EE:00:00:01" initial).2) 0 = false).
Proof.
  split.
  - destruct (connect_protocol_shape_failures no_battery_service "Corne"
                "C0:FF:EE:00:00:01" initial keyboard
                [ mkService "00001800-0000-1000-8000-00805f9b34fb" [];
                  mkService "0000180a-0000-1000-8000-00805f9b34fb" [] ])
      as [Hnone _]; [reflexivity..|].
    apply Hnone. intros service Hin.
    repeat (apply elem_of_cons in Hin as [->|Hin]; [vm_compute; discriminate|]).
    by apply elem_of_nil in Hin.
  - destruct (connect_protocol_shape_failures no_level_characteristic "Corne"
                "C0:FF:EE:00:00:01" initial keyboard
                [ mkService "0000180f-0000-1000-8000-00805f9b34fb"
                    [ mkChar "00002a1a-0000-1000-8000-00805f9b34fb" 20 None ] ])
      as [_ Hnone]; [reflexivity..|].
    eapply Hnone; [reflexivity|]. intros c Hin. cbn in Hin.
    repeat (apply elem_of_cons in Hin as [->|Hin]; [vm_compute; discriminate|]).
    by apply elem_of_nil in Hin.
Defined.



(** X5. Whenever [connect] reports a missing battery service, a missing
    battery level characteristic or a refused subscription, the client
    of the attempt has been disconnected, and no session is active.
    When disconnecting raises, none of these three is ever reported: the
    result is [CONNECTED] or [DEVICE_NOT_FOUND] (the latter with the text
    of the exception of the failed disconnect). *)
Theorem connect_reported_stage_is_torn_down (ble : Transport)
    (device_name device_id : string) (s : Sys) :
  ∃ r,
    (connect ble device_name device_id s).1 = Returned r
    ∧ (connect_status r = BATTERY_SERVICE_NOT_FOUND
       ∨ connect_status r = BATTERY_LEVEL_CHARACTERISTIC_NOT_FOUND
       ∨ connect_status r = SUBSCRIPTION_FAILURE →
       ble_disconnect ble = Returned tt
       ∧ client_is_connected (world (connect ble device_name device_id s).2)
                             (length (clients (world s))) = false
       ∧ is_connected (connect ble device_name device_id s).2 = false)
    ∧ (∀ e, ble_disconnect ble = Raised e →
            connect_status r = CONNECTED ∨ connect_status r = DEVICE_NOT_FOUND).
Proof.
  destruct (connect_result ble device_name device_id s)
    as (r & Hr & _ & _ & _ & Hno & Hdown & _).
  exists r. split; [done|]. split.
  - intros Hst.
    assert (Hne : connect_status r ≠ CONNECTED ∧ connect_status r ≠ DEVICE_NOT_FOUND).
    { destruct Hst as [->|[->| ->]]; done. }
    destruct Hne as [Hne1 Hne2]. destruct (Hdown Hne1 Hne2) as [Hd Hflag].
    split_and!; [done..|]. unfold is_connected. by rewrite (Hno Hne1).
  - intros e He.
    destruct (connect_status r) eqn:Hst; [by left|by right|..];
      (destruct Hdown as [Hd _]; [done..|congruence]).
Qed.

Lemma connect_reported_stage_is_torn_down_witness :
  ∃ r,
    (connect second_subscription_fails "Corne" "C0:FF:EE:00:00:01" initial).1 = Returned r
    ∧ connect_status r = SUBSCRIPTION_FAILURE
    ∧ ble_disconnect second_subscription_fails = Returned tt
    ∧ client_is_connected
        (world (connect second_subscription_fails "Corne" "C0:FF:EE:00:00:01" initial).2)
        (length (clients (world initial))) = false
    ∧ is_connected (connect second_subscription_fails "Corne" "C0:FF:EE:00:00:01" initial).2
      = false.
Proof.
  destruct (connect_reported_stage_is_torn_down second_subscription_fails "Corne"
              "C0:FF:EE:00:00:01" initial) as (r & Hr & Hdown & _).
  exists r. split; [exact Hr|].
  assert (Hst : connect_status r = SUBSCRIPTION_FAILURE).
  { vm_compute in Hr. by injection Hr as <-. }
  split; [exact Hst|]. apply Hdown. right. right. exact Hst.
Defined.

Lemma disconnect_tasks (s : Sys) :
  tasks (world (disconnect true s).2)
  = tasks (world s)
    ++ match _client (monitor s) with
       | Some c => if client_is_connected (world s) c then [c] else []
       | None => []
       end.
Proof.
  unfold disconnect. unfold_monad. cbn.
  destruct (_client (monitor s)) as [c|]; cbn; [|by rewrite app_nil_r].
  destruct (client_is_connected (world s) c); cbn; [done|by rewrite app_nil_r].
Qed.

(** X6. A connect attempt replaces the session it finds.  Every channel
    in the map afterwards has the handle of a battery level
    characteristic of the service this attempt enumerated: no channel of
    an earlier session survives.  If a session was active, a task that
    disconnects its client has been created, and the monitor does not
    hold that client afterwards. *)
Theorem connect_replaces_session (ble : Transport) (device_name device_id : string)
    (s : Sys) :
  (∀ h, h ∈ dom (batteries (connect ble device_name device_id s).2) →
     ∃ services battery_service,
       ble_get_services ble = Returned services
       ∧ find_battery_service services = Some battery_service
       ∧ h ∈ (battery_level_characteristics
                (service_characteristics battery_service)).*1)
  ∧ (∀ c, _client (monitor s) = Some c → client_is_connected (world s) c = true →
       c ∈ tasks (world (connect ble device_name device_id s).2)
       ∧ _client (monitor (connect ble device_name device_id s).2) ≠ Some c).
Proof.
  destruct (connect_result ble device_name device_id s)
    as (r & Hr & Htasks & _ & Hyes & Hno & _ & Hkeys).
  split; [done|]. intros c Hc Hlive. split.
  - rewrite Htasks, disconnect_tasks, Hc, Hlive. set_solver.
  - destruct (connect_status r) eqn:Hst.
    + destruct (Hyes eq_refl) as (_ & -> & _). intros [= <-].
      unfold client_is_connected in Hlive.
      rewrite lookup_ge_None_2 in Hlive by lia. discriminate Hlive.
    + rewrite Hno by done. done.
    + rewrite Hno by done. done.
    + rewrite Hno by done. done.
    + rewrite Hno by done. done.
Qed.

Lemma connect_replaces_session_witness :
  0%nat ∈ tasks (world (connect no_battery_service "Corne" "C0:FF:EE:00:00:01"
                          connected_store).2)
  ∧ _client (monitor (connect no_battery_service "Corne" "C0:FF:EE:00:00:01"
                        connected_store).2) ≠ Some 0%nat.
Proof.
  destruct (connect_replaces_session no_battery_service "Corne" "C0:FF:EE:00:00:01"
              connected_store) as [_ Hold].
  apply Hold; reflexivity.
Defined.

(** X7. [disconnect] and the event loop.  Called where an event loop is
    running (as from [connect]), [disconnect] returns without waiting for
    the transport: it empties the monitor, leaves the flags of all
    clients as they are, and creates one task to disconnect the client
    exactly when a session was active; a second [disconnect] changes
    nothing at all.  Called where no event loop is running (as from the
    thread of the window), it empties the monitor as long as no session
    is active; with a live session [asyncio.create_task] raises: the map
    has been emptied by then, but the client, the device and the
    characteristics stay, no task is created, and the session is still
    live afterwards. *)
Theorem disconnect_and_the_event_loop (s : Sys) :
  ((disconnect true s).1 = Returned tt
   ∧ monitor (disconnect true s).2 = mkMonitor ∅ None None []
   ∧ clients (world (disconnect true s).2) = clients (world s)
   ∧ tasks (world (disconnect true s).2)
     = tasks (world s)
       ++ match _client (monitor s) with
          | Some c => if client_is_connected (world s) c then [c] else []
          | None => []
          end
   ∧ disconnect true (disconnect true s).2 = (Returned tt, (disconnect true s).2))
  ∧ (is_connected s = false →
     disconnect false s = (Returned tt, mkSys (mkMonitor ∅ None None []) (world s)))
  ∧ (is_connected s = true →
     (disconnect false s).1 = Raised "no running event loop"
     ∧ monitor (disconnect false s).2
       = mkMonitor ∅ (_client (monitor s)) (_device (monitor s))
                   (_battery_characteristics (monitor s))
     ∧ world (disconnect false s).2 = world s
     ∧ is_connected (disconnect false s).2 = true).
Proof.
  split; [|split].
  - pose proof (disconnect_tasks s) as Htasks.
    destruct (disconnect_spec s) as (w & Hd & Hcl & _). rewrite Hd in *. cbn in *.
    split_and!; [done..|]. by destruct w.
  - intros Hoff. by rewrite disconnect_outside_loop, Hoff.
  - intros Hlive. rewrite disconnect_outside_loop, Hlive. done.
Qed.

Lemma disconnect_and_the_event_loop_witness :
  disconnect false initial = (Returned tt, mkSys (mkMonitor ∅ None None []) (world initial))
  ∧ (disconnect false connected_store).1 = Raised "no running event loop"
  ∧ monitor (disconnect false connected_store).2
    = mkMonitor ∅ (_client (monitor connected_store)) (_device (monitor connected_store))
                (_battery_characteristics (monitor connected_store))
  ∧ world (disconnect false connected_store).2 = world connected_store
  ∧ is_connected (disconnect false connected_store).2 = true.
Proof.
  destruct (disconnect_and_the_event_loop initial) as (_ & Hidle & _).
  destruct (disconnect_and_the_event_loop connected_store) as (_ & _ & Hlive).
  split; [apply Hidle; reflexivity|apply Hlive; reflexivity].
Defined.

(** ** The bulk read, again *)

Section ReadAgain.

Variable ble : Transport.

(** The loop of the bulk read answers from the transport alone. *)
Lemma read_loop_result_independent chars acc s1 s2 :
  (read_loop ble chars acc s1).1 = (read_loop ble chars acc s2).1.
Proof.
  revert acc s1 s2. induction chars as [|[handle description] rest IH]; intros acc s1 s2.
  - done.
  - cbn [read_loop]. unfold_monad.
    destruct (ble_read_gatt_char ble (handle_uuid handle)) as [[|b value]|e]; cbn; [..|done].
    + apply IH.
    + apply IH.
Qed.

(** The result of a bulk read is determined by the monitor object, the
    flags of the clients and the answers of the transport. *)
Lemma read_battery_levels_depends s1 s2 :
  monitor s1 = monitor s2 → clients (world s1) = clients (world s2) →
  (read_battery_levels ble s1).1 = (read_battery_levels ble s2).1.
Proof.
  intros Hm Hc. destruct s1 as [mon w1], s2 as [mon2 w2]. cbn in Hm, Hc. subst mon2.
  unfold read_battery_levels. unfold_monad. cbn.
  assert (Hlive : is_connected (mkSys mon w1) = is_connected (mkSys mon w2)).
  { unfold is_connected, client_is_connected. cbn. by rewrite Hc. }
  rewrite Hlive. destruct (negb (is_connected _) || _); cbn; [done|].
  pose proof (read_loop_result_independent (_battery_characteristics mon) ∅
                (mkSys mon w1) (mkSys mon w2)) as Hl.
  destruct (read_loop ble _ ∅ (mkSys mon w1)) as [[m1|e1] s1'],
    (read_loop ble _ ∅ (mkSys mon w2)) as [[m2|e2] s2']; cbn in *; congruence.
Qed.

End ReadAgain.

(** X8. Reading twice in a row, with the same answers of the transport
    and nothing in between, gives the same outcome twice, and neither
    read changes the monitor. *)
Theorem read_battery_levels_twice (ble : Transport) (s : Sys) :
  (read_battery_levels ble (read_battery_levels ble s).2).1 = (read_battery_levels ble s).1
  ∧ monitor (read_battery_levels ble (read_battery_levels ble s).2).2 = monitor s.
Proof.
  destruct (read_battery_levels_frame ble s) as (Hm & Hc & _).
  destruct (read_battery_levels_frame ble (read_battery_levels ble s).2) as (Hm' & _).
  split; [by apply read_battery_levels_depends|]. by rewrite Hm'.
Qed.

(** X9. What a bulk read can return.  The status is [NOT_CONNECTED]
    exactly when no session is active; the map is empty unless the status
    is [SUCCESS]; and every entry of the map comes from a channel of the
    session whose read answered with data: its name is the description of
    that channel and its level the normalized first byte.  The read
    never invents a channel. *)
Theorem read_battery_levels_outcomes (ble : Transport) (s : Sys) :
  ∃ r,
    (read_battery_levels ble s).1 = Returned r
    ∧ (read_status r = NOT_CONNECTED ↔ is_connected s = false)
    ∧ (read_status r ≠ SUCCESS → read_batteries r = ∅)
    ∧ (∀ h status, read_batteries r !! h = Some status →
         ∃ d b value, (h, d) ∈ _battery_characteristics (monitor s)
           ∧ status = mkBatteryStatus d (level_of_byte b)
           ∧ ble_read_gatt_char ble (handle_uuid h) = Returned (b :: value)).
Proof.
  destruct (read_battery_levels_returns ble s) as (r & Hr). exists r.
  split; [done|]. split; [|split].
  - revert Hr. unfold read_battery_levels. unfold_monad. cbn.
    destruct (is_connected s) eqn:Hlive; cbn.
    2:{ intros [= <-]. done. }
    unfold is_connected in Hlive. destruct (_client (monitor s)); [|done]. cbn.
    destruct (read_loop ble _ ∅ s) as [[m|e] s']; cbn; intros [= <-]; done.
  - revert Hr. unfold read_battery_levels. unfold_monad. cbn.
    destruct (negb (is_connected s) || _); cbn; [by intros [= <-]|].
    destruct (read_loop ble _ ∅ s) as [[m|e] s']; cbn; intros [= <-]; done.
  - intros h status Hst.
    by destruct (read_battery_levels_entries ble s r h status Hr Hst) as (_ & _ & ?).
Qed.

(** ** The notification handler, again *)

(** X10. What the monitor does with a callback that raises.  The
    notification handler invokes the change callback exactly once for
    every notification with a payload, whether or not its sender is a
    handle of the session, after the channel has been written: the
    handler ends as the callback ends, returning or raising, and the
    monitor is the same in both cases.  It never touches the clients,
    the tasks or the log, and a notification without payload changes
    nothing at all.  In [list_paired_devices], when the scan and the
    device callbacks return and the completion callback raises, the
    exception is logged as a scan error, the completion callback is
    invoked a second time, and what this second call does is what
    [list_paired_devices] does: if it raises again, the exception leaves
    the function. *)
Theorem callback_exceptions (ble : Transport) (callbacks : Callbacks) (sender : N)
    (data : list byte) (s : Sys) :
  ((_battery_level_changed_handler callbacks sender data s).1
   = match data with
     | [] => Returned tt
     | _ :: _ => callbacks (calls (world s)) BatteryChanged
     end
   ∧ calls (world (_battery_level_changed_handler callbacks sender data s).2)
     = calls (world s) ++ match data with [] => [] | _ :: _ => [BatteryChanged] end
   ∧ monitor (_battery_level_changed_handler callbacks sender data s).2
     = monitor (_battery_level_changed_handler returning sender data s).2
   ∧ clients (world (_battery_level_changed_handler callbacks sender data s).2)
     = clients (world s)
   ∧ tasks (world (_battery_level_changed_handler callbacks sender data s).2)
     = tasks (world s)
   ∧ log (world (_battery_level_changed_handler callbacks sender data s).2) = log (world s)
   ∧ (data = [] → (_battery_level_changed_handler callbacks sender data s).2 = s))
  ∧ (∀ devices e,
       ble_discover ble = Returned devices →
       (∀ history c, c ∈ reported devices → callbacks history c = Returned tt) →
       callbacks (calls (world s) ++ reported devices) Completed = Raised e →
       (list_paired_devices ble callbacks s).1
       = callbacks (calls (world s) ++ reported devices ++ [Completed]) Completed
       ∧ calls (world (list_paired_devices ble callbacks s).2)
         = calls (world s) ++ reported devices ++ [Completed; Completed]
       ∧ log (world (list_paired_devices ble callbacks s).2)
         = log (world s) ++ ["Error discovering devices: " +:+ e]).
Proof.
  split.
  - pose proof (handler_run callbacks sender data s) as Hrun.
    pose proof (handler_run returning sender data s) as Hret.
    destruct data as [|b value].
    + rewrite Hrun, Hret. cbn. by rewrite app_nil_r.
    + destruct Hrun as (s1 & Hloop & ->). destruct Hret as (s1' & Hloop' & ->).
      rewrite Hloop in Hloop'. injection Hloop' as <-. done.
  - intros devices e Hscan Hdevices Hcompletion.
    destruct (made_until_raise_all callbacks (calls (world s)) (reported devices) Hdevices)
      as [Hmade Hnone].
    unfold list_paired_devices. unfold_monad. rewrite Hscan, report_devices_spec.
    rewrite Hnone, Hmade. cbn. rewrite Hcompletion. cbn.
    rewrite <- !app_assoc. done.
Qed.

Lemma callback_exceptions_witness :
  (list_paired_devices scan_two completion_callback_raises initial).1
  = completion_callback_raises
      (calls (world initial)
       ++ reported [ keyboard; mkDevice (Some "Lily58") "C0:FF:EE:00:00:02" ] ++ [Completed])
      Completed
  ∧ calls (world (list_paired_devices scan_two completion_callback_raises initial).2)
    = calls (world initial)
      ++ reported [ keyboard; mkDevice (Some "Lily58") "C0:FF:EE:00:00:02" ]
      ++ [Completed; Completed]
  ∧ log (world (list_paired_devices scan_two completion_callback_raises initial).2)
    = log (world initial)
      ++ ["Error discovering devices: " +:+ "main thread is not in main loop"].
Proof.
  destruct (callback_exceptions scan_two completion_callback_raises 16 [] initial)
    as [_ Hlist].
  apply (Hlist [ keyboard; mkDevice (Some "Lily58") "C0:FF:EE:00:00:02" ]).
  - reflexivity.
  - intros history c Hin. vm_compute in Hin.
    apply elem_of_cons in Hin as [->|Hin]; [reflexivity|].
    apply elem_of_cons in Hin as [->|Hin]; [reflexivity|].
    by apply elem_of_nil in Hin.
  - reflexivity.
Defined.

(** The loop of the handler stops at the first characteristic with the
    sender's handle. *)
Lemma handler_loop_first before sender d after lvl s :
  sender ∉ before.*1 →
  handler_loop (before ++ (sender, d) :: after) sender lvl s
  = setitem_batteries sender (mkBatteryStatus d lvl) s.
Proof.
  induction before as [|[h d'] before IH]; intros Hnin; cbn [handler_loop app].
  - by rewrite N.eqb_refl.
  - cbn in Hnin. apply not_elem_of_cons in Hnin as [Hne Hnin].
    destruct (N.eqb_spec h sender) as [->|_]; [done|]. by apply IH.
Qed.

(** X11. A notification with a payload from a handle of the session
    writes one entry: the channel of the sender gets the description of
    the first characteristic with that handle and the normalized first
    byte as level; the channel is created when the map does not have it.
    Nothing else in the monitor changes. *)
Theorem notification_writes_channel (callbacks : Callbacks) (sender : N) (b : byte)
    (value : list byte) (s : Sys) (before after : list (N * string)) (d : string) :
  _battery_characteristics (monitor s) = before ++ (sender, d) :: after →
  sender ∉ before.*1 →
  monitor (_battery_level_changed_handler callbacks sender (b :: value) s).2
  = mkMonitor (<[sender := mkBatteryStatus d (level_of_byte b)]> (_batteries (monitor s)))
              (_client (monitor s)) (_device (monitor s))
              (_battery_characteristics (monitor s)).
Proof.
  intros Hchars Hfirst.
  destruct (handler_run callbacks sender (b :: value) s) as (s1 & Hloop & ->). cbn.
  rewrite Hchars, handler_loop_first in Hloop by done.
  unfold setitem_batteries, modify_monitor in Hloop. injection Hloop as <-. cbn.
  by rewrite Hchars.
Qed.

(** The right half was dropped by the commit of a read without data; its
    next notification brings the channel back. *)
Lemma notification_writes_channel_witness :
  batteries (run right_half_silent returning connect_keyboard initial) !! 18%N = None
  ∧ monitor (_battery_level_changed_handler returning 18 [Byte.x2d]
               (run right_half_silent returning connect_keyboard initial)).2
    = mkMonitor (<[18%N := mkBatteryStatus "Right" 45]>
                   (_batteries
                      (monitor (run right_half_silent returning connect_keyboard initial))))
                (_client (monitor (run right_half_silent returning connect_keyboard initial)))
                (_device (monitor (run right_half_silent returning connect_keyboard initial)))
                (_battery_characteristics
                   (monitor (run right_half_silent returning connect_keyboard initial))).
Proof.
  split; [vm_compute; reflexivity|].
  apply (notification_writes_channel returning 18 Byte.x2d []
           (run right_half_silent returning connect_keyboard initial)
           [(16%N, "Left")] [] "Right").
  - vm_compute. reflexivity.
  - cbn. intros Hin. apply elem_of_cons in Hin as [Hin|Hin]; [discriminate Hin|].
    by apply elem_of_nil in Hin.
Defined.

(** ** The UUID derived from a handle *)

Lemma append_length (a c : string) :
  String.length (a +:+ c) = (String.length a + String.length c)%nat.
Proof.
  induction a as [|x a IH]; [done|].
  change (String x a +:+ c) with (String x (a +:+ c)). cbn [String.length].
  by rewrite IH.
Qed.

Lemma append_inj_r (a b c : string) : a +:+ c = b +:+ c → a = b.
Proof.
  revert b. induction a as [|x a IH]; intros [|y b] Heq.
  - done.
  - apply (f_equal String.length) in Heq.
    change (String y b +:+ c) with (String y (b +:+ c)) in Heq. cbn in Heq.
    rewrite !append_length in Heq. cbn in Heq. lia.
  - apply (f_equal String.length) in Heq.
    change (String x a +:+ c) with (String x (a +:+ c)) in Heq. cbn in Heq.
    rewrite !append_length in Heq. cbn in Heq. lia.
  - change (String x (a +:+ c) = String y (b +:+ c)) in Heq.
    injection Heq as -> Heq. f_equal. by apply IH.
Qed.

Lemma hex_inj (a b : N) : hex a = hex b → a = b.
Proof.
  assert (Hback : ∀ n, HexString.Raw.to_N (hex n) 0 = n).
  { intros [|p]; [done|]. cbn. by rewrite HexString.Raw.to_N_of_pos. }
  intros Heq. by rewrite <- (Hback a), <- (Hback b), Heq.
Qed.

(** X12. Different handles have different derived UUIDs: two channels
    are never read or subscribed under the same UUID. *)
Theorem handle_uuid_distinct (h1 h2 : N) : h1 ≠ h2 → handle_uuid h1 ≠ handle_uuid h2.
Proof.
  unfold handle_uuid. intros Hne Heq. apply Hne.
  apply (inj (String.app "0000")) in Heq.
  apply append_inj_r in Heq. by apply hex_inj.
Qed.

Lemma handle_uuid_distinct_witness : handle_uuid 16 ≠ handle_uuid 18.
Proof. apply (handle_uuid_distinct 16 18). lia. Defined.

(** ** Names of the channels *)

Lemma preserves_bind_post_state {A B} (P : Sys → Prop) (Q : A → Prop) (m : M A)
    (f : A → M B) :
  preserves P m → (∀ s a, P s → (m s).1 = Returned a → Q a) →
  (∀ a, Q a → preserves P (f a)) → preserves P (bind m f).
Proof.
  intros Hm HQ Hf s Hs. specialize (Hm s Hs). specialize (HQ s).
  unfold bind, mbind, M_bind.
  destruct (m s) as [[a|e] s']; cbn in *; [|done]. apply Hf; auto.
Qed.

Lemma or_else_nonempty (x : option string) (default : string) :
  default ≠ "" → or_else x default ≠ "".
Proof. intros Hd. by destruct x as [[|c rest]|]. Qed.

(** The names [connect] gives the characteristics are never empty: a
    missing or empty description becomes ["Main"]. *)
Lemma battery_level_characteristics_named cs :
  Forall (λ c, c.2 ≠ "") (battery_level_characteristics cs).
Proof.
  induction cs as [|c rest IH]; [by constructor|]. cbn.
  destruct (String.eqb _ _); [|done]. constructor; [|done].
  by apply or_else_nonempty.
Qed.

Section Names.

Variable ble : Transport.
Variable callbacks : Callbacks.

Lemma names_ok_modify_world f : preserves names_ok (modify_world f).
Proof. by intros s. Qed.

Lemma names_ok_modify_monitor f :
  (∀ mo, Forall (λ c, c.2 ≠ "") (_battery_characteristics mo) →
         map_Forall (λ _ status, name status ≠ "") (_batteries mo) →
         Forall (λ c, c.2 ≠ "") (_battery_characteristics (f mo))
         ∧ map_Forall (λ _ status, name status ≠ "") (_batteries (f mo))) →
  preserves names_ok (modify_monitor f).
Proof. intros Hf s [Hc Hb]. by apply Hf. Qed.

Lemma names_ok_setitem handle status :
  name status ≠ "" → preserves names_ok (setitem_batteries handle status).
Proof.
  intros Hn. apply names_ok_modify_monitor. intros mo Hc Hb. cbn. split; [done|].
  by apply map_Forall_insert_2.
Qed.

Ltac names_auto :=
  repeat match goal with
    | |- ∀ _, _ => intro
    | |- preserves _ (bind _ _) => apply preserves_bind
    | |- preserves _ (mbind _ _) => apply preserves_seq
    | |- preserves _ (try_except _ _) => apply preserves_try_except
    | |- preserves _ (ret _) => apply preserves_ret
    | |- preserves _ (await _) => apply preserves_await
    | |- preserves _ (raise _) => apply preserves_raise
    | |- preserves _ (gets _) => apply preserves_gets
    | |- preserves _ BleakClient => by intros ?
    | |- preserves _ (logger _) => apply names_ok_modify_world
    | |- preserves _ (modify_world _) => apply names_ok_modify_world
    | |- preserves _ (call _ _) => unfold call
    | |- preserves _ (set_flag _ _) => apply names_ok_modify_world
    | |- preserves _ (create_task_disconnect _ _) => unfold create_task_disconnect
    | |- preserves _ (if ?b then _ else _) => destruct b
    | |- preserves _ (set_client _) => by apply names_ok_modify_monitor
    | |- preserves _ (set_device _) => by apply names_ok_modify_monitor
    | |- preserves _ (set_battery_characteristics []) =>
        apply names_ok_modify_monitor; intros; split; [by constructor|done]
    | |- preserves _ (set_batteries ∅) =>
        apply names_ok_modify_monitor; intros; split; [done|apply map_Forall_empty]
    | |- preserves _ (match ?x with _ => _ end) => destruct x
    end.

Lemma names_ok_client_disconnect c : preserves names_ok (client_disconnect ble c).
Proof. unfold client_disconnect. names_auto. Qed.

Lemma names_ok_client_connect c d : preserves names_ok (client_connect ble c d).
Proof. unfold client_connect. names_auto. Qed.

Lemma names_ok_disconnect running_loop : preserves names_ok (disconnect running_loop).
Proof. unfold disconnect. names_auto. Qed.

Lemma names_ok_run_task : preserves names_ok (run_task ble).
Proof. unfold run_task. names_auto. apply names_ok_client_disconnect. Qed.

Lemma names_ok_link_lost c : preserves names_ok (link_lost c).
Proof. unfold link_lost. names_auto. Qed.

Lemma names_ok_read : preserves names_ok (read_battery_levels ble).
Proof.
  intros s Hs. unfold names_ok, batteries.
  by destruct (read_battery_levels_frame ble s) as (-> & _).
Qed.

Lemma names_ok_subscribe_loop client chars :
  Forall (λ c, c.2 ≠ "") chars →
  preserves names_ok (subscribe_loop ble client chars).
Proof.
  induction chars as [|[handle description] rest IH]; intros Hall; cbn [subscribe_loop].
  - apply preserves_ret.
  - apply Forall_cons in Hall as [Hd Hrest]. cbn in Hd.
    names_auto; first [apply names_ok_client_disconnect|by apply names_ok_setitem|by apply IH].
Qed.

Lemma names_ok_handler_loop chars sender lvl :
  Forall (λ c, c.2 ≠ "") chars →
  preserves names_ok (handler_loop chars sender lvl).
Proof.
  induction chars as [|[handle description] rest IH]; intros Hall; cbn [handler_loop].
  - apply preserves_ret.
  - apply Forall_cons in Hall as [Hd Hrest]. cbn in Hd.
    destruct (N.eqb handle sender); [by apply names_ok_setitem|by apply IH].
Qed.

Lemma names_ok_handler sender data :
  preserves names_ok (_battery_level_changed_handler callbacks sender data).
Proof.
  unfold _battery_level_changed_handler, _battery_changed_callback.
  destruct data as [|b value]; [apply preserves_ret|].
  apply (preserves_bind_post_state _ (Forall (λ c, c.2 ≠ ""))).
  - apply preserves_gets.
  - intros s chars [Hc _] [= <-]. done.
  - intros chars Hchars. apply preserves_seq; [by apply names_ok_handler_loop|].
    names_auto.
Qed.

Lemma names_ok_connect device_name device_id :
  preserves names_ok (connect ble device_name device_id).
Proof.
  unfold connect. apply preserves_try_except.
  - apply preserves_seq; [apply names_ok_disconnect|].
    apply preserves_bind; [apply preserves_await|]. intros [device|]; [|apply preserves_ret].
    apply preserves_bind; [by intros ?|]. intros client.
    apply preserves_seq; [apply names_ok_client_connect|].
    apply preserves_bind; [apply preserves_gets|]. intros [|]; cbn [negb]; [|apply preserves_ret].
    apply preserves_bind; [apply preserves_await|]. intros services.
    destruct (find_battery_service services) as [battery_service|].
    2:{ apply preserves_seq; [apply names_ok_client_disconnect|apply preserves_ret]. }
    cbn zeta.
    pose proof (battery_level_characteristics_named (service_characteristics battery_service))
      as Hnamed.
    destruct (battery_level_characteristics _) as [|c characteristics].
    { apply preserves_seq; [apply names_ok_client_disconnect|apply preserves_ret]. }
    apply preserves_bind; [by apply names_ok_subscribe_loop|]. intros [r|]; [apply preserves_ret|].
    do 2 (apply preserves_seq; [by apply names_ok_modify_monitor|]).
    apply preserves_seq; [apply names_ok_modify_monitor; by intros|].
    apply (preserves_bind_post_state _
             (λ r, map_Forall (λ _ status, name status ≠ "") (read_batteries r)));
      [apply names_ok_read| |].
    + intros s r [Hc _] Hr h status Hst.
      destruct (read_battery_levels_entries ble s r h status Hr Hst)
        as (_ & _ & d & b & v & Hin & -> & _).
      cbn. rewrite Forall_forall in Hc. by apply (Hc (h, d)).
    + intros r Hr. apply preserves_seq; [|apply preserves_ret].
      destruct (read_status r); [|apply preserves_ret..].
      apply names_ok_modify_monitor. by intros.
  - names_auto; apply names_ok_client_disconnect.
Qed.

Lemma names_ok_run op s : names_ok s → names_ok (run ble callbacks op s).
Proof.
  intros Hs. destruct op; cbn.
  - by apply names_ok_connect.
  - by apply names_ok_disconnect.
  - by apply names_ok_read.
  - by apply names_ok_handler.
  - by apply names_ok_run_task.
  - by apply names_ok_link_lost.
Qed.

End Names.

(** X13. Every channel has a name: in every store the monitor can reach
    (whatever the callbacks do, whenever pending tasks run and links
    drop), no channel of the map and no characteristic of the session has
    an empty name (a characteristic without description is called
    ["Main"]), and so has every entry of the map a bulk read returns. *)
Theorem channels_are_named (s : Sys) :
  reachable s →
  map_Forall (λ _ status, name status ≠ "") (batteries s)
  ∧ Forall (λ c, c.2 ≠ "") (_battery_characteristics (monitor s))
  ∧ ∀ ble r, (read_battery_levels ble s).1 = Returned r →
             map_Forall (λ _ status, name status ≠ "") (read_batteries r).
Proof.
  intros Hs.
  assert (Hok : names_ok s).
  { induction Hs as [|ble callbacks op s _ IH].
    - split; [by constructor|apply map_Forall_empty].
    - by apply names_ok_run. }
  destruct Hok as [Hc Hb]. split_and!; [done..|].
  intros ble r Hr h status Hst.
  destruct (read_battery_levels_entries ble s r h status Hr Hst)
    as (_ & _ & d & b & v & Hin & -> & _).
  cbn. rewrite Forall_forall in Hc. by apply (Hc (h, d)).
Qed.

Lemma channels_are_named_witness :
  map_Forall (λ _ status, name status ≠ "")
             (batteries (run silent_battery returning connect_keyboard initial))
  ∧ Forall (λ c, c.2 ≠ "")
           (_battery_characteristics (monitor (run silent_battery returning connect_keyboard initial)))
  ∧ ∀ ble r,
      (read_battery_levels ble (run silent_battery returning connect_keyboard initial)).1 = Returned r →
      map_Forall (λ _ status, name status ≠ "") (read_batteries r).
Proof.
  apply (channels_are_named (run silent_battery returning connect_keyboard initial)).
  apply reachable_run, reachable_initial.
Defined.

(** * Further properties of the reconnect timer *)

(** While a tick is scheduled and the counter is above [k], [k] ticks
    only count down. *)
Lemma countdown (a : BatteryTrayApp) (k : nat) :
  _reconnect_timer_running a = true → timers a = 1%nat →
  Z.of_nat k < _reconnect_counter a →
  Nat.iter k fire_timer a
  = mkApp (_root a) (_reconnect_counter a - Z.of_nat k) true 1 (attempts a).
Proof.
  intros Hrun Htimers. induction k as [|k IH]; intros Hk.
  - cbn. rewrite Z.sub_0_r. destruct a. cbn in *. by subst.
  - rewrite Nat.iter_succ, IH by lia.
    unfold fire_timer, timer_tick. cbn.
    destruct (Z.leb_spec (_reconnect_counter a - Z.of_nat k - 1) 0) as [Hle|_]; [lia|].
    unfold schedule_tick. cbn. f_equal. lia.
Qed.

(** The tick that brings the counter to zero issues the connect attempt
    and schedules nothing. *)
Lemma countdown_ends (a : BatteryTrayApp) (k : nat) :
  _reconnect_timer_running a = true → timers a = 1%nat →
  Z.of_nat k = _reconnect_counter a → (0 < k)%nat →
  Nat.iter k fire_timer a = mkApp (_root a) 0 true 0 (S (attempts a)).
Proof.
  intros Hrun Htimers Hk Hpos. destruct k as [|k]; [lia|].
  rewrite Nat.iter_succ, countdown by (assumption || lia).
  unfold fire_timer, timer_tick. cbn.
  destruct (Z.leb_spec (_reconnect_counter a - Z.of_nat k - 1) 0) as [_|Hgt]; [|lia].
  f_equal. lia.
Qed.

(** X14. From a timer that is not running, [_start_reconnect_timer]
    begins a countdown of exactly [RECONNECT_INTERVAL] ticks: during the
    first 299 ticks the counter only goes down and no connect attempt is
    made; the 300th tick issues one attempt and schedules no further
    tick.  This holds with and without a window. *)
Theorem first_attempt_after_full_interval (a : BatteryTrayApp) (k : nat) :
  _reconnect_timer_running a = false → timers a = 0%nat →
  ((k < 300)%nat →
   Nat.iter k fire_timer (_start_reconnect_timer a)
   = mkApp (_root a) (300 - Z.of_nat k) true 1 (attempts a))
  ∧ Nat.iter 300 fire_timer (_start_reconnect_timer a)
    = mkApp (_root a) 0 true 0 (S (attempts a)).
Proof.
  intros Hoff Htimers. unfold _start_reconnect_timer. rewrite Hoff.
  unfold schedule_tick. cbn [_root _reconnect_counter _reconnect_timer_running timers attempts].
  rewrite Htimers. split.
  - intros Hk. rewrite countdown; [done..|]. cbn. unfold RECONNECT_INTERVAL. lia.
  - rewrite countdown_ends; [done|done|done|reflexivity|lia].
Qed.

Lemma first_attempt_after_full_interval_witness :
  Nat.iter 299 fire_timer (_start_reconnect_timer (app_init false))
  = mkApp false 1 true 1 0
  ∧ Nat.iter 300 fire_timer (_start_reconnect_timer (app_init false))
    = mkApp false 0 true 0 1.
Proof.
  destruct (first_attempt_after_full_interval (app_init false) 299) as [Hbefore Hat];
    [reflexivity..|].
  split; [apply Hbefore; lia|exact Hat].
Defined.

(** The invariant of the timer. *)
Lemma timer_invariant (a : BatteryTrayApp) :
  timer_reachable a →
  (timers a + attempts a ≤ 1)%nat
  ∧ 0 ≤ _reconnect_counter a ≤ RECONNECT_INTERVAL
  ∧ (timers a = 1%nat → 1 ≤ _reconnect_counter a)
  ∧ (_reconnect_timer_running a = false → timers a = 0%nat ∧ attempts a = 0%nat).
Proof.
  unfold RECONNECT_INTERVAL.
  induction 1 as [|a _ IH|a _ IH|fut a _ IH Hatt|a _ IH].
  - cbn. unfold RECONNECT_INTERVAL. repeat split; first [done|lia].
  - destruct IH as (Hone & Hc & Hpos & Hoff).
    unfold _start_reconnect_timer.
    destruct (_reconnect_timer_running a) eqn:Hrun.
    { rewrite Hrun. repeat split; first [done|lia|by apply Hpos]. }
    destruct (Hoff eq_refl) as [Ht Ha]. cbn. unfold RECONNECT_INTERVAL.
    rewrite Ht, Ha. repeat split; first [done|lia].
  - destruct IH as (Hone & Hc & Hpos & Hoff).
    unfold fire_timer. destruct (timers a) as [|n] eqn:Ht.
    { rewrite Ht. repeat split; first [lia|by apply Hoff|done]. }
    assert (n = 0%nat ∧ attempts a = 0%nat) as [-> Ha] by lia.
    specialize (Hpos eq_refl).
    unfold timer_tick. cbn.
    destruct (_reconnect_timer_running a) eqn:Hrun; cbn.
    2:{ destruct (Hoff eq_refl) as [? _]. lia. }
    destruct (Z.leb_spec (_reconnect_counter a - 1) 0); cbn; rewrite ?Hrun, Ha;
      repeat split; first [lia|done].
  - destruct IH as (Hone & Hc & Hpos & Hoff).
    assert (timers a = 0%nat ∧ attempts a = 1%nat) as [Ht Ha] by lia.
    assert (Hrun : _reconnect_timer_running a = true).
    { destruct (_reconnect_timer_running a); [done|]. destruct (Hoff eq_refl). lia. }
    unfold on_connect_done. cbn. rewrite Ht, Ha, Hrun.
    destruct fut as [r|e]; [destruct (connect_status r)|]; destruct (_root a); cbn;
      repeat split; first [lia|done].
  - destruct IH as (Hone & Hc & Hpos & Hoff). cbn.
    repeat split; first [lia|by apply Hpos|by apply Hoff].
Qed.

Lemma iter_fire_reachable (k : nat) (a : BatteryTrayApp) :
  timer_reachable a → timer_reachable (Nat.iter k fire_timer a).
Proof.
  intros Ha. induction k as [|k IH]; [done|]. rewrite Nat.iter_succ. by apply timer_fired.
Qed.

(** X15. With a window, a connect attempt of the timer that does not
    end in [CONNECTED] (or whose future raises) is retried after exactly
    one full interval again, however often it failed before: the counter
    is back at 300, the next 299 ticks make no attempt and the 300th
    makes one.  There is no backoff and no limit. *)
Theorem retry_after_full_interval (a : BatteryTrayApp) (fut : outcome ConnectResult)
    (k : nat) :
  timer_reachable a → (0 < attempts a)%nat → _root a = true →
  (∀ r, fut = Returned r → connect_status r ≠ CONNECTED) →
  ((k < 300)%nat →
   Nat.iter k fire_timer (on_connect_done fut a)
   = mkApp true (300 - Z.of_nat k) true 1 0)
  ∧ Nat.iter 300 fire_timer (on_connect_done fut a) = mkApp true 0 true 0 1.
Proof.
  intros Ha Hpending Hroot Hfail.
  destruct (timer_invariant a Ha) as (Hone & _ & _ & Hoff).
  assert (timers a = 0%nat ∧ attempts a = 1%nat) as [Htimers Hatt] by lia.
  assert (Hrun : _reconnect_timer_running a = true).
  { destruct (_reconnect_timer_running a); [done|]. destruct (Hoff eq_refl). lia. }
  assert (Hdone : on_connect_done fut a = mkApp true 300 true 1 0).
  { unfold on_connect_done. cbn. rewrite Hroot, Hrun, Htimers, Hatt.
    destruct fut as [r|e]; [|done].
    specialize (Hfail r eq_refl). by destruct (connect_status r). }
  rewrite Hdone. split.
  - intros Hk. rewrite countdown; [done..|]. cbn. lia.
  - rewrite countdown_ends; [done|done|done|reflexivity|lia].
Qed.

Lemma retry_after_full_interval_witness :
  Nat.iter 10 fire_timer
    (on_connect_done (Returned (mkConnectResult BATTERY_SERVICE_NOT_FOUND ""))
       (Nat.iter 300 fire_timer
          (_start_reconnect_timer (_show_main_window (app_init false)))))
  = mkApp true 290 true 1 0
  ∧ Nat.iter 300 fire_timer
      (on_connect_done (Returned (mkConnectResult BATTERY_SERVICE_NOT_FOUND ""))
         (Nat.iter 300 fire_timer
            (_start_reconnect_timer (_show_main_window (app_init false)))))
    = mkApp true 0 true 0 1.
Proof.
  destruct (retry_after_full_interval
              (Nat.iter 300 fire_timer
                 (_start_reconnect_timer (_show_main_window (app_init false))))
              (Returned (mkConnectResult BATTERY_SERVICE_NOT_FOUND "")) 10)
    as [Hbefore Hat].
  - apply iter_fire_reachable, timer_started, timer_shown, timer_created.
  - vm_compute. lia.
  - reflexivity.
  - intros r [= <-]. discriminate.
  - split; [apply Hbefore; lia|exact Hat].
Defined.

(** X16. In every state the timer reaches, at most one thing is pending:
    never two connect attempts at once, never a scheduled tick while an
    attempt is in flight, never two scheduled ticks.  The counter stays
    within 0 and 300, and a timer that is not running has nothing
    pending. *)
Theorem timer_never_overlaps (a : BatteryTrayApp) :
  timer_reachable a →
  (timers a + attempts a ≤ 1)%nat
  ∧ 0 ≤ _reconnect_counter a ≤ 300
  ∧ (_reconnect_timer_running a = false → scheduler_live a = false).
Proof.
  intros Ha. destruct (timer_invariant a Ha) as (Hone & Hc & _ & Hoff).
  unfold RECONNECT_INTERVAL in Hc.
  split; [done|]. split; [done|]. intros Hrun. destruct (Hoff Hrun) as [Ht Hat].
  unfold scheduler_live. by rewrite Ht, Hat.
Qed.

Lemma timer_never_overlaps_witness :
  (timers (Nat.iter 300 fire_timer (_start_reconnect_timer (app_init false)))
   + attempts (Nat.iter 300 fire_timer (_start_reconnect_timer (app_init false))) ≤ 1)%nat
  ∧ 0 ≤ _reconnect_counter
          (Nat.iter 300 fire_timer (_start_reconnect_timer (app_init false))) ≤ 300
  ∧ (_reconnect_timer_running
       (Nat.iter 300 fire_timer (_start_reconnect_timer (app_init false))) = false →
     scheduler_live (Nat.iter 300 fire_timer (_start_reconnect_timer (app_init false)))
     = false).
Proof.
  apply (timer_never_overlaps
           (Nat.iter 300 fire_timer (_start_reconnect_timer (app_init false)))).
  apply iter_fire_reachable, timer_started, timer_created.
Defined.

(** X17. Once a connect attempt of the timer returns [CONNECTED], the
    timer is off for good: nothing is pending, a stray tick does nothing,
    and only [_start_reconnect_timer] brings it back, with a full
    interval and one tick; starting a timer that runs changes
    nothing. *)
Theorem connected_stops_until_restart (a : BatteryTrayApp) (r : ConnectResult) :
  timer_reachable a → (0 < attempts a)%nat → connect_status r = CONNECTED →
  let stopped := on_connect_done (Returned r) a in
  _reconnect_timer_running stopped = false
  ∧ scheduler_live stopped = false
  ∧ timer_tick stopped = stopped
  ∧ fire_timer stopped = stopped
  ∧ _start_reconnect_timer stopped = mkApp (_root a) 300 true 1 0
  ∧ _start_reconnect_timer (_start_reconnect_timer stopped) = _start_reconnect_timer stopped.
Proof.
  intros Ha Hatt Hr. destruct (timer_invariant a Ha) as (Hone & _ & _ & _).
  assert (timers a = 0%nat ∧ attempts a = 1%nat) as [Ht Hat] by lia.
  cbn zeta. unfold on_connect_done. rewrite Hr. cbn. rewrite Ht, Hat. done.
Qed.

Lemma connected_stops_until_restart_witness :
  let a := Nat.iter 300 fire_timer (_start_reconnect_timer (app_init false)) in
  let stopped := on_connect_done (Returned (mkConnectResult CONNECTED "")) a in
  _reconnect_timer_running stopped = false
  ∧ scheduler_live stopped = false
  ∧ timer_tick stopped = stopped
  ∧ fire_timer stopped = stopped
  ∧ _start_reconnect_timer stopped = mkApp (_root a) 300 true 1 0
  ∧ _start_reconnect_timer (_start_reconnect_timer stopped) = _start_reconnect_timer stopped.
Proof.
  apply (connected_stops_until_restart
           (Nat.iter 300 fire_timer (_start_reconnect_timer (app_init false)))
           (mkConnectResult CONNECTED "")).
  - apply iter_fire_reachable, timer_started, timer_created.
  - vm_compute. lia.
  - reflexivity.
Defined.

(** * The tray application: command line, launch and icon *)

(** ** Stripping quotes *)

Lemma lstrip_quotes_first s : first_char (lstrip_quotes s) ≠ Some double_quote.
Proof.
  induction s as [|c rest IH]; [done|]. cbn.
  destruct (Ascii.eqb_spec c double_quote) as [->|Hne]; [done|]. cbn. congruence.
Qed.

Lemma lstrip_quotes_id s : first_char s ≠ Some double_quote → lstrip_quotes s = s.
Proof.
  destruct s as [|c rest]; [done|]. cbn.
  destruct (Ascii.eqb_spec c double_quote) as [->|Hne]; [done|done].
Qed.

Lemma rstrip_quotes_last s : last_char (rstrip_quotes s) ≠ Some double_quote.
Proof.
  induction s as [|c rest IH]; [done|]. cbn.
  destruct (rstrip_quotes rest) as [|c' rest'] eqn:Hr.
  - destruct (Ascii.eqb_spec c double_quote) as [->|Hne]; [done|]. cbn. congruence.
  - done.
Qed.

Lemma rstrip_quotes_id s : last_char s ≠ Some double_quote → rstrip_quotes s = s.
Proof.
  induction s as [|c rest IH]; [done|]. intros Hlast. cbn.
  destruct rest as [|c' rest'].
  - cbn in *. destruct (Ascii.eqb_spec c double_quote) as [->|Hne]; [done|done].
  - rewrite IH by done. done.
Qed.

Lemma rstrip_quotes_first s :
  rstrip_quotes s = "" ∨ first_char (rstrip_quotes s) = first_char s.
Proof.
  destruct s as [|c rest]; [by left|]. cbn.
  destruct (rstrip_quotes rest); [|by right].
  destruct (Ascii.eqb c double_quote); [by left|by right].
Qed.

Lemma rstrip_quotes_snoc s : rstrip_quotes (s +:+ String double_quote "") = rstrip_quotes s.
Proof.
  induction s as [|c rest IH]; [done|].
  change (String c rest +:+ String double_quote "")
    with (String c (rest +:+ String double_quote "")).
  cbn [rstrip_quotes]. by rewrite IH.
Qed.

Lemma lstrip_quotes_snoc s :
  lstrip_quotes (s +:+ String double_quote "")
  = match lstrip_quotes s with
    | "" => ""
    | stripped => stripped +:+ String double_quote ""
    end.
Proof.
  induction s as [|c rest IH]; [done|].
  change (String c rest +:+ String double_quote "")
    with (String c (rest +:+ String double_quote "")).
  cbn [lstrip_quotes]. destruct (Ascii.eqb c double_quote); [done|done].
Qed.

Lemma strip_quotes_quoted s : strip_quotes (quoted s) = strip_quotes s.
Proof.
  unfold strip_quotes, quoted. cbn [lstrip_quotes]. rewrite Ascii.eqb_refl.
  rewrite lstrip_quotes_snoc. destruct (lstrip_quotes s) as [|c rest] eqn:Hl; [done|].
  apply rstrip_quotes_snoc.
Qed.

Lemma strip_quotes_id s :
  first_char s ≠ Some double_quote → last_char s ≠ Some double_quote → strip_quotes s = s.
Proof.
  intros Hf Hl. unfold strip_quotes. rewrite lstrip_quotes_id by done.
  by apply rstrip_quotes_id.
Qed.

(** X18. What [strip] leaves when it strips double quotes: a string that
    neither begins nor ends with a double quote, which stripping again
    does not change.  A string without a quote at either end is kept as
    it is, and quotes put around a string are taken off again: the
    quoted form of a name and the name itself are read alike. *)
Theorem strip_quotes_spec (s : string) :
  first_char (strip_quotes s) ≠ Some double_quote
  ∧ last_char (strip_quotes s) ≠ Some double_quote
  ∧ strip_quotes (strip_quotes s) = strip_quotes s
  ∧ strip_quotes (quoted s) = strip_quotes s
  ∧ (first_char s ≠ Some double_quote → last_char s ≠ Some double_quote →
     strip_quotes s = s ∧ strip_quotes (quoted s) = s).
Proof.
  assert (Hfirst : first_char (strip_quotes s) ≠ Some double_quote).
  { unfold strip_quotes. destruct (rstrip_quotes_first (lstrip_quotes s)) as [->| ->];
      [done|apply lstrip_quotes_first]. }
  assert (Hlast : last_char (strip_quotes s) ≠ Some double_quote)
    by apply rstrip_quotes_last.
  split_and!; [done|done| |apply strip_quotes_quoted|].
  - by apply strip_quotes_id.
  - intros Hf Hl. by rewrite strip_quotes_quoted, strip_quotes_id.
Qed.

Lemma strip_quotes_spec_witness :
  strip_quotes "Corne" = "Corne" ∧ strip_quotes (quoted "Corne") = "Corne".
Proof.
  destruct (strip_quotes_spec "Corne") as (_ & _ & _ & _ & Hid).
  apply Hid; vm_compute; discriminate.
Defined.

(** ** The command line *)

(** X19. A command line that names the device and its address, in the
    form the application registers for the start-up, is read back: with
    [--device-name n --device-id i] after the program name, in this or
    in the other order, the application starts with device name [n] and
    address [i], each stripped of surrounding double quotes.  The value
    after the first flag must not itself be one of the two flags. *)
Theorem command_line_names_the_device (program n i : string) (t : TrayApp) :
  n ≠ STARTUP_ARG_DEVICE_NAME → n ≠ STARTUP_ARG_DEVICE_ID →
  i ≠ STARTUP_ARG_DEVICE_NAME → i ≠ STARTUP_ARG_DEVICE_ID →
  _process_command_line
    [program; STARTUP_ARG_DEVICE_NAME; n; STARTUP_ARG_DEVICE_ID; i] t
  = mkTray (timer_state t) (strip_quotes n) (strip_quotes i) (_last_min_level t)
  ∧ _process_command_line
      [program; STARTUP_ARG_DEVICE_ID; i; STARTUP_ARG_DEVICE_NAME; n] t
    = mkTray (timer_state t) (strip_quotes n) (strip_quotes i) (_last_min_level t).
Proof.
  intros Hn1 Hn2 Hi1 Hi2. unfold _process_command_line. cbn [tail process_arguments].
  apply String.eqb_neq in Hn1, Hn2, Hi1, Hi2.
  rewrite Hn1, Hn2, Hi1, Hi2.
  change (STARTUP_ARG_DEVICE_NAME =? STARTUP_ARG_DEVICE_ID)%string with false.
  change (STARTUP_ARG_DEVICE_ID =? STARTUP_ARG_DEVICE_ID)%string with true.
  change (STARTUP_ARG_DEVICE_NAME =? STARTUP_ARG_DEVICE_NAME)%string with true.
  done.
Qed.

Lemma command_line_names_the_device_witness :
  _process_command_line
    ["zmk.exe"; STARTUP_ARG_DEVICE_NAME; quoted "Corne"; STARTUP_ARG_DEVICE_ID;
     quoted "C0:FF:EE:00:00:01"] (mkTray (app_init false) "" "" (-1))
  = mkTray (app_init false) (strip_quotes (quoted "Corne"))
           (strip_quotes (quoted "C0:FF:EE:00:00:01")) (-1)
  ∧ _process_command_line
      ["zmk.exe"; STARTUP_ARG_DEVICE_ID; quoted "C0:FF:EE:00:00:01";
       STARTUP_ARG_DEVICE_NAME; quoted "Corne"] (mkTray (app_init false) "" "" (-1))
    = mkTray (app_init false) (strip_quotes (quoted "Corne"))
             (strip_quotes (quoted "C0:FF:EE:00:00:01")) (-1).
Proof.
  apply (command_line_names_the_device "zmk.exe" (quoted "Corne")
           (quoted "C0:FF:EE:00:00:01")); vm_compute; discriminate.
Defined.

(** A flag in the last position has no value and is skipped, and
    arguments that are not flags are skipped. *)
Lemma process_arguments_no_flags args device_name device_id :
  (∀ arg, arg ∈ removelast args →
          arg ≠ STARTUP_ARG_DEVICE_NAME ∧ arg ≠ STARTUP_ARG_DEVICE_ID) →
  process_arguments args device_name device_id = (device_name, device_id).
Proof.
  induction args as [|arg rest IH]; intros Hnone; [done|].
  cbn [process_arguments]. destruct rest as [|next rest']; [done|].
  destruct (Hnone arg) as [H1 H2]; [cbn; apply elem_of_cons; by left|].
  apply String.eqb_neq in H1, H2. rewrite H1, H2. apply IH.
  intros a Ha. apply Hnone. cbn. apply elem_of_cons. right. exact Ha.
Qed.

(** X20. What a launch does.  The reconnect timer is started exactly
    when the command line gave both a device name and an address that
    are not empty; it is then started without a window, with a full
    interval, and the first icon update may notify of a low battery
    ([_last_min_level] is 100).  In every other case the window is shown
    and the timer does not run.  In particular a command line on which no
    flag is followed by a value shows the window. *)
Theorem launch_starts_timer_or_window (argv : list string) :
  let t := tray_run (tray_init argv) in
  (truthy (_device_name (tray_init argv)) && truthy (_device_id (tray_init argv)) = true →
   timer_state t = mkApp false 300 true 1 0 ∧ _last_min_level t = 100)
  ∧ (truthy (_device_name (tray_init argv)) && truthy (_device_id (tray_init argv)) = false →
     timer_state t = mkApp true 300 false 0 0 ∧ _last_min_level t = -1)
  ∧ ((∀ arg, arg ∈ removelast (tail argv) →
        arg ≠ STARTUP_ARG_DEVICE_NAME ∧ arg ≠ STARTUP_ARG_DEVICE_ID) →
     timer_state t = mkApp true 300 false 0 0).
Proof.
  cbn zeta.
  assert (Hinit : timer_state (tray_init argv) = app_init false
                  ∧ _last_min_level (tray_init argv) = -1).
  { unfold tray_init, _process_command_line.
    by destruct (process_arguments (tail argv) _ _). }
  destruct Hinit as [Htimer Hlast].
  split; [|split].
  - intros Hboth. unfold tray_run. rewrite Hboth, Htimer. done.
  - intros Hnot. unfold tray_run. rewrite Hnot, Htimer, Hlast. done.
  - intros Hnone. unfold tray_run, tray_init, _process_command_line.
    cbn [_device_name _device_id]. rewrite process_arguments_no_flags by done. done.
Qed.

Lemma launch_starts_timer_or_window_witness :
  (timer_state (tray_run (tray_init ["zmk.exe"; "--device-name"; "Corne";
                                     "--device-id"; "C0:FF:EE:00:00:01"]))
     = mkApp false 300 true 1 0
   ∧ _last_min_level (tray_run (tray_init ["zmk.exe"; "--device-name"; "Corne";
                                           "--device-id"; "C0:FF:EE:00:00:01"])) = 100)
  ∧ (timer_state (tray_run (tray_init ["zmk.exe"; "--device-name"; "Corne"]))
       = mkApp true 300 false 0 0
     ∧ _last_min_level (tray_run (tray_init ["zmk.exe"; "--device-name"; "Corne"])) = -1)
  ∧ timer_state (tray_run (tray_init ["zmk.exe"; "--verbose"; "--device-id"]))
    = mkApp true 300 false 0 0.
Proof.
  destruct (launch_starts_timer_or_window
              ["zmk.exe"; "--device-name"; "Corne"; "--device-id"; "C0:FF:EE:00:00:01"])
    as (Hboth & _ & _).
  destruct (launch_starts_timer_or_window ["zmk.exe"; "--device-name"; "Corne"])
    as (_ & Hone & _).
  destruct (launch_starts_timer_or_window ["zmk.exe"; "--verbose"; "--device-id"])
    as (_ & _ & Hnone).
  split; [|split].
  - apply Hboth. reflexivity.
  - apply Hone. reflexivity.
  - apply Hnone. intros arg Hin. cbn in Hin.
    apply elem_of_cons in Hin as [->|Hin]; [split; discriminate|].
    by apply elem_of_nil in Hin.
Defined.

(** ** The level on the icon *)

Lemma fold_min_level_spec items start :
  fold_min_level start items ≤ start
  ∧ (∀ item, item ∈ items → level item.2 ≠ -1 → fold_min_level start items ≤ level item.2)
  ∧ (fold_min_level start items = start
     ∨ ∃ item, item ∈ items ∧ level item.2 ≠ -1 ∧ fold_min_level start items = level item.2).
Proof.
  revert start. induction items as [|item rest IH]; intros start.
  - cbn. split; [lia|]. split; [|by left]. intros item Hin. by apply elem_of_nil in Hin.
  - unfold fold_min_level in *. cbn [foldl].
    set (next := if bool_decide (level item.2 ≠ -1) then Z.min start (level item.2) else start).
    destruct (IH next) as (Hle & Hall & Hatt).
    assert (Hnext : next ≤ start) by (subst next; case_bool_decide; lia).
    split; [lia|]. split.
    + intros item' Hin Hknown. apply elem_of_cons in Hin as [->|Hin]; [|by apply Hall].
      assert (next ≤ level item.2); [|lia].
      subst next. rewrite bool_decide_eq_true_2 by done. lia.
    + destruct Hatt as [Heq|(item' & Hin & Hknown & Heq)].
      * subst next. case_bool_decide as Hknown; [|by left].
        destruct (Z.min_spec start (level item.2)) as [[_ Hmin]|[_ Hmin]];
          rewrite Hmin in Heq |- *; [by left|].
        right. exists item. split; [apply elem_of_cons; by left|done].
      * right. exists item'. split; [apply elem_of_cons; by right|done].
Qed.

Lemma min_level_of_several batteries :
  (2 ≤ size batteries)%nat →
  min_level_of true batteries = fold_min_level 100 (map_to_list batteries).
Proof.
  intros Hsize. unfold min_level_of. cbn [negb orb].
  rewrite bool_decide_eq_false_2.
  2: { intros ->. rewrite map_size_empty in Hsize. lia. }
  rewrite <- length_map_to_list in Hsize.
  destruct (map_to_list batteries) as [|[h1 st1] [|[h2 st2] rest]]; cbn in Hsize; [lia|lia|done].
Qed.

(** X21. The level [_update_tray_icon] puts on the icon.  Without a live
    session or without channels it is [-1]; with one channel it is that
    channel's level, whatever it is.  With two channels or more it is at
    most 100 and at most every known level, and it is either 100 or the
    known level of a channel: unknown channels ([-1]) are ignored, a
    level above 100 is never shown, and when every channel is unknown
    the icon shows 100, not [-1]. *)
Theorem icon_level (connected : bool) (batteries : gmap N BatteryStatus) :
  (connected = false ∨ batteries = ∅ → min_level_of connected batteries = -1)
  ∧ (∀ handle status, connected = true → batteries = {[handle := status]} →
       min_level_of connected batteries = level status)
  ∧ (connected = true → (2 ≤ size batteries)%nat →
     min_level_of connected batteries ≤ 100
     ∧ (∀ handle status, batteries !! handle = Some status → level status ≠ -1 →
          min_level_of connected batteries ≤ level status)
     ∧ (min_level_of connected batteries = 100
        ∨ ∃ handle status, batteries !! handle = Some status ∧ level status ≠ -1
                           ∧ min_level_of connected batteries = level status)
     ∧ (map_Forall (λ _ status, level status = -1) batteries →
        min_level_of connected batteries = 100)).
Proof.
  split; [|split].
  - intros [-> | ->]; [done|]. unfold min_level_of. rewrite bool_decide_eq_true_2 by done.
    by rewrite orb_true_r.
  - intros handle status -> ->. unfold min_level_of. cbn [negb orb].
    rewrite bool_decide_eq_false_2 by apply insert_non_empty.
    by rewrite map_to_list_singleton.
  - intros -> Hsize. rewrite min_level_of_several by done.
    destruct (fold_min_level_spec (map_to_list batteries) 100) as (Hle & Hall & Hatt).
    assert (Hsome : fold_min_level 100 (map_to_list batteries) = 100
                    ∨ ∃ handle status, batteries !! handle = Some status ∧ level status ≠ -1
                        ∧ fold_min_level 100 (map_to_list batteries) = level status).
    { destruct Hatt as [Heq|([handle status] & Hin & Hknown & Heq)]; [by left|].
      right. exists handle, status. split; [by apply elem_of_map_to_list|done]. }
    split; [done|]. split; [|split; [done|]].
    + intros handle status Hlook Hknown.
      apply (Hall (handle, status)); [by apply elem_of_map_to_list|done].
    + intros Hunknown. destruct Hsome as [Heq|(handle & status & Hlook & Hknown & _)]; [done|].
      by specialize (Hunknown handle status Hlook).
Qed.

Lemma icon_level_witness :
  min_level_of false (<[16%N := mkBatteryStatus "Left" 240]>
                        (<[18%N := mkBatteryStatus "Right" (-1)]> ∅)) = -1
  ∧ min_level_of true {[18%N := mkBatteryStatus "Right" 240]} = 240
  ∧ min_level_of true (<[16%N := mkBatteryStatus "Left" 240]>
                         (<[18%N := mkBatteryStatus "Right" (-1)]> ∅)) ≤ 100.
Proof.
  destruct (icon_level false (<[16%N := mkBatteryStatus "Left" 240]>
                                (<[18%N := mkBatteryStatus "Right" (-1)]> ∅)))
    as (Hoff & _ & _).
  destruct (icon_level true {[18%N := mkBatteryStatus "Right" 240]}) as (_ & Hone & _).
  destruct (icon_level true (<[16%N := mkBatteryStatus "Left" 240]>
                               (<[18%N := mkBatteryStatus "Right" (-1)]> ∅)))
    as (_ & _ & Hseveral).
  split; [|split].
  - apply Hoff. by left.
  - apply (Hone 18%N (mkBatteryStatus "Right" 240)); reflexivity.
  - apply Hseveral; [reflexivity|]. vm_compute. lia.
Defined.

(** ** The low battery notification *)

Lemma _update_tray_icon_notifies s t :
  (_update_tray_icon s t).2 ≠ []
  ↔ 20 < _last_min_level t
    ∧ min_level_of (is_connected s) (batteries s) ≠ -1
    ∧ min_level_of (is_connected s) (batteries s) ≤ 20.
Proof.
  unfold _update_tray_icon, BATTERY_LOW_LEVEL_THRESHOLD. cbn [snd].
  destruct (Z.ltb_spec 20 (_last_min_level t)) as [Hlast|Hlast];
    destruct (Z.eqb_spec (min_level_of (is_connected s) (batteries s)) (-1)) as [Hmin|Hmin];
    destruct (Z.leb_spec (min_level_of (is_connected s) (batteries s)) 20) as [Hlow|Hlow];
    cbn [andb negb]; split; first [done|lia|intros (? & ? & ?); lia|idtac].
  all: by intros (? & ? & ?).
Qed.

Lemma _update_tray_icon_last s t :
  _last_min_level (_update_tray_icon s t).1.1 = min_level_of (is_connected s) (batteries s)
  ∧ (_update_tray_icon s t).1.2 = min_level_of (is_connected s) (batteries s)
  ∧ timer_state (_update_tray_icon s t).1.1 = timer_state t
  ∧ _device_name (_update_tray_icon s t).1.1 = _device_name t
  ∧ _device_id (_update_tray_icon s t).1.1 = _device_id t.
Proof. done. Qed.

(** X22. The low battery notification is shown on the way down only.  Of
    two icon updates in a row, the second one notifies exactly when the
    first one put a level above 20 on the icon and the second one a
    known level of 20 or less.  So an update that finds the monitor as
    the update before found it never notifies, and neither does the
    update after one that showed no level ([-1]) or a low level: a
    keyboard that connects with a low battery after the icon showed
    "not connected" is not reported. *)
Theorem low_battery_notified_on_the_way_down (s1 s2 : Sys) (t : TrayApp) :
  let first := _update_tray_icon s1 t in
  let second := _update_tray_icon s2 first.1.1 in
  (second.2 ≠ [] ↔ 20 < first.1.2 ∧ second.1.2 ≠ -1 ∧ second.1.2 ≤ 20)
  ∧ (first.1.2 ≤ 20 → second.2 = [])
  ∧ (is_connected s2 = is_connected s1 → batteries s2 = batteries s1 → second.2 = []).
Proof.
  cbn zeta.
  destruct (_update_tray_icon_last s1 t) as (Hlast & Hshown & _).
  destruct (_update_tray_icon_last s2 (_update_tray_icon s1 t).1.1) as (_ & Hshown2 & _).
  pose proof (_update_tray_icon_notifies s2 (_update_tray_icon s1 t).1.1) as Hn.
  rewrite Hlast in Hn. rewrite Hshown, Hshown2.
  split; [done|]. split.
  - intros Hlow. destruct (_update_tray_icon s2 _).2 eqn:Hsecond; [done|].
    assert (Hne : p :: l ≠ []) by done. apply Hn in Hne. lia.
  - intros Hc Hb. destruct (_update_tray_icon s2 _).2 eqn:Hsecond; [done|].
    assert (Hne : p :: l ≠ []) by done. apply Hn in Hne. rewrite Hc, Hb in Hne. lia.
Qed.

Lemma low_battery_notified_on_the_way_down_witness :
  (_update_tray_icon connected_store
     (_update_tray_icon connected_store (mkTray (app_init false) "Corne" "id" 100)).1.1).2 = [].
Proof.
  destruct (low_battery_notified_on_the_way_down connected_store connected_store
              (mkTray (app_init false) "Corne" "id" 100)) as (_ & _ & Hsame).
  apply Hsame; reflexivity.
Defined.

(** X23. The first icon update after a launch.  After a launch from a
    command line that names the device, the first update notifies exactly
    when it shows a known level of 20 or less.  After a launch that
    opens the window, the first update never notifies, however low the
    battery of the keyboard the user connects to. *)
Theorem first_update_after_launch (argv : list string) (s : Sys) :
  let t := tray_run (tray_init argv) in
  let level_shown := min_level_of (is_connected s) (batteries s) in
  (truthy (_device_name (tray_init argv)) && truthy (_device_id (tray_init argv)) = true →
   ((_update_tray_icon s t).2 ≠ [] ↔ level_shown ≠ -1 ∧ level_shown ≤ 20))
  ∧ (truthy (_device_name (tray_init argv)) && truthy (_device_id (tray_init argv)) = false →
     (_update_tray_icon s t).2 = []).
Proof.
  cbn zeta. split; intros Hargs.
  - rewrite _update_tray_icon_notifies. unfold tray_run. rewrite Hargs.
    cbn [_last_min_level]. split; [by intros (_ & ? & ?)|]. intros [? ?]. split; [lia|done].
  - destruct (_update_tray_icon s _).2 eqn:Hn; [done|].
    assert (Hne : p :: l ≠ []) by done. rewrite <- Hn in Hne.
    apply _update_tray_icon_notifies in Hne as (Hlast & _).
    unfold tray_run in Hlast. rewrite Hargs in Hlast. cbn [_last_min_level] in Hlast.
    assert (Hinit : _last_min_level (tray_init argv) = -1).
    { unfold tray_init, _process_command_line.
      by destruct (process_arguments (tail argv) _ _). }
    lia.
Qed.

Lemma first_update_after_launch_witness :
  (_update_tray_icon connected_store (tray_run (tray_init ["zmk.exe"]))).2 = [].
Proof.
  destruct (first_update_after_launch ["zmk.exe"] connected_store) as (_ & Hwindow).
  apply Hwindow. reflexivity.
Defined.

(** ** The registered command line *)

Lemma quoted_is_no_flag s :
  (quoted s =? STARTUP_ARG_DEVICE_NAME)%string = false
  ∧ (quoted s =? STARTUP_ARG_DEVICE_ID)%string = false.
Proof. done. Qed.

(** ** The monitor and the icon *)





Lemma handler_live callbacks sender data s :
  is_connected (_battery_level_changed_handler callbacks sender data s).2 = is_connected s.
Proof.
  destruct data as [|b value]; [done|].
  destruct (handler_run callbacks sender (b :: value) s) as (s1 & Hloop & ->).
  destruct (handler_loop_spec (_battery_characteristics (monitor s)) sender
              (level_of_byte b) s) as (s1' & Hrun & Hw & Hout & Hin).
  rewrite Hloop in Hrun. injection Hrun as <-.
  unfold is_connected. cbn.
  destruct (decide (sender ∈ (_battery_characteristics (monitor s)).*1)) as [Hs|Hs].
  - destruct (Hin Hs) as (d & _ & ->). done.
  - by rewrite (Hout Hs).
Qed.

(** X26. A notification on the icon.  In a live session, a notification
    from one of the session's characteristics that carries a known level
    (a first byte other than 255) makes the icon show a known level that
    is not above the notified one.  So a notified level of 20 or less,
    when the icon last showed more than 20, always raises the low
    battery notification, once. *)
Theorem notified_level_on_the_icon (callbacks : Callbacks) (sender : N) (b : byte)
    (value : list byte) (s : Sys) (t : TrayApp) :
  is_connected s = true →
  sender ∈ (_battery_characteristics (monitor s)).*1 →
  level_of_byte b ≠ -1 →
  let s' := (_battery_level_changed_handler callbacks sender (b :: value) s).2 in
  let shown := (_update_tray_icon s' t).1.2 in
  shown ≠ -1 ∧ shown ≤ level_of_byte b
  ∧ (20 < _last_min_level t → level_of_byte b ≤ 20 →
     (_update_tray_icon s' t).2
     = [(BATTERY_LOW_TIP_TITLE, _device_name t +:+ " battery level is below 20%")]).
Proof.
  intros Hlive Hsender Hknown. cbn zeta.
  pose proof (handler_sender_level callbacks sender b value s Hsender) as Hlevel.
  pose proof (handler_live callbacks sender (b :: value) s) as Hlive'.
  rewrite Hlive in Hlive'.
  set (s' := (_battery_level_changed_handler callbacks sender (b :: value) s).2) in *.
  destruct (batteries s' !! sender) as [status|] eqn:Hlook; [|done].
  cbn in Hlevel. injection Hlevel as Hlevel.
  destruct (_update_tray_icon_last s' t) as (_ & -> & _). rewrite Hlive'.
  assert (Hshown : min_level_of true (batteries s') ≠ -1
                   ∧ min_level_of true (batteries s') ≤ level_of_byte b).
  { destruct (decide (2 ≤ size (batteries s'))%nat) as [Hsize|Hsize].
    - rewrite min_level_of_several by done.
      destruct (fold_min_level_spec (map_to_list (batteries s')) 100)
        as (_ & Hall & Hatt).
      split.
      + destruct Hatt as [->|(item & _ & Hne & ->)]; [done|done].
      + rewrite <- Hlevel. apply (Hall (sender, status)); [|cbn; congruence].
        by apply elem_of_map_to_list.
    - assert (Hone : size (batteries s') = 1%nat).
      { assert (size (batteries s') ≠ 0%nat); [|lia].
        apply map_size_non_empty_iff. intros Hempty. by rewrite Hempty in Hlook. }
      unfold min_level_of. cbn [negb orb].
      rewrite bool_decide_eq_false_2.
      2: { intros Hempty. by rewrite Hempty in Hlook. }
      rewrite <- length_map_to_list in Hone.
      destruct (map_to_list (batteries s')) as [|[h st] [|? ?]] eqn:Hlist; cbn in Hone;
        [lia| |lia].
      assert (Hin : (sender, status) ∈ map_to_list (batteries s'))
        by by apply elem_of_map_to_list.
      rewrite Hlist in Hin. apply elem_of_cons in Hin as [[= <- <-]|Hin];
        [|by apply elem_of_nil in Hin].
      rewrite Hlevel. split; [done|lia]. }
  destruct Hshown as [Hne Hle]. split; [done|]. split; [done|].
  intros Hlast Hlow. unfold _update_tray_icon. cbn [snd]. rewrite Hlive'.
  unfold BATTERY_LOW_LEVEL_THRESHOLD.
  destruct (Z.ltb_spec 20 (_last_min_level t)); [|lia].
  destruct (Z.eqb_spec (min_level_of true (batteries s')) (-1)); [done|].
  destruct (Z.leb_spec (min_level_of true (batteries s')) 20); [done|lia].
Qed.

Lemma notified_level_on_the_icon_witness :
  (_update_tray_icon (_battery_level_changed_handler returning 16 [Byte.x0f] connected_store).2
     (mkTray (app_init false) "Corne" "" 80)).1.2 ≠ -1
  ∧ (_update_tray_icon (_battery_level_changed_handler returning 16 [Byte.x0f] connected_store).2
       (mkTray (app_init false) "Corne" "" 80)).1.2 ≤ level_of_byte Byte.x0f
  ∧ (20 < 80 → level_of_byte Byte.x0f ≤ 20 →
     (_update_tray_icon (_battery_level_changed_handler returning 16 [Byte.x0f] connected_store).2
        (mkTray (app_init false) "Corne" "" 80)).2
     = [(BATTERY_LOW_TIP_TITLE, "Corne" +:+ " battery level is below 20%")]).
Proof.
  apply (notified_level_on_the_icon returning 16 Byte.x0f [] connected_store
           (mkTray (app_init false) "Corne" "" 80)).
  - reflexivity.
  - vm_compute. apply elem_of_cons. by left.
  - vm_compute. discriminate.
Defined.

(** * The registry helper *)

Section RegistryProperties.

Variable reg : Registry.

Ltac run_registry :=
  unfold ends, is_auto_run_enabled, set_auto_run_enabled, is_system_using_light_theme,
    r_try_except, r_try_finally, r_bind, r_ret, winreg, reg_logger;
  cbn [reg_calls reg_log].

Ltac ended :=
  cbn [reg_calls reg_log]; rewrite <- ?(assoc_L (++)); cbn [app];
  first [ eexists []; rewrite (right_id_L [] (++)); split; reflexivity
        | eexists [_]; split; reflexivity ].

Lemma is_auto_run_enabled_cases st :
  match reg_open reg AUTORUN_REG_KEY KEY_READ, reg_query reg APP_NAME, reg_close reg with
  | Raised _, _, _ =>
      ends (is_auto_run_enabled reg) st false [RegOpenKeyEx AUTORUN_REG_KEY KEY_READ] 1
  | Returned _, found, Returned _ =>
      ends (is_auto_run_enabled reg) st
           (match found with Returned _ => true | Raised _ => false end)
           [RegOpenKeyEx AUTORUN_REG_KEY KEY_READ; RegQueryValueEx APP_NAME; RegCloseKey] 0
  | Returned _, _, Raised _ =>
      ends (is_auto_run_enabled reg) st false
           [RegOpenKeyEx AUTORUN_REG_KEY KEY_READ; RegQueryValueEx APP_NAME; RegCloseKey] 1
  end.
Proof.
  destruct st as [made logged]. run_registry.
  destruct (reg_open reg AUTORUN_REG_KEY KEY_READ) as [key|e]; [|ended].
  destruct (reg_query reg APP_NAME) as [value|e]; destruct (reg_close reg) as [?|e'];
    ended.
Qed.

Lemma is_system_using_light_theme_cases st :
  match reg_open reg THEME_REG_KEY KEY_READ, reg_query reg "SystemUsesLightTheme",
        reg_close reg with
  | Raised _, _, _ =>
      ends (is_system_using_light_theme reg) st true [RegOpenKeyEx THEME_REG_KEY KEY_READ] 1
  | Returned _, found, Returned _ =>
      ends (is_system_using_light_theme reg) st
           (match found with Returned value => reg_truthy value | Raised _ => true end)
           [RegOpenKeyEx THEME_REG_KEY KEY_READ; RegQueryValueEx "SystemUsesLightTheme";
            RegCloseKey] 0
  | Returned _, _, Raised _ =>
      ends (is_system_using_light_theme reg) st true
           [RegOpenKeyEx THEME_REG_KEY KEY_READ; RegQueryValueEx "SystemUsesLightTheme";
            RegCloseKey] 1
  end.
Proof.
  destruct st as [made logged]. run_registry.
  destruct (reg_open reg THEME_REG_KEY KEY_READ) as [key|e]; [|ended].
  destruct (reg_query reg "SystemUsesLightTheme") as [value|e];
    destruct (reg_close reg) as [?|e']; ended.
Qed.

Lemma set_auto_run_enabled_cases exe_path enabled device_name device_id st :
  let write := auto_run_write reg exe_path enabled device_name device_id in
  match reg_open reg AUTORUN_REG_KEY KEY_ALL_ACCESS, write.2, reg_close reg with
  | Raised _, _, _ =>
      ends (set_auto_run_enabled reg exe_path enabled device_name device_id) st false
           [RegOpenKeyEx AUTORUN_REG_KEY KEY_ALL_ACCESS] 1
  | Returned _, Returned _, Returned _ =>
      ends (set_auto_run_enabled reg exe_path enabled device_name device_id) st true
           [RegOpenKeyEx AUTORUN_REG_KEY KEY_ALL_ACCESS; write.1; RegCloseKey] 0
  | Returned _, _, _ =>
      ends (set_auto_run_enabled reg exe_path enabled device_name device_id) st false
           [RegOpenKeyEx AUTORUN_REG_KEY KEY_ALL_ACCESS; write.1; RegCloseKey] 1
  end.
Proof.
  destruct st as [made logged]. cbn zeta. unfold auto_run_write. run_registry.
  destruct (reg_open reg AUTORUN_REG_KEY KEY_ALL_ACCESS) as [key|e]; [|ended].
  destruct enabled; cbn [fst snd].
  - destruct (reg_set reg APP_NAME _) as [?|e]; destruct (reg_close reg) as [?|e'];
      ended.
  - destruct (reg_delete reg APP_NAME) as [?|e]; destruct (reg_close reg) as [?|e'];
      ended.
Qed.

End RegistryProperties.

(** X27. The three operations of the registry helper never raise,
    whatever the registry answers, and these are the calls they make.
    Each opens one key first.  If the opening is refused, it makes no
    other call.  Otherwise it makes exactly one more call (the query of
    the value; for [set_auto_run_enabled] the write of the command line
    or the deletion of the value) and then closes the key, exactly once
    and as its last call, also when the call in between raised.
    [is_auto_run_enabled] and [is_system_using_light_theme] never write,
    and [set_auto_run_enabled] never reads. *)
Theorem registry_helper_brackets (reg : Registry) (st : RegState) (exe_path : string)
    (enabled : bool) (device_name device_id : string) :
  (∃ result lines,
     ends (is_auto_run_enabled reg) st result
          match reg_open reg AUTORUN_REG_KEY KEY_READ with
          | Raised _ => [RegOpenKeyEx AUTORUN_REG_KEY KEY_READ]
          | Returned _ =>
              [RegOpenKeyEx AUTORUN_REG_KEY KEY_READ; RegQueryValueEx APP_NAME; RegCloseKey]
          end lines)
  ∧ (∃ result lines,
       ends (is_system_using_light_theme reg) st result
            match reg_open reg THEME_REG_KEY KEY_READ with
            | Raised _ => [RegOpenKeyEx THEME_REG_KEY KEY_READ]
            | Returned _ =>
                [RegOpenKeyEx THEME_REG_KEY KEY_READ;
                 RegQueryValueEx "SystemUsesLightTheme"; RegCloseKey]
            end lines)
  ∧ (∃ result lines,
       ends (set_auto_run_enabled reg exe_path enabled device_name device_id) st result
            match reg_open reg AUTORUN_REG_KEY KEY_ALL_ACCESS with
            | Raised _ => [RegOpenKeyEx AUTORUN_REG_KEY KEY_ALL_ACCESS]
            | Returned _ =>
                [RegOpenKeyEx AUTORUN_REG_KEY KEY_ALL_ACCESS;
                 if enabled
                 then RegSetValueEx APP_NAME
                        (auto_run_value exe_path device_name device_id)
                 else RegDeleteValue APP_NAME;
                 RegCloseKey]
            end lines).
Proof.
  split; [|split].
  - pose proof (is_auto_run_enabled_cases reg st) as Hcases.
    destruct (reg_open reg AUTORUN_REG_KEY KEY_READ);
      [destruct (reg_query reg APP_NAME); destruct (reg_close reg)|];
      eexists _, _; exact Hcases.
  - pose proof (is_system_using_light_theme_cases reg st) as Hcases.
    destruct (reg_open reg THEME_REG_KEY KEY_READ);
      [destruct (reg_query reg "SystemUsesLightTheme"); destruct (reg_close reg)|];
      eexists _, _; exact Hcases.
  - pose proof (set_auto_run_enabled_cases reg exe_path enabled device_name device_id st)
      as Hcases. cbn zeta in Hcases. unfold auto_run_write in Hcases.
    destruct (reg_open reg AUTORUN_REG_KEY KEY_ALL_ACCESS);
      [destruct enabled; cbn [fst snd] in Hcases;
       [destruct (reg_set reg APP_NAME _)|destruct (reg_delete reg APP_NAME)];
       destruct (reg_close reg)|];
      eexists _, _; exact Hcases.
Qed.

(** X28. What the results of the registry helper mean.
    [is_auto_run_enabled] answers [True] exactly when the key opens, the
    value is found and the key closes.  [is_system_using_light_theme]
    answers [False] (dark) exactly when the key opens, a false value is
    found and the key closes: every failure gives the light theme.
    [set_auto_run_enabled] answers [True] exactly when the key opens,
    the write (or the deletion) succeeds and the key closes; so a
    refused close makes it report a failure after the value has been
    written, and disabling fails when the deletion is refused. *)
Theorem registry_helper_results (reg : Registry) (st : RegState) (exe_path : string)
    (enabled : bool) (device_name device_id : string) :
  ((is_auto_run_enabled reg st).1 = Returned true
   ↔ reg_open reg AUTORUN_REG_KEY KEY_READ = Returned tt
     ∧ (∃ value, reg_query reg APP_NAME = Returned value)
     ∧ reg_close reg = Returned tt)
  ∧ ((is_system_using_light_theme reg st).1 = Returned false
     ↔ reg_open reg THEME_REG_KEY KEY_READ = Returned tt
       ∧ (∃ value, reg_query reg "SystemUsesLightTheme" = Returned value
                   ∧ reg_truthy value = false)
       ∧ reg_close reg = Returned tt)
  ∧ ((set_auto_run_enabled reg exe_path enabled device_name device_id st).1 = Returned true
     ↔ reg_open reg AUTORUN_REG_KEY KEY_ALL_ACCESS = Returned tt
       ∧ (if enabled
          then reg_set reg APP_NAME (auto_run_value exe_path device_name device_id)
               = Returned tt
          else reg_delete reg APP_NAME = Returned tt)
       ∧ reg_close reg = Returned tt).
Proof.
  split; [|split].
  - pose proof (is_auto_run_enabled_cases reg st) as Hcases.
    destruct (reg_open reg AUTORUN_REG_KEY KEY_READ) as [[]|e];
      [destruct (reg_query reg APP_NAME) as [value|e];
       destruct (reg_close reg) as [[]|e']|];
      destruct Hcases as (logged & -> & _); cbn [fst]; split;
      first [ by intros [= ?] | by intros (? & ? & ?) | by intros (? & [? ?] & ?) | idtac ].
    intros _. split; [done|]. split; [by exists value|done].
  - pose proof (is_system_using_light_theme_cases reg st) as Hcases.
    destruct (reg_open reg THEME_REG_KEY KEY_READ) as [[]|e];
      [destruct (reg_query reg "SystemUsesLightTheme") as [value|e];
       destruct (reg_close reg) as [[]|e']|];
      destruct Hcases as (logged & -> & _); cbn [fst]; split;
      first [ by intros [= ?] | by intros (? & ? & ?) | by intros (? & (? & ? & ?) & ?)
            | idtac ].
    + intros [= Hfalse]. split; [done|]. split; [by exists value|done].
    + intros (_ & (value' & [= <-] & Hfalse) & _). by rewrite Hfalse.
  - pose proof (set_auto_run_enabled_cases reg exe_path enabled device_name device_id st)
      as Hcases. cbn zeta in Hcases. unfold auto_run_write in Hcases.
    destruct (reg_open reg AUTORUN_REG_KEY KEY_ALL_ACCESS) as [[]|e];
      [destruct enabled; cbn [fst snd] in Hcases;
       [destruct (reg_set reg APP_NAME _) as [[]|e]
       |destruct (reg_delete reg APP_NAME) as [[]|e]];
       destruct (reg_close reg) as [[]|e']|];
      destruct Hcases as (logged & -> & _); cbn [fst]; split;
      first [ done | by intros [= ?] | by intros (? & ? & ?) ].
Qed.

(** ** The registered command line, read back *)

(** X24. The command line registered for the start-up is read back.
    For a device name and an address that are not empty,
    [set_auto_run_enabled] writes, when the key opens, the words
    [exe --device-name name --device-id address] separated by single
    spaces, with the path, the name and the address between double
    quotes.  A launch with these words as arguments starts the reconnect
    timer for this name and this address, provided neither begins or
    ends with a double quote; so does a launch with the same words after
    the shell has taken the quotes off, provided the name is not one of
    the two flags. *)
Theorem registered_device_is_read_back (reg : Registry) (st : RegState)
    (exe_path n i : string) :
  n ≠ "" → i ≠ "" →
  first_char n ≠ Some double_quote → last_char n ≠ Some double_quote →
  first_char i ≠ Some double_quote → last_char i ≠ Some double_quote →
  let registered :=
    [quoted exe_path; STARTUP_ARG_DEVICE_NAME; quoted n; STARTUP_ARG_DEVICE_ID; quoted i] in
  auto_run_value exe_path n i = unwords registered
  ∧ (reg_open reg AUTORUN_REG_KEY KEY_ALL_ACCESS = Returned tt →
     ∃ result lines,
       ends (set_auto_run_enabled reg exe_path true n i) st result
            [RegOpenKeyEx AUTORUN_REG_KEY KEY_ALL_ACCESS;
             RegSetValueEx APP_NAME (unwords registered);
             RegCloseKey] lines)
  ∧ (∀ program,
       tray_run (tray_init (program :: tail registered))
       = mkTray (mkApp false 300 true 1 0) n i 100)
  ∧ (∀ program,
       n ≠ STARTUP_ARG_DEVICE_NAME → n ≠ STARTUP_ARG_DEVICE_ID →
       tray_run (tray_init [program; STARTUP_ARG_DEVICE_NAME; n; STARTUP_ARG_DEVICE_ID; i])
       = mkTray (mkApp false 300 true 1 0) n i 100).
Proof.
  intros Hn Hi Hn1 Hn2 Hi1 Hi2. cbn zeta.
  assert (Hvalue : auto_run_value exe_path n i
                   = unwords [quoted exe_path; STARTUP_ARG_DEVICE_NAME; quoted n;
                              STARTUP_ARG_DEVICE_ID; quoted i]).
  { unfold auto_run_value. destruct n; [done|]. destruct i; [done|]. done. }
  assert (Hrun : tray_run (mkTray (app_init false) n i (-1))
                 = mkTray (mkApp false 300 true 1 0) n i 100).
  { unfold tray_run. cbn. destruct n; [done|]. destruct i; [done|]. done. }
  split; [done|]. split; [|split].
  - intros Hopen.
    pose proof (set_auto_run_enabled_cases reg exe_path true n i st) as Hcases.
    cbn zeta in Hcases. unfold auto_run_write in Hcases. cbn [fst snd] in Hcases.
    rewrite Hopen, Hvalue in Hcases.
    destruct (reg_set reg APP_NAME _); destruct (reg_close reg); eexists _, _; exact Hcases.
  - intros program. rewrite <- Hrun. f_equal.
    unfold tray_init, _process_command_line. cbn [tail process_arguments].
    destruct (quoted_is_no_flag n) as [-> ->].
    change (STARTUP_ARG_DEVICE_NAME =? STARTUP_ARG_DEVICE_ID)%string with false.
    change (STARTUP_ARG_DEVICE_ID =? STARTUP_ARG_DEVICE_ID)%string with true.
    change (STARTUP_ARG_DEVICE_NAME =? STARTUP_ARG_DEVICE_NAME)%string with true.
    cbn iota. rewrite !strip_quotes_quoted, !strip_quotes_id by done. done.
  - intros program Hflag1 Hflag2. rewrite <- Hrun. f_equal.
    unfold tray_init, _process_command_line. cbn [tail process_arguments].
    apply String.eqb_neq in Hflag1, Hflag2. rewrite Hflag1, Hflag2.
    change (STARTUP_ARG_DEVICE_NAME =? STARTUP_ARG_DEVICE_ID)%string with false.
    change (STARTUP_ARG_DEVICE_ID =? STARTUP_ARG_DEVICE_ID)%string with true.
    change (STARTUP_ARG_DEVICE_NAME =? STARTUP_ARG_DEVICE_NAME)%string with true.
    cbn iota. rewrite !strip_quotes_id by done. done.
Qed.

(** A registry that accepts every call. *)
Lemma registered_device_is_read_back_witness :
  let registered :=
    [quoted "C:\zmk.exe"; STARTUP_ARG_DEVICE_NAME; quoted "Corne Keyboard";
     STARTUP_ARG_DEVICE_ID; quoted "C0:FF:EE:00:00:01"] in
  auto_run_value "C:\zmk.exe" "Corne Keyboard" "C0:FF:EE:00:00:01" = unwords registered
  ∧ (∀ program,
       tray_run (tray_init (program :: tail registered))
       = mkTray (mkApp false 300 true 1 0) "Corne Keyboard" "C0:FF:EE:00:00:01" 100).
Proof.
  cbn zeta.
  destruct (registered_device_is_read_back
              (mkRegistry (λ _ _, Returned tt) (λ _, Raised "not found")
                          (λ _ _, Returned tt) (λ _, Returned tt) (Returned tt))
              (mkRegState [] []) "C:\zmk.exe" "Corne Keyboard" "C0:FF:EE:00:00:01")
    as (Hvalue & _ & Hquoted & _); [vm_compute; discriminate..|].
  split; [exact Hvalue|exact Hquoted].
Defined.

(** * The command-line scanner *)

Lemma char_length_app (a c : string) :
  char_length (a +:+ c) = (char_length a + char_length c)%nat.
Proof.
  induction a as [|x a IH]; [done|].
  change (String x a +:+ c) with (String x (a +:+ c)). cbn [char_length].
  rewrite IH. by destruct (is_continuation x).
Qed.

Lemma char_length_spaces n : char_length (repeat_char " " n) = n.
Proof. induction n as [|n IH]; [done|]. cbn [repeat_char char_length]. by rewrite IH. Qed.

Lemma ljust_char_length width s :
  char_length (ljust width s) = Nat.max width (char_length s).
Proof. unfold ljust. rewrite char_length_app, char_length_spaces. lia. Qed.

Lemma omap_length_le {A B} (f : A → option B) (l : list A) :
  (length (omap f l) ≤ length l)%nat.
Proof. induction l as [|a l IH]; [done|]. cbn. destruct (f a); cbn; lia. Qed.

(** X29. The table of the scanner.  When the scan finds devices, the
    scanner prints five lines and then one row per device, in discovery
    order, also for the devices without a name that
    [list_paired_devices] leaves out.  A row is the address, padded with
    spaces to 20 characters, the separator, and the name (or [Unknown]),
    padded with spaces to 30 characters, counted in characters and not
    in bytes.  The heading is 53 characters wide and so is every row
    whose address has at most 20 characters and whose name at most 30:
    the separator then stands in columns 21 to 23, under the separator of
    the heading; longer values push it to the right. *)
Theorem scanner_table (ble : Transport) (devices : list BLEDevice) :
  ble_discover ble = Returned devices → devices ≠ [] →
  length (scanner_main ble) = (5 + length devices)%nat
  ∧ (length (reported devices) ≤ length devices)%nat
  ∧ (∃ left right,
       scanner_main ble !! 3%nat = Some (left +:+ " | " +:+ right)
       ∧ char_length left = 20%nat ∧ char_length right = 30%nat)
  ∧ ∀ (i : nat) (device : BLEDevice),
      devices !! i = Some device →
      ∃ spaces_left spaces_right,
        scanner_main ble !! (5 + i)%nat
        = Some ((device_address device +:+ repeat_char " " spaces_left)
                +:+ " | "
                +:+ (or_else (device_name device) "Unknown"
                     +:+ repeat_char " " spaces_right))
        ∧ (char_length (device_address device) + spaces_left
           = Nat.max 20 (char_length (device_address device)))%nat
        ∧ (char_length (or_else (device_name device) "Unknown") + spaces_right
           = Nat.max 30 (char_length (or_else (device_name device) "Unknown")))%nat.
Proof.
  intros Hscan Hne.
  assert (Hout : scanner_main ble
                 = ["Scanning for BLE devices...";
                    newline +:+ "Found BLE devices:";
                    repeat_char "-" 50;
                    ljust 20 "Address" +:+ " | " +:+ ljust 30 "Name";
                    repeat_char "-" 50] ++ map device_row devices).
  { unfold scanner_main, scan_ble_devices. rewrite Hscan. by destruct devices. }
  rewrite Hout. split; [|split; [|split]].
  - rewrite length_app, length_map. done.
  - unfold reported. apply omap_length_le.
  - exists (ljust 20 "Address"), (ljust 30 "Name"). split; [done|].
    by rewrite !ljust_char_length.
  - intros i device Hi.
    exists (20 - char_length (device_address device))%nat,
           (30 - char_length (or_else (device_name device) "Unknown"))%nat.
    split; [|lia].
    rewrite lookup_app_r by (cbn; lia).
    replace (5 + i - length _)%nat with i by (cbn; lia).
    change (map device_row devices) with (device_row <$> devices).
    by rewrite list_lookup_fmap, Hi.
Qed.

(** A name with a letter outside ASCII: the row has 53 characters in 54
    bytes. *)
Lemma scanner_table_witness :
  length (scanner_main scan_accent) = 7%nat
  ∧ (∃ row, scanner_main scan_accent !! 5%nat = Some row
            ∧ char_length row = 53%nat ∧ String.length row = 54%nat)
  ∧ (∃ row, scanner_main scan_accent !! 6%nat = Some row
            ∧ char_length row = 53%nat ∧ String.length row = 53%nat).
Proof.
  destruct (scanner_table scan_accent
              [ mkDevice (Some "Café") "C0:FF:EE:00:00:03"; mkDevice None "11:11" ])
    as (Hlength & _ & _ & Hrows); [reflexivity|discriminate|].
  split; [exact Hlength|].
  destruct (Hrows 0%nat (mkDevice (Some "Café") "C0:FF:EE:00:00:03") eq_refl)
    as (l0 & r0 & Hrow0 & Hl0 & Hr0).
  destruct (Hrows 1%nat (mkDevice None "11:11") eq_refl) as (l1 & r1 & Hrow1 & Hl1 & Hr1).
  vm_compute in Hl0, Hr0, Hl1, Hr1.
  assert (l0 = 3%nat) as -> by lia. assert (r0 = 26%nat) as -> by lia.
  assert (l1 = 15%nat) as -> by lia. assert (r1 = 23%nat) as -> by lia.
  split; eexists; (split; [eassumption|]); vm_compute; done.
Defined.

(** * The session over a sequence of operations *)

(** X30. A monitor without a client has no channel and no
    characteristic.  This holds after every sequence of connects,
    disconnects (from inside the event loop or not), reads and
    notifications, of pending tasks run by the event loop and of links
    that drop, from the creation of the monitor on, whatever the
    transport answers and the callbacks do at each step, as long as no
    subscription is refused. *)
Theorem session_stays_consistent (steps : list (Transport * Callbacks * Operation)) :
  Forall (λ step, ∀ uuid, ble_start_notify step.1.1 uuid = Returned tt) steps →
  let s := foldl (λ s step, run step.1.1 step.1.2 step.2 s) initial steps in
  _client (monitor s) = None →
  batteries s = ∅ ∧ _battery_characteristics (monitor s) = [].
Proof.
  intros Hok. cbn zeta.
  assert (Hinv : ∀ s, session_inv s →
                      session_inv (foldl (λ s step, run step.1.1 step.1.2 step.2 s) s steps)).
  { induction Hok as [|[[ble callbacks] op] steps Hstep _ IH]; intros s Hs; [done|].
    cbn [foldl]. apply IH. by apply session_inv_run. }
  apply Hinv. unfold session_inv. done.
Qed.

Lemma session_stays_consistent_witness :
  let s := foldl (λ s step, run step.1.1 step.1.2 step.2 s) initial
             [ (healthy, returning, connect_keyboard);
               (reads_fail, device_callback_raises, Notification 16 [Byte.x0f]);
               (healthy, returning, LinkLost 0);
               (healthy, completion_callback_raises, ReadBatteryLevels);
               (healthy, returning, Disconnect false);
               (healthy, returning, RunTask) ] in
  _client (monitor s) = None
  ∧ batteries s = ∅ ∧ _battery_characteristics (monitor s) = [].
Proof.
  cbn zeta. split; [vm_compute; reflexivity|].
  apply (session_stays_consistent
           [ (healthy, returning, connect_keyboard);
             (reads_fail, device_callback_raises, Notification 16 [Byte.x0f]);
             (healthy, returning, LinkLost 0);
             (healthy, completion_callback_raises, ReadBatteryLevels);
             (healthy, returning, Disconnect false);
             (healthy, returning, RunTask) ]).
  - repeat (apply Forall_cons; split; [intros uuid; reflexivity|]). apply Forall_nil.
    done.
  - vm_compute. reflexivity.
Defined.
